(** * Protocol extractor: methods-section heuristics and the cache layer

    A shallow embedding of [protocolo_extractor.py]: the XML methods
    extractor ([PubMedClient._extract_methods]), the file cache
    ([CacheManager]), the article search ([PubMedClient.search_articles])
    and the protocol synthesis entry point ([LLMProcessor.generate_protocol]).

    Python values are modelled as the code has them:
    - a [str] is a sequence of Unicode code points ([pystr]);
    - an [Optional[str]] is an [option pystr];
    - an [xml.etree.ElementTree.Element] is a tree with [tag], [text],
      [tail] and its list of children;
    - a raised exception is the [Raised] branch of [outcome]. *)

From Stdlib Require Import ZArith NArith List Bool Ascii String DecimalString Lia.
From stdpp Require Import base option list gmap.

Set Warnings "-register-all,-notation-for-abbreviation".

Open Scope Z_scope.
Open Scope list_scope.

(** ** Python strings *)

Module PyStr.

Definition char := N.
Definition pystr := list char.

(** An ASCII literal as a Python string. *)
Definition py (s : string) : pystr :=
  List.map N_of_ascii (list_ascii_of_string s).

Fixpoint eqb (a b : pystr) : bool :=
  match a, b with
  | [], [] => true
  | x :: a', y :: b' => N.eqb x y && eqb a' b'
  | _, _ => false
  end.

(** [bool(s)] for an [Optional[str]]: [None] and the empty string are falsy. *)
Definition truthy (o : option pystr) : bool :=
  match o with
  | Some (_ :: _) => true
  | _ => false
  end.

(** [str.isspace] on one code point (the table of [Py_UNICODE_ISSPACE]);
    [str.strip()] and the regular-expression class [\s] both use it. *)
Definition isspace (c : char) : bool :=
  ((9 <=? c) && (c <=? 13) || (28 <=? c) && (c <=? 32)
   || (c =? 133) || (c =? 160) || (c =? 5760)
   || (8192 <=? c) && (c <=? 8202)
   || (c =? 8232) || (c =? 8233) || (c =? 8239) || (c =? 8287)
   || (c =? 12288))%N.

Fixpoint lstrip (s : pystr) : pystr :=
  match s with
  | c :: s' => if isspace c then lstrip s' else s
  | [] => []
  end.

Definition rstrip (s : pystr) : pystr := rev (lstrip (rev s)).

(** [s.strip()] *)
Definition strip (s : pystr) : pystr := rstrip (lstrip s).

Fixpoint is_prefix (p s : pystr) : bool :=
  match p, s with
  | [], _ => true
  | a :: p', c :: s' => N.eqb a c && is_prefix p' s'
  | _ :: _, [] => false
  end.

(** [needle in s] *)
Fixpoint contains (needle s : pystr) : bool :=
  is_prefix needle s ||
  match s with
  | [] => false
  | _ :: s' => contains needle s'
  end.

(** [sep.join(parts)] *)
Fixpoint join (sep : pystr) (parts : list pystr) : pystr :=
  match parts with
  | [] => []
  | [p] => p
  | p :: rest => p ++ sep ++ join sep rest
  end.

Definition is_ascii (c : char) : bool := (c <? 128)%N.

Definition ascii_lower (c : char) : char :=
  if ((65 <=? c) && (c <=? 90))%N then (c + 32)%N else c.

(** [s[:n]] for a non-negative [n] *)
Definition slice_to (n : nat) (s : pystr) : pystr := firstn n s.

(** [str(n)] for an [int] *)
Definition str_of_int (n : Z) : pystr :=
  py (DecimalString.NilZero.string_of_int (Z.to_int n)).

End PyStr.
Import PyStr.

(** ** Exceptions *)

(** The ways a request of the [requests] library fails: no response
    (connection error, timeout), an error status, a body that is not JSON.
    Each is a [requests.RequestException]. *)
Inductive request_failure := ConnectionFailed | HTTPError | InvalidJSON.

Inductive exn :=
| AttributeError
| TypeError
| KeyError (key : pystr)
| ValueError (msg : pystr)
| InvalidIsoformat
| OSError
| UnicodeEncodeError
| UnicodeDecodeError
| JSONDecodeError
| RequestException (failure : request_failure)
| OpenAIError.

Inductive outcome (A : Type) :=
| Returned (a : A)
| Raised (e : exn).
Arguments Returned {A} a.
Arguments Raised {A} e.

Definition obind {A B} (m : outcome A) (k : A -> outcome B) : outcome B :=
  match m with
  | Returned a => k a
  | Raised e => Raised e
  end.

Notation "'let!' x ':=' m 'in' k" := (obind m (fun x => k))
  (at level 10, x name, m at level 100, k at level 200).

(** A method call on an [Optional[str]] receiver: [None] has no methods. *)
Definition on_str {A} (o : option pystr) (f : pystr -> A) : outcome A :=
  match o with
  | Some s => Returned (f s)
  | None => Raised AttributeError
  end.


(** ** Element trees

    [xml.etree.ElementTree.Element] as the extractor reads it: the tag, the
    text before the first child, the text after the end tag ([tail]) and the
    children in document order. Attributes are never read by the extractor. *)

Inductive Element :=
| mkElement (tag : pystr) (text : option pystr) (tail : option pystr)
            (children : list Element).

Definition tag (e : Element) : pystr :=
  match e with mkElement t _ _ _ => t end.
Definition text (e : Element) : option pystr :=
  match e with mkElement _ t _ _ => t end.
Definition tail (e : Element) : option pystr :=
  match e with mkElement _ _ t _ => t end.
Definition children (e : Element) : list Element :=
  match e with mkElement _ _ _ cs => cs end.

(** [e.iter()]: the element itself, then its subtree, in document order. *)
Fixpoint iter (e : Element) : list Element :=
  match e with
  | mkElement _ _ _ cs => e :: flat_map iter cs
  end.

(** [e.iter(t)] *)
Definition iter_tag (t : pystr) (e : Element) : list Element :=
  List.filter (fun x => eqb (tag x) t) (iter e).

(** [e.find(t)] for a plain tag name: the first child with that tag. *)
Definition find_child (t : pystr) (e : Element) : option Element :=
  List.find (fun x => eqb (tag x) t) (children e).

(** [e.find(".//t")]: the first element with that tag on any level beneath
    [e] ([e] itself is not a candidate). *)
Definition find_descendant (t : pystr) (e : Element) : option Element :=
  List.find (fun x => eqb (tag x) t) (flat_map iter (children e)).

(** [e.itertext()]: the inner text, without [e]'s own tail. *)
Fixpoint itertext (e : Element) : list pystr :=
  match e with
  | mkElement _ tx _ cs =>
      (if truthy tx then [default [] tx] else []) ++
      flat_map (fun c => itertext c ++
                         (if truthy (tail c) then [default [] (tail c)] else []))
               cs
  end.

(** ** The methods extractor *)

Module Extractor.

Definition methods_titles : list pystr :=
  [ py "methods"; py "materials and methods"; py "experimental procedures";
    py "methodology"; py "experimental methods"; py "materials & methods";
    py "experimental section"; py "experimental" ].

Definition body_patterns : list pystr :=
  [ py "Materials and Methods"; py "Methods"; py "Experimental" ].

Definition end_markers : list pystr :=
  [ py "Results"; py "Discussion"; py "Conclusion" ].

(** *** The regular expression of the body fallback

    [re.search(rf"{pattern}[:\s]+(.*?)(?:Results|Discussion|Conclusion)",
    body_text, re.IGNORECASE | re.DOTALL)], as the backtracking matcher
    runs it. *)

(** The code point a text character is compared under, with
    [re.IGNORECASE]: ASCII letters fold to lower case; beyond ASCII only
    U+0130 and U+0131 (dotted and dotless i), U+017F (long s) and U+212A
    (Kelvin sign) meet an ASCII letter. *)
Definition re_fold (c : char) : char :=
  if is_ascii c then ascii_lower c
  else if ((c =? 304) || (c =? 305))%N then 105%N
  else if (c =? 383)%N then 115%N
  else if (c =? 8490)%N then 107%N
  else c.

(** One literal (ASCII) pattern character against one text character. *)
Definition ci_char (p c : char) : bool := N.eqb (ascii_lower p) (re_fold c).

(** The literal [p] matches at the start of [s], ignoring case. *)
Fixpoint ci_prefix (p s : pystr) : bool :=
  match p, s with
  | [], _ => true
  | a :: p', c :: s' => ci_char a c && ci_prefix p' s'
  | _ :: _, [] => false
  end.

Definition at_end_marker (s : pystr) : bool :=
  existsb (fun m => ci_prefix m s) end_markers.

(** [(.*?)(?:Results|Discussion|Conclusion)] from the start of [s]: the
    shortest run of characters (any, with [re.DOTALL]) that an end marker
    follows; the run is capture group 1. *)
Fixpoint lazy_until_marker (s : pystr) : option pystr :=
  if at_end_marker s then Some []
  else match s with
       | [] => None
       | c :: s' => option_map (cons c) (lazy_until_marker s')
       end.

(** The class [[:\s]] *)
Definition is_sep (c : char) : bool := N.eqb c 58 || isspace c.

(** Length of the longest run of separators at the start of [s]. *)
Fixpoint sep_run (s : pystr) : nat :=
  match s with
  | c :: s' => if is_sep c then S (sep_run s') else O
  | [] => O
  end.

(** Greedy [[:\s]+]: take [k] separators, the most first, and give one back
    each time the rest of the expression fails; at least one is kept. *)
Fixpoint sep_then_capture (k : nat) (s : pystr) : option pystr :=
  match k with
  | O => None
  | S k' =>
      match lazy_until_marker (skipn k s) with
      | Some g => Some g
      | None => sep_then_capture k' s
      end
  end.

(** A match starting exactly at the start of [s]; the result is group 1. *)
Definition match_here (pattern s : pystr) : option pystr :=
  if ci_prefix pattern s
  then let r := skipn (length pattern) s in sep_then_capture (sep_run r) r
  else None.

(** [re.search]: the leftmost start position with a match. *)
Fixpoint re_search (pattern s : pystr) : option pystr :=
  match match_here pattern s with
  | Some g => Some g
  | None =>
      match s with
      | [] => None
      | _ :: s' => re_search pattern s'
      end
  end.

Section WithUnicodeTables.

(** [str.lower] on a string with a character beyond ASCII goes through the
    Unicode case tables, which are not modelled: they are a parameter. On an
    ASCII string [str.lower] is [ascii_lower] on every character. *)
Variable unicode_lower : pystr -> pystr.

Definition lower (s : pystr) : pystr :=
  if forallb is_ascii s then List.map ascii_lower s else unicode_lower s.

(** [title.text.lower() if title.text else ""] *)
Definition title_text (title : Element) : outcome pystr :=
  if truthy (text title) then on_str (text title) lower else Returned [].

(** [any(method_title in title_text for method_title in methods_titles)] *)
Definition has_methods_title (tt : pystr) : bool :=
  existsb (fun method_title => contains method_title tt) methods_titles.

(** The inner loop: every element of [sec.iter()] contributes its stripped
    text and then its stripped tail, when they are truthy. *)
Fixpoint collect_text (elems : list Element) : outcome (list pystr) :=
  match elems with
  | [] => Returned []
  | elem :: rest =>
      let! t := (if truthy (text elem)
                 then on_str (text elem) (fun s => [strip s])
                 else Returned []) in
      let! tl := (if truthy (tail elem)
                  then on_str (tail elem) (fun s => [strip s])
                  else Returned []) in
      let! more := collect_text rest in
      Returned (t ++ tl ++ more)
  end.

(** The text returned for a section that matched. *)
Definition section_text (sec : Element) : outcome pystr :=
  let! methods_text := collect_text (iter sec) in
  Returned (join (py " ") methods_text).

(** The first loop, over [root.iter("sec")]: [Some] text as soon as a
    section matches, [None] when the loop runs out. *)
Fixpoint titled_section_scan (secs : list Element) : outcome (option pystr) :=
  match secs with
  | [] => Returned None
  | sec :: rest =>
      match find_child (py "title") sec with
      | Some title =>
          let! tt := title_text title in
          if has_methods_title tt
          then let! t := section_text sec in Returned (Some t)
          else titled_section_scan rest
      | None => titled_section_scan rest
      end
  end.

(** The loop over the three body patterns. *)
Fixpoint first_pattern_match (patterns : list pystr) (body_text : pystr)
  : option pystr :=
  match patterns with
  | [] => None
  | pattern :: rest =>
      match re_search pattern body_text with
      | Some g => Some (strip g)
      | None => first_pattern_match rest body_text
      end
  end.

(** The second part of the function, from [body = root.find(".//body")]. *)
Definition body_pattern_fallback (root : Element) : outcome (option pystr) :=
  match find_descendant (py "body") root with
  | Some body =>
      let body_text := join (py " ") (itertext body) in
      Returned (first_pattern_match body_patterns body_text)
  | None => Returned None
  end.

(** The function with its second part abstracted: [stage2] runs only when
    the first loop ends without a [return]. *)
Definition extract_methods_with
    (stage2 : Element -> outcome (option pystr)) (root : Element)
  : outcome (option pystr) :=
  let! found := titled_section_scan (iter_tag (py "sec") root) in
  match found with
  | Some t => Returned (Some t)
  | None => stage2 root
  end.

(** [PubMedClient._extract_methods] *)
Definition _extract_methods (root : Element) : outcome (option pystr) :=
  extract_methods_with body_pattern_fallback root.

End WithUnicodeTables.

End Extractor.

(** ** Cache keys: [hashlib.md5(text.encode()).hexdigest()] *)

Module Digest.

(** [str.encode()]: UTF-8; a surrogate code point cannot be encoded. *)
Definition utf8_char (c : char) : option (list Z) :=
  let z := Z.of_N c in
  if z <? 0x80 then Some [z]
  else if z <? 0x800 then
    Some [Z.lor 0xC0 (Z.shiftr z 6); Z.lor 0x80 (Z.land z 0x3F)]
  else if z <? 0x10000 then
    if (0xD800 <=? z) && (z <=? 0xDFFF) then None
    else Some [Z.lor 0xE0 (Z.shiftr z 12);
               Z.lor 0x80 (Z.land (Z.shiftr z 6) 0x3F);
               Z.lor 0x80 (Z.land z 0x3F)]
  else
    Some [Z.lor 0xF0 (Z.shiftr z 18);
          Z.lor 0x80 (Z.land (Z.shiftr z 12) 0x3F);
          Z.lor 0x80 (Z.land (Z.shiftr z 6) 0x3F);
          Z.lor 0x80 (Z.land z 0x3F)].

Fixpoint encode (s : pystr) : option (list Z) :=
  match s with
  | [] => Some []
  | c :: s' =>
      match utf8_char c, encode s' with
      | Some b, Some bs => Some (b ++ bs)
      | _, _ => None
      end
  end.

Definition add32 (a b : Z) : Z := (a + b) mod 2 ^ 32.

Definition rotl32 (x n : Z) : Z :=
  Z.lor (Z.shiftl x n mod 2 ^ 32) (Z.shiftr x (32 - n)).

Definition not32 (x : Z) : Z := Z.lxor x 0xFFFFFFFF.

Definition sines : list Z :=
  [ 0xd76aa478; 0xe8c7b756; 0x242070db; 0xc1bdceee;
    0xf57c0faf; 0x4787c62a; 0xa8304613; 0xfd469501;
    0x698098d8; 0x8b44f7af; 0xffff5bb1; 0x895cd7be;
    0x6b901122; 0xfd987193; 0xa679438e; 0x49b40821;
    0xf61e2562; 0xc040b340; 0x265e5a51; 0xe9b6c7aa;
    0xd62f105d; 0x02441453; 0xd8a1e681; 0xe7d3fbc8;
    0x21e1cde6; 0xc33707d6; 0xf4d50d87; 0x455a14ed;
    0xa9e3e905; 0xfcefa3f8; 0x676f02d9; 0x8d2a4c8a;
    0xfffa3942; 0x8771f681; 0x6d9d6122; 0xfde5380c;
    0xa4beea44; 0x4bdecfa9; 0xf6bb4b60; 0xbebfbc70;
    0x289b7ec6; 0xeaa127fa; 0xd4ef3085; 0x04881d05;
    0xd9d4d039; 0xe6db99e5; 0x1fa27cf8; 0xc4ac5665;
    0xf4292244; 0x432aff97; 0xab9423a7; 0xfc93a039;
    0x655b59c3; 0x8f0ccc92; 0xffeff47d; 0x85845dd1;
    0x6fa87e4f; 0xfe2ce6e0; 0xa3014314; 0x4e0811a1;
    0xf7537e82; 0xbd3af235; 0x2ad7d2bb; 0xeb86d391 ].

Definition shifts : list Z :=
  [ 7; 12; 17; 22; 7; 12; 17; 22; 7; 12; 17; 22; 7; 12; 17; 22;
    5; 9; 14; 20; 5; 9; 14; 20; 5; 9; 14; 20; 5; 9; 14; 20;
    4; 11; 16; 23; 4; 11; 16; 23; 4; 11; 16; 23; 4; 11; 16; 23;
    6; 10; 15; 21; 6; 10; 15; 21; 6; 10; 15; 21; 6; 10; 15; 21 ].

(** Padding: a 1 bit, zeros up to 56 modulo 64 bytes, then the length in
    bits as 64 bits, least significant byte first. *)
Definition le_bytes (n : nat) (x : Z) : list Z :=
  List.map (fun i => Z.land (Z.shiftr x (8 * Z.of_nat i)) 0xFF) (seq 0 n).

Definition pad (msg : list Z) : list Z :=
  let len := Z.of_nat (length msg) in
  msg ++ [0x80] ++ repeat 0 (Z.to_nat ((55 - len) mod 64))
      ++ le_bytes 8 ((8 * len) mod 2 ^ 64).

Definition word_le (b : list Z) : Z :=
  fold_right (fun x acc => x + 256 * acc) 0 b.

Fixpoint words (n : nat) (bytes : list Z) : list Z :=
  match n with
  | O => []
  | S n' => word_le (firstn 4 bytes) :: words n' (skipn 4 bytes)
  end.

Record state := { sa : Z; sb : Z; sc : Z; sd : Z }.

Definition init : state :=
  {| sa := 0x67452301; sb := 0xefcdab89; sc := 0x98badcfe; sd := 0x10325476 |}.

Definition step (m : list Z) (st : state) (i : nat) : state :=
  let zi := Z.of_nat i in
  let '(f, g) :=
    if zi <? 16 then
      (Z.lor (Z.land (sb st) (sc st)) (Z.land (not32 (sb st)) (sd st)), zi)
    else if zi <? 32 then
      (Z.lor (Z.land (sd st) (sb st)) (Z.land (not32 (sd st)) (sc st)),
       (5 * zi + 1) mod 16)
    else if zi <? 48 then
      (Z.lxor (sb st) (Z.lxor (sc st) (sd st)), (3 * zi + 5) mod 16)
    else
      (Z.lxor (sc st) (Z.lor (sb st) (not32 (sd st))), (7 * zi) mod 16) in
  let f' := add32 (add32 (add32 f (sa st)) (nth i sines 0))
                  (nth (Z.to_nat g) m 0) in
  {| sa := sd st; sd := sc st; sc := sb st;
     sb := add32 (sb st) (rotl32 f' (nth i shifts 0)) |}.

Definition block (st : state) (m : list Z) : state :=
  let r := fold_left (step m) (seq 0 64) st in
  {| sa := add32 (sa st) (sa r); sb := add32 (sb st) (sb r);
     sc := add32 (sc st) (sc r); sd := add32 (sd st) (sd r) |}.

Fixpoint blocks (n : nat) (bytes : list Z) (st : state) : state :=
  match n with
  | O => st
  | S n' => blocks n' (skipn 64 bytes) (block st (words 16 (firstn 64 bytes)))
  end.

(** [hashlib.md5(msg).digest()] *)
Definition md5 (msg : list Z) : list Z :=
  let p := pad msg in
  let st := blocks (length p / 64) p init in
  le_bytes 4 (sa st) ++ le_bytes 4 (sb st) ++ le_bytes 4 (sc st)
    ++ le_bytes 4 (sd st).

Definition hex_digit (d : Z) : char :=
  if d <? 10 then Z.to_N (48 + d) else Z.to_N (87 + d).

(** [.hexdigest()] *)
Definition hex (bytes : list Z) : pystr :=
  flat_map (fun b => [hex_digit (b / 16); hex_digit (b mod 16)]) bytes.

End Digest.

(** [CacheManager.get_cache_key]; [text.encode()] raises
    [UnicodeEncodeError] when the text cannot be encoded. *)
Definition get_cache_key (text : pystr) : outcome pystr :=
  match Digest.encode text with
  | Some bytes => Returned (Digest.hex (Digest.md5 bytes))
  | None => Raised UnicodeEncodeError
  end.

(** ** JSON values

    The Python values [json.load] yields and [json.dump] accepts. A float is
    kept by its IEEE-754 bit pattern. A dict keeps its items in insertion
    order; a lookup takes the first item with the key. *)

Inductive json :=
| JNull
| JBool (b : bool)
| JInt (n : Z)
| JFloat (bits : Z)
| JStr (s : pystr)
| JList (items : list json)
| JDict (items : list (pystr * json)).

(** [bool(v)] *)
Definition json_truthy (v : json) : bool :=
  match v with
  | JNull => false
  | JBool b => b
  | JInt n => negb (n =? 0)
  | JFloat bits => negb ((bits =? 0) || (bits =? 2 ^ 63))
  | JStr s => truthy (Some s)
  | JList items => match items with [] => false | _ => true end
  | JDict items => match items with [] => false | _ => true end
  end.

Fixpoint dict_get (k : pystr) (items : list (pystr * json)) : option json :=
  match items with
  | [] => None
  | (k', v) :: rest => if eqb k' k then Some v else dict_get k rest
  end.

(** [v[k]] for a string [k] *)
Definition getitem (v : json) (k : pystr) : outcome json :=
  match v with
  | JDict items =>
      match dict_get k items with
      | Some x => Returned x
      | None => Raised (KeyError k)
      end
  | _ => Raised TypeError
  end.

(** [k in v] for a string [k]: a key of a dict, an element of a list, a
    substring of a string; other values are not containers. *)
Definition py_in (k : pystr) (v : json) : outcome bool :=
  match v with
  | JDict items => Returned (bool_decide (is_Some (dict_get k items)))
  | JList items =>
      Returned (existsb (fun x => match x with
                                  | JStr s => eqb s k
                                  | _ => false
                                  end) items)
  | JStr s => Returned (contains k s)
  | _ => Raised TypeError
  end.

(** [d.get(k, default)]: only a dict has the method. *)
Definition dict_get_default (d : json) (k : pystr) (default : json)
  : outcome json :=
  match d with
  | JDict items => Returned (match dict_get k items with Some x => x | None => default end)
  | _ => Raised AttributeError
  end.

(** ** Dates *)

Module Datetime.

Record datetime := mkDatetime {
  year : Z; month : Z; day : Z;
  hour : Z; minute : Z; second : Z; microsecond : Z }.

Record timedelta := mkTimedelta { days : Z; seconds : Z; microseconds : Z }.

Definition is_leap (y : Z) : bool :=
  (y mod 4 =? 0) && (negb (y mod 100 =? 0) || (y mod 400 =? 0)).

Definition days_before_year (y : Z) : Z :=
  let y1 := y - 1 in y1 * 365 + y1 / 4 - y1 / 100 + y1 / 400.

Definition days_in_month (y m : Z) : Z :=
  if m =? 2 then (if is_leap y then 29 else 28)
  else if (m =? 4) || (m =? 6) || (m =? 9) || (m =? 11) then 30
  else 31.

Definition days_before_month (y m : Z) : Z :=
  fold_right Z.add 0
    (List.map (fun i => days_in_month y (Z.of_nat i))
              (seq 1 (Z.to_nat (m - 1)))).

Definition toordinal (d : datetime) : Z :=
  days_before_year (year d) + days_before_month (year d) (month d) + day d.

Definition us_per_day : Z := 86400 * 1000000.

(** [timedelta(days, seconds, microseconds)]: normalised on construction,
    [0 <= seconds < 86400] and [0 <= microseconds < 1000000]. *)
Definition make_timedelta (d s us : Z) : timedelta :=
  let total := (d * 86400 + s) * 1000000 + us in
  {| days := total / us_per_day;
     seconds := (total mod us_per_day) / 1000000;
     microseconds := total mod 1000000 |}.

Definition day_seconds (d : datetime) : Z :=
  second d + minute d * 60 + hour d * 3600.

(** [a - b] on naive datetimes *)
Definition sub (a b : datetime) : timedelta :=
  make_timedelta (toordinal a - toordinal b)
                 (day_seconds a - day_seconds b)
                 (microsecond a - microsecond b).

(** Microseconds since the start of day 0 of the calendar: the position of
    a datetime on the time line that [sub] measures. *)
Definition timestamp_us (d : datetime) : Z :=
  (toordinal d * 86400 + day_seconds d) * 1000000 + microsecond d.

(** The character of the last decimal digit of [n] *)
Definition digit (n : Z) : char := Z.to_N (48 + n mod 10).

(** [n] as [w] decimal digits, zero padded *)
Fixpoint digits (w : nat) (n : Z) : pystr :=
  match w with
  | O => []
  | S w' => digits w' (n / 10) ++ [digit n]
  end.

(** [d.isoformat()] *)
Definition isoformat (d : datetime) : pystr :=
  digits 4 (year d) ++ py "-" ++ digits 2 (month d) ++ py "-"
    ++ digits 2 (day d) ++ py "T" ++ digits 2 (hour d) ++ py ":"
    ++ digits 2 (minute d) ++ py ":" ++ digits 2 (second d)
    ++ (if microsecond d =? 0 then [] else py "." ++ digits 6 (microsecond d)).

Fixpoint number (s : pystr) (acc : Z) : option Z :=
  match s with
  | [] => Some acc
  | c :: s' =>
      if ((48 <=? c) && (c <=? 57))%N
      then number s' (10 * acc + (Z.of_N c - 48))
      else None
  end.

(** What [datetime.fromisoformat] does on the two shapes [isoformat]
    writes, [YYYY-MM-DDTHH:MM:SS] and [YYYY-MM-DDTHH:MM:SS.ffffff]; on other
    strings this reader gives up, where the library may still accept. *)
(** What [datetime.fromisoformat] returns: a naive datetime, or an aware
    one when the string carries a UTC offset. Of an aware datetime only the
    fact matters: [datetime.now()] is naive, and the subtraction of an
    aware datetime from a naive one raises [TypeError]. *)
Inductive parsed_time :=
| Naive (t : datetime)
| Aware.

(** A reader for the strings [isoformat] writes, which carry no offset. *)
Definition read_isoformat (s : pystr) : option parsed_time :=
  let field i n := number (firstn n (skipn i s)) 0 in
  let sep i c := match nth_error s i with
                 | Some c' => N.eqb c' c
                 | None => false
                 end in
  if sep 4%nat 45%N && sep 7%nat 45%N && sep 10%nat 84%N
     && sep 13%nat 58%N && sep 16%nat 58%N
     && (Nat.eqb (length s) 19
         || (Nat.eqb (length s) 26 && sep 19%nat 46%N))
  then
    match field 0%nat 4%nat, field 5%nat 2%nat, field 8%nat 2%nat,
          field 11%nat 2%nat, field 14%nat 2%nat, field 17%nat 2%nat,
          field 20%nat 6%nat with
    | Some y, Some mo, Some d, Some h, Some mi, Some sec, Some us =>
        Some (Naive (mkDatetime y mo d h mi sec us))
    | _, _, _, _, _, _, _ => None
    end
  else None.

(** The ranges of the fields of a [datetime] object. *)
Definition valid_datetime (d : datetime) : Prop :=
  1 <= year d <= 9999 /\ 1 <= month d <= 12
  /\ 1 <= day d <= days_in_month (year d) (month d)
  /\ 0 <= hour d < 24 /\ 0 <= minute d < 60 /\ 0 <= second d < 60
  /\ 0 <= microsecond d < 1000000.

End Datetime.
Import Datetime.

Definition CACHE_EXPIRY_DAYS : Z := 7.

(** ** The world the program runs in *)

(** A file of the cache directory, by what reading it gives. *)
Inductive file :=
| Unreadable                 (* [open] raises [OSError] *)
| NotUtf8                    (* reading raises [UnicodeDecodeError] *)
| NotJson                    (* [json.load] raises [JSONDecodeError] *)
| JsonDoc (data : json).     (* [json.load] returns [data] *)

(** What can be observed of a run from outside. *)
Inductive event :=
| CacheRead (key : pystr)
| CacheWrite (key : pystr)
| HttpGet (url : pystr) (params : list (pystr * pystr))
| ChatCompletion (model system_prompt user_prompt : pystr).

(** The cache directory (file name to file), the number of clock readings
    taken so far, and the events so far, latest first. *)
Record World := mkWorld {
  fs : gmap pystr file;
  ticks : nat;
  trace : list event }.

Definition M (A : Type) : Type := World -> outcome A * World.

Definition ret {A} (a : A) : M A := fun w => (Returned a, w).

Definition raise {A} (e : exn) : M A := fun w => (Raised e, w).

Definition bind {A B} (m : M A) (k : A -> M B) : M B :=
  fun w =>
    match m w with
    | (Returned a, w') => k a w'
    | (Raised e, w') => (Raised e, w')
    end.

Definition lift {A} (o : outcome A) : M A := fun w => (o, w).

Definition emit (ev : event) : M unit :=
  fun w => (Returned tt, mkWorld (fs w) (ticks w) (ev :: trace w)).

Notation "'do' x <- m ; k" := (bind m (fun x => k))
  (at level 10, x name, m at level 100, k at level 200, only parsing).

(** The HTTP response as [search_articles] reads it. *)
Record response := mkResponse {
  status_ok : bool;            (* [raise_for_status] passes *)
  body : option json }.        (* [None]: the body is not JSON *)

Record Article := mkArticle {
  pmc_id : pystr;
  pmid : option pystr;
  art_title : pystr;
  authors : list pystr;
  journal : pystr;
  art_year : pystr;
  doi : option pystr;
  abstract : option pystr;
  methods_text : option pystr;
  full_text_url : pystr }.

(** A field of a [Protocol] holds whatever it was given: JSON data, or the
    [Article] object handed to [generate_protocol]. *)
Inductive pyobj :=
| Data (j : json)
| ArticleObj (a : Article).

Record Protocol := mkProtocol {
  title : pyobj;
  original_article : pyobj;
  reagents : pyobj;
  materials : pyobj;
  preparation : pyobj;
  procedure : pyobj;
  conditions : pyobj;
  critical_notes : pyobj;
  safety_warnings : pyobj;
  generated_date : pyobj;
  llm_model : pyobj }.

Definition protocol_fields : list pystr :=
  [ py "title"; py "original_article"; py "reagents"; py "materials";
    py "preparation"; py "procedure"; py "conditions"; py "critical_notes";
    py "safety_warnings"; py "generated_date"; py "llm_model" ].

Definition json_of_opt (o : option pystr) : json :=
  match o with
  | Some s => JStr s
  | None => JNull
  end.

(** [asdict] on an [Article] *)
Definition asdict_article (a : Article) : json :=
  JDict [ (py "pmc_id", JStr (pmc_id a)); (py "pmid", json_of_opt (pmid a));
          (py "title", JStr (art_title a));
          (py "authors", JList (List.map JStr (authors a)));
          (py "journal", JStr (journal a)); (py "year", JStr (art_year a));
          (py "doi", json_of_opt (doi a));
          (py "abstract", json_of_opt (abstract a));
          (py "methods_text", json_of_opt (methods_text a));
          (py "full_text_url", JStr (full_text_url a)) ].

Definition asdict_obj (o : pyobj) : json :=
  match o with
  | Data j => j
  | ArticleObj a => asdict_article a
  end.

(** [asdict] on a [Protocol] *)
Definition asdict (p : Protocol) : json :=
  JDict [ (py "title", asdict_obj (title p));
          (py "original_article", asdict_obj (original_article p));
          (py "reagents", asdict_obj (reagents p));
          (py "materials", asdict_obj (materials p));
          (py "preparation", asdict_obj (preparation p));
          (py "procedure", asdict_obj (procedure p));
          (py "conditions", asdict_obj (conditions p));
          (py "critical_notes", asdict_obj (critical_notes p));
          (py "safety_warnings", asdict_obj (safety_warnings p));
          (py "generated_date", asdict_obj (generated_date p));
          (py "llm_model", asdict_obj (llm_model p)) ].

(** The call of [Protocol] with the items of [cached] as keyword arguments
    (double-star unpacking): [cached] must be a mapping whose keys are the
    eleven field names, each present and none other. *)
Definition Protocol_of_kwargs (cached : json) : outcome Protocol :=
  match cached with
  | JDict items =>
      let field k := match dict_get k items with
                     | Some v => Data v
                     | None => Data JNull
                     end in
      if forallb (fun kv => existsb (eqb (fst kv)) protocol_fields) items
         && forallb (fun k => bool_decide (is_Some (dict_get k items)))
                    protocol_fields
      then Returned
             (mkProtocol (field (py "title")) (field (py "original_article"))
                (field (py "reagents")) (field (py "materials")) (field (py "preparation"))
                (field (py "procedure")) (field (py "conditions"))
                (field (py "critical_notes")) (field (py "safety_warnings"))
                (field (py "generated_date")) (field (py "llm_model")))
      else Raised TypeError
  | _ => Raised TypeError
  end.

Definition BASE_URL : pystr := py "https://eutils.ncbi.nlm.nih.gov/entrez/eutils".

(** "No hay texto de métodos para procesar" *)
Definition no_methods_message : pystr :=
  py "No hay texto de m" ++ [233%N] ++ py "todos para procesar".

(** "Protocolo sin título" *)
Definition untitled : pystr := py "Protocolo sin t" ++ [237%N] ++ py "tulo".

(** The file [CacheManager.set] writes at clock reading [t]:
    [{'timestamp': t.isoformat(), 'content': content}]. *)
Definition entry (t : datetime) (content : json) : file :=
  JsonDoc (JDict [ (py "timestamp", JStr (isoformat t));
                   (py "content", content) ]).

Module Pipeline.

Section Program.

(** The clock: [clock n] is what the [n]-th call of [datetime.now()] of the
    run returns. *)
Variable clock : nat -> datetime.

(** [datetime.fromisoformat]; [None] stands for its [ValueError]. *)
Variable fromisoformat : pystr -> option parsed_time.

(** [json.loads] on a string; [None] stands for its [JSONDecodeError]. *)
Variable json_loads : pystr -> option json.

(** The search collaborator: [session.get(url, params, timeout=10)]. *)
Variable session_get :
  pystr -> list (pystr * pystr) -> request_failure + response.

(** The generative collaborator: [client.chat.completions.create] and the
    [content] of its first choice, for a model and the two messages;
    [None] stands for a failed call. *)
Variable chat_completion : pystr -> pystr -> pystr -> option (option pystr).

(** The two prompt templates, [_get_system_prompt()] and
    [_build_prompt(methods_text, style)]: fixed texts around their
    arguments, kept abstract. *)
Variable _get_system_prompt : pystr.
Variable _build_prompt : pystr -> pystr -> pystr.

(** [datetime.now()] *)
Definition now : M datetime :=
  fun w => (Returned (clock (ticks w)), mkWorld (fs w) (S (ticks w)) (trace w)).

(** *** CacheManager *)

(** [self.cache_dir / f"{key}.json"], as a name in the cache directory *)
Definition cache_file (key : pystr) : pystr := key ++ py ".json".

Definition json_load (f : file) : outcome json :=
  match f with
  | Unreadable => Raised OSError
  | NotUtf8 => Raised UnicodeDecodeError
  | NotJson => Raised JSONDecodeError
  | JsonDoc data => Returned data
  end.

(** [datetime.fromisoformat(v)] on a JSON value: [TypeError] when [v] is
    not a string, [InvalidIsoformat] (the library's [ValueError]) when the
    string is not a date; a string with a UTC offset gives an aware
    datetime. *)
Definition parse_timestamp (v : json) : outcome parsed_time :=
  match v with
  | JStr s =>
      match fromisoformat s with
      | Some t => Returned t
      | None => Raised InvalidIsoformat
      end
  | _ => Raised TypeError
  end.

(** [datetime.now() - cached_time], with [t] the reading of the clock *)
Definition elapsed (t : datetime) (cached_time : parsed_time)
  : outcome timedelta :=
  match cached_time with
  | Naive t0 => Returned (sub t t0)
  | Aware => Raised TypeError
  end.

(** [CacheManager.get]; Python's [None] is [JNull]. *)
Definition get (key : pystr) : M json :=
  do _ <- emit (CacheRead key) ;
  (fun w =>
     match fs w !! cache_file key with
     | Some f =>
         (do data <- lift (json_load f) ;
          do ts <- lift (getitem data (py "timestamp")) ;
          do cached_time <- lift (parse_timestamp ts) ;
          do t <- now ;
          do age <- lift (elapsed t cached_time) ;
          if days age <? CACHE_EXPIRY_DAYS
          then lift (getitem data (py "content"))
          else ret JNull) w
     | None => ret JNull w
     end).

(** [CacheManager.set] with a write that succeeds; the writes that fail
    are in [Disk] below. *)
Definition set (key : pystr) (content : json) : M unit :=
  do t <- now ;
  (fun w =>
     (Returned tt,
      mkWorld (<[cache_file key := entry t content]> (fs w))
              (ticks w) (CacheWrite key :: trace w))).

(** *** PubMedClient.search_articles *)

Definition search_params (query : pystr) (max_results : Z)
  : list (pystr * pystr) :=
  [ (py "db", py "pmc");
    (py "term", query ++ py " AND open access[filter]");
    (py "retmode", py "json");
    (py "retmax", str_of_int max_results);
    (py "sort", py "relevance") ].

Definition request_get (url : pystr) (params : list (pystr * pystr))
  : M response :=
  do _ <- emit (HttpGet url params) ;
  match session_get url params with
  | inr r => ret r
  | inl failure => raise (RequestException failure)
  end.

Definition raise_for_status (r : response) : M unit :=
  if status_ok r then ret tt else raise (RequestException HTTPError).

Definition response_json (r : response) : M json :=
  match body r with
  | Some data => ret data
  | None => raise (RequestException InvalidJSON)
  end.

(** The [except requests.RequestException] clause logs and re-raises, so
    every exception of the [try] block leaves the function unchanged. *)
Definition search_articles (query : pystr) (max_results : Z) : M json :=
  do cache_key <- lift (get_cache_key
                       (py "search_" ++ query ++ py "_"
                          ++ str_of_int max_results)) ;
  do cached <- get cache_key ;
  if json_truthy cached then ret cached
  else
    do response <- request_get (BASE_URL ++ py "/esearch.fcgi")
                            (search_params query max_results) ;
    do _ <- raise_for_status response ;
    do data <- response_json response ;
    do has_result <- lift (py_in (py "esearchresult") data) ;
    if has_result then
      do result <- lift (getitem data (py "esearchresult")) ;
      do has_idlist <- lift (py_in (py "idlist") result) ;
      if has_idlist then
        do ids <- lift (getitem result (py "idlist")) ;
        do _ <- set cache_key ids ;
        ret ids
      else ret (JList [])
    else ret (JList []).

(** *** LLMProcessor.generate_protocol *)

Definition protocol_cache_key (methods_text style : pystr) : outcome pystr :=
  get_cache_key (py "protocol_" ++ slice_to 100 methods_text ++ py "_" ++ style).

Definition create_completion (model prompt : pystr) : M (option pystr) :=
  do _ <- emit (ChatCompletion model _get_system_prompt prompt) ;
  match chat_completion model _get_system_prompt prompt with
  | Some content => ret content
  | None => raise OpenAIError
  end.

(** [json.loads(response.choices[0].message.content)] *)
Definition loads_content (content : option pystr) : outcome json :=
  match content with
  | Some s =>
      match json_loads s with
      | Some v => Returned v
      | None => Raised JSONDecodeError
      end
  | None => Raised TypeError
  end.

(** The [except Exception] clause logs and re-raises. *)
Definition generate_protocol (model : pystr) (methods_text : option pystr)
    (article_info : Article) (style : pystr) : M Protocol :=
  if negb (truthy methods_text) then raise (ValueError no_methods_message)
  else
    let text := default [] methods_text in
    do cache_key <- lift (protocol_cache_key text style) ;
    do cached <- get cache_key ;
    if json_truthy cached then lift (Protocol_of_kwargs cached)
    else
      let prompt := _build_prompt text style in
      do content <- create_completion model prompt ;
      do protocol_data <- lift (loads_content content) ;
      let field k d := lift (dict_get_default protocol_data k d) in
      do p_title <- field (py "title") (JStr untitled) ;
      do p_reagents <- field (py "reagents") (JList []) ;
      do p_materials <- field (py "materials") (JList []) ;
      do p_preparation <- field (py "preparation") (JList []) ;
      do p_procedure <- field (py "procedure") (JList []) ;
      do p_conditions <- field (py "conditions") (JDict []) ;
      do p_critical <- field (py "critical_notes") (JList []) ;
      do p_safety <- field (py "safety_warnings") (JList []) ;
      do t <- now ;
      let protocol :=
        mkProtocol (Data p_title) (ArticleObj article_info)
          (Data p_reagents) (Data p_materials) (Data p_preparation)
          (Data p_procedure) (Data p_conditions) (Data p_critical)
          (Data p_safety) (Data (JStr (isoformat t))) (Data (JStr model)) in
      do _ <- set cache_key (asdict protocol) ;
      ret protocol.

End Program.

End Pipeline.
Import Pipeline.

(** ** Cache writes that fail

    [CacheManager.set] opens the file for writing, which truncates it, and
    then dumps the entry into it. [Pipeline.set] is the write that
    succeeds. Here the write may also fail, in one of two ways, and
    [search_articles] and [generate_protocol] are read again with such a
    write in the place of [set]. *)

Module Disk.

Inductive write_outcome :=
| Written        (* the entry is in the file *)
| OpenFailed     (* [open(cache_file, 'w')] raises [OSError]: no file is
                    touched *)
| WriteFailed.   (* [json.dump] or the flush on closing raises [OSError]:
                    the file, emptied by [open], holds a proper prefix of
                    the entry, which is never a JSON document *)

Section Program.

Variable clock : nat -> datetime.
Variable fromisoformat : pystr -> option parsed_time.
Variable json_loads : pystr -> option json.
Variable session_get :
  pystr -> list (pystr * pystr) -> request_failure + response.
Variable chat_completion : pystr -> pystr -> pystr -> option (option pystr).
Variable _get_system_prompt : pystr.
Variable _build_prompt : pystr -> pystr -> pystr.

(** [CacheManager.set] with a write that ends in [o]. The timestamp is
    taken after the file is opened and before anything is written. *)
Definition set_under (o : write_outcome) (key : pystr) (content : json)
  : M unit :=
  match o with
  | Written => set clock key content
  | OpenFailed => raise OSError
  | WriteFailed =>
      do _ <- now clock ;
      (fun w =>
         (Raised OSError,
          mkWorld (<[cache_file key := NotJson]> (fs w))
                  (ticks w) (CacheWrite key :: trace w)))
  end.

(** [PubMedClient.search_articles]: [OSError] is not a
    [requests.RequestException], so it leaves the [try] block as it is. *)
Definition search_articles_under (o : write_outcome) (query : pystr)
    (max_results : Z) : M json :=
  do cache_key <- lift (get_cache_key
                       (py "search_" ++ query ++ py "_"
                          ++ str_of_int max_results)) ;
  do cached <- get clock fromisoformat cache_key ;
  if json_truthy cached then ret cached
  else
    do response <- request_get session_get (BASE_URL ++ py "/esearch.fcgi")
                            (search_params query max_results) ;
    do _ <- raise_for_status response ;
    do data <- response_json response ;
    do has_result <- lift (py_in (py "esearchresult") data) ;
    if has_result then
      do result <- lift (getitem data (py "esearchresult")) ;
      do has_idlist <- lift (py_in (py "idlist") result) ;
      if has_idlist then
        do ids <- lift (getitem result (py "idlist")) ;
        do _ <- set_under o cache_key ids ;
        ret ids
      else ret (JList [])
    else ret (JList []).

(** [LLMProcessor.generate_protocol]: the [except Exception] clause logs
    the [OSError] and raises it again. *)
Definition generate_protocol_under (o : write_outcome) (model : pystr)
    (methods_text : option pystr) (article_info : Article) (style : pystr)
  : M Protocol :=
  if negb (truthy methods_text) then raise (ValueError no_methods_message)
  else
    let text := default [] methods_text in
    do cache_key <- lift (protocol_cache_key text style) ;
    do cached <- get clock fromisoformat cache_key ;
    if json_truthy cached then lift (Protocol_of_kwargs cached)
    else
      let prompt := _build_prompt text style in
      do content <- create_completion chat_completion _get_system_prompt
                      model prompt ;
      do protocol_data <- lift (loads_content json_loads content) ;
      let field k d := lift (dict_get_default protocol_data k d) in
      do p_title <- field (py "title") (JStr untitled) ;
      do p_reagents <- field (py "reagents") (JList []) ;
      do p_materials <- field (py "materials") (JList []) ;
      do p_preparation <- field (py "preparation") (JList []) ;
      do p_procedure <- field (py "procedure") (JList []) ;
      do p_conditions <- field (py "conditions") (JDict []) ;
      do p_critical <- field (py "critical_notes") (JList []) ;
      do p_safety <- field (py "safety_warnings") (JList []) ;
      do t <- now clock ;
      let protocol :=
        mkProtocol (Data p_title) (ArticleObj article_info)
          (Data p_reagents) (Data p_materials) (Data p_preparation)
          (Data p_procedure) (Data p_conditions) (Data p_critical)
          (Data p_safety) (Data (JStr (isoformat t))) (Data (JStr model)) in
      do _ <- set_under o cache_key (asdict protocol) ;
      ret protocol.

End Program.

End Disk.
Import Disk.


(** ** Reading the claims

    The notions the properties below are stated with. *)

Module Reading.
Import Extractor.

Section WithUnicodeTables.
Variable unicode_lower : pystr -> pystr.

(** A section whose title node has text that, case-folded, contains one of
    the synonym phrases. *)
Definition title_has_synonym (sec : Element) : bool :=
  match find_child (py "title") sec with
  | Some title =>
      match text title with
      | Some s =>
          existsb (fun syn => contains syn (lower unicode_lower s))
                  methods_titles
      | None => false
      end
  | None => false
  end.

End WithUnicodeTables.

(** What one node adds to the text of its section: its own text, then its
    trailing text, each stripped, when not empty. *)
Definition node_pieces (elem : Element) : list pystr :=
  (if truthy (text elem) then [strip (default [] (text elem))] else []) ++
  (if truthy (tail elem) then [strip (default [] (tail elem))] else []).

(** The concatenated text of a section: the pieces of every node of the
    section, in document order, joined by single spaces. *)
Definition section_content (sec : Element) : pystr :=
  join (py " ") (flat_map node_pieces (iter sec)).

(** [s.split()]: the maximal runs of non-space characters. *)
Fixpoint split_ws_from (cur : pystr) (s : pystr) : list pystr :=
  match s with
  | [] => match cur with [] => [] | _ => [rev cur] end
  | c :: s' =>
      if isspace c
      then match cur with
           | [] => split_ws_from [] s'
           | _ => rev cur :: split_ws_from [] s'
           end
      else split_ws_from (c :: cur) s'
  end.

(** Whitespace normalisation: runs of white space become one space, none
    at the ends. *)
Definition normalize_ws (s : pystr) : pystr :=
  join (py " ") (split_ws_from [] s).

(** The case tables for strings beyond ASCII that the concrete runs below
    use; every string they lower-case is ASCII. *)
Definition ascii_only : pystr -> pystr := List.map ascii_lower.

End Reading.
Import Extractor Reading.

(** ** Documents used in the concrete runs *)

Module Fixtures.

(** "Mix 10uL of buffer A with 5uL of buffer B, incubate at 37°C for 30 min." *)
Definition paragraph : pystr :=
  py "Mix 10uL of buffer A with 5uL of buffer B, incubate at 37"
    ++ [176%N] ++ py "C for 30 min.".

(** [<sec><title>Materials and Methods</title><p>Mix ... min.</p></sec>] *)
Definition methods_sec : Element :=
  mkElement (py "sec") None None
    [ mkElement (py "title") (Some (py "Materials and Methods")) None [];
      mkElement (py "p") (Some paragraph) None [] ].

(** [<article><body>Overview. Methods: cells were grown. Results follow.
    <sec><title>Methods</title><p>Cells were lysed.</p></sec></body></article>]:
    a titled section and a body the fallback pattern matches. *)
Definition titled_sec : Element :=
  mkElement (py "sec") None None
    [ mkElement (py "title") (Some (py "Methods")) None [];
      mkElement (py "p") (Some (py "Cells were lysed.")) None [] ].

Definition both_stages : Element :=
  mkElement (py "article") None None
    [ mkElement (py "body")
        (Some (py "Overview. Methods: cells were grown. Results follow."))
        None [ titled_sec ] ].

(** [<article><body><sec><title>Introduction</title><p>Background.</p></sec>
    </body></article>]: no methods title, no pattern in the body. *)
Definition no_methods : Element :=
  mkElement (py "article") None None
    [ mkElement (py "body") None None
        [ mkElement (py "sec") None None
            [ mkElement (py "title") (Some (py "Introduction")) None [];
              mkElement (py "p") (Some (py "Background.")) None [] ] ] ].

(** [<sec><title><italic>Methods</italic></title><p>Hidden.</p></sec>]: the
    phrase is in a child of the title, the title has no text of its own. *)
Definition nested_title_sec : Element :=
  mkElement (py "sec") None None
    [ mkElement (py "title") None None
        [ mkElement (py "italic") (Some (py "Methods")) None [] ];
      mkElement (py "p") (Some (py "Hidden.")) None [] ].

(** [<body>] with the section above followed by a section titled
    "Experimental procedures". *)
Definition later_sec : Element :=
  mkElement (py "sec") None None
    [ mkElement (py "title") (Some (py "Experimental procedures")) None [];
      mkElement (py "p") (Some (py "Seen.")) None [] ].

Definition nested_then_plain : Element :=
  mkElement (py "body") None None [ nested_title_sec; later_sec ].

(** A clock whose readings are one day apart, from 2024-01-01 12:00. *)
Definition daily_clock (n : nat) : datetime :=
  mkDatetime 2024 1 (1 + Z.of_nat n) 12 0 0 0.

(** A clock whose second and later readings are 7 days and one
    microsecond after the first. *)
Definition late_clock (n : nat) : datetime :=
  match n with
  | O => mkDatetime 2024 1 1 12 0 0 0
  | S _ => mkDatetime 2024 1 8 12 0 0 1
  end.

(** An empty cache directory, at the start of a run. *)
Definition empty_world : World := mkWorld ∅ 0 [].

(** [get_cache_key("article_12345")] *)
Definition article_key : pystr := py "82dd98949a9fca873907e7bd9792c317".

Definition payload : json :=
  JDict [ (py "pmc_id", JStr (py "12345")); (py "authors", JList []) ].

(** The cache directory with a file for [article_key] that is not JSON. *)
Definition corrupt_world : World :=
  mkWorld {[ cache_file article_key := NotJson ]} 0 [].

(** A search collaborator that answers [{}], and one that is unreachable. *)
Definition empty_object_reply (_ : pystr) (_ : list (pystr * pystr))
  : request_failure + response :=
  inr (mkResponse true (Some (JDict []))).

Definition unreachable (_ : pystr) (_ : list (pystr * pystr))
  : request_failure + response :=
  inl ConnectionFailed.

(** [get_cache_key("search_PCR_5")] and the key of the synthesis of a
    text that starts with [boilerplate] below, in style "detailed". *)
Definition search_key : pystr := py "32331c7347a6361755c066e6b4040ac0".
Definition protocol_key : pystr := py "32dbd13f7003c4d71b521e54c91ea070".

(** Two methods texts with the same first 100 characters. *)
Definition boilerplate : pystr := repeat 97%N 100.
Definition methods_one : pystr := boilerplate ++ py " then heat to 95C".
Definition methods_two : pystr := boilerplate ++ py " then cool to 4C".

Definition some_article : Article :=
  mkArticle (py "12345") None (py "A study") [py "Ada Lovelace"]
    (py "Journal") (py "2024") None None (Some methods_one)
    (py "https://www.ncbi.nlm.nih.gov/pmc/articles/PMC12345/").

Definition other_article : Article :=
  mkArticle (py "67890") None (py "Another study") [] (py "Journal")
    (py "2023") None None (Some methods_two)
    (py "https://www.ncbi.nlm.nih.gov/pmc/articles/PMC67890/").

(** A generative collaborator that always answers with the same text, and
    a [json.loads] that reads that text as a protocol with a title only. *)
Definition fixed_completion (_ _ _ : pystr) : option (option pystr) :=
  Some (Some (py "{}")).

Definition fixed_loads (_ : pystr) : option json :=
  Some (JDict [ (py "title", JStr (py "Heating")) ]).

Definition plain_prompt (methods_text style : pystr) : pystr :=
  style ++ py ": " ++ methods_text.

End Fixtures.

(** ** Notions for the further properties *)

Module Shapes.

(** A lower-case hexadecimal digit: [0-9a-f]. *)
Definition is_hex_char (c : char) : Prop :=
  (48 <= c <= 57 \/ 97 <= c <= 102)%N.

(** A surrogate code point, U+D800 to U+DFFF. *)
Definition is_surrogate (c : char) : Prop := (55296 <= c <= 57343)%N.

End Shapes.
Import Shapes.

(** ** More environments for the concrete runs *)

Module Replies.

Definition two_ids : json := JList [ JStr (py "111"); JStr (py "222") ].

Definition esearch_body (ids : json) : json :=
  JDict [ (py "header", JDict []);
          (py "esearchresult", JDict [ (py "count", JStr (py "2"));
                                       (py "idlist", ids) ]) ].

(** A search collaborator that finds two articles, and one that finds
    none. *)
Definition two_ids_reply (_ : pystr) (_ : list (pystr * pystr))
  : request_failure + response :=
  inr (mkResponse true (Some (esearch_body two_ids))).

Definition no_ids_reply (_ : pystr) (_ : list (pystr * pystr))
  : request_failure + response :=
  inr (mkResponse true (Some (esearch_body (JList [])))).

(** The cache directory with the two identifiers under the key of the
    search for "PCR", written at the first reading of the daily clock; one
    clock reading has been taken. *)
Definition searched_world : World :=
  mkWorld {[ cache_file Fixtures.search_key
             := entry (Fixtures.daily_clock 0) two_ids ]} 1 [].

End Replies.

(** ** More documents for the concrete runs *)

Module Documents.

(** [<article><body>Overview. Experimental: mix reagents. Discussion
    follows.</body></article>]: no section, a body the third pattern
    matches. *)
Definition fallback_only : Element :=
  mkElement (py "article") None None
    [ mkElement (py "body")
        (Some (py "Overview. Experimental: mix reagents. Discussion follows."))
        None [] ].

End Documents.

(** ** Articles: parsing and fetching *)

Module Articles.

(** An element with its attributes, as [_parse_article_xml] reads it. *)
Inductive XElement :=
| mkX (xtag : pystr) (attrib : list (pystr * pystr))
      (xtext : option pystr) (xtail : option pystr)
      (xchildren : list XElement).

Definition xtag (e : XElement) : pystr :=
  match e with mkX t _ _ _ _ => t end.
Definition attrib (e : XElement) : list (pystr * pystr) :=
  match e with mkX _ a _ _ _ => a end.
Definition xchildren (e : XElement) : list XElement :=
  match e with mkX _ _ _ _ cs => cs end.

(** The same tree without the attributes: what the methods extractor and
    [itertext] look at. *)
Fixpoint erase (e : XElement) : Element :=
  match e with
  | mkX t _ tx tl cs => mkElement t tx tl (List.map erase cs)
  end.

(** [e.iter()] *)
Fixpoint xiter (e : XElement) : list XElement :=
  match e with
  | mkX _ _ _ _ cs => e :: flat_map xiter cs
  end.

(** The elements on all levels beneath [e], in document order. *)
Definition descendants (e : XElement) : list XElement :=
  flat_map xiter (xchildren e).

(** [e.get(key)] *)
Fixpoint attr_get (key : pystr) (attrs : list (pystr * pystr))
  : option pystr :=
  match attrs with
  | [] => None
  | (k, v) :: rest => if eqb k key then Some v else attr_get key rest
  end.

(** The paths the parser uses. *)
Inductive xpath :=
| Descendant (t : pystr)                   (* [.//t] *)
| DescendantWith (t key value : pystr)     (* [.//t[@key='value']] *)
| DescendantChild (t c : pystr).           (* [.//t/c] *)

Definition has_tag (t : pystr) (e : XElement) : bool := eqb (xtag e) t.

Definition has_attr (key value : pystr) (e : XElement) : bool :=
  match attr_get key (attrib e) with
  | Some v => eqb v value
  | None => false
  end.

(** [e.findall(path)] *)
Definition findall (e : XElement) (path : xpath) : list XElement :=
  match path with
  | Descendant t => List.filter (has_tag t) (descendants e)
  | DescendantWith t key value =>
      List.filter (has_attr key value)
                  (List.filter (has_tag t) (descendants e))
  | DescendantChild t c =>
      flat_map (fun x => List.filter (has_tag c) (xchildren x))
               (List.filter (has_tag t) (descendants e))
  end.

(** [e.find(path)] *)
Definition find (e : XElement) (path : xpath) : option XElement :=
  List.head (findall e path).

(** [PubMedClient._get_text]: the stripped inner text of the first element
    on the path, or [default] as it is. The text is a [str], the default a
    [str] or [None]: [as_result] places a [str] in the type of the default
    (the identity, or [Some]). *)
Definition _get_text {A : Type} (as_result : pystr -> A) (element : XElement)
    (path : xpath) (default : A) : A :=
  match find element path with
  | Some found => as_result (strip (join [] (itertext (erase found))))
  | None => default
  end.

(** [PubMedClient._extract_abstract] *)
Definition _extract_abstract (root : XElement) : option pystr :=
  match find root (Descendant (py "abstract")) with
  | Some abstract_elem =>
      Some (strip (join (py " ") (itertext (erase abstract_elem))))
  | None => None
  end.

(** "Sin título" *)
Definition no_title : pystr := py "Sin t" ++ [237%N] ++ py "tulo".

(** One turn of the loop over the author contributors. *)
Definition author_entry (author : XElement) : list pystr :=
  let surname := _get_text id author (Descendant (py "surname")) [] in
  let given_names := _get_text id author (Descendant (py "given-names")) [] in
  if truthy (Some surname)
  then [strip (given_names ++ py " " ++ surname)]
  else [].

Definition author_contribs (root : XElement) : list XElement :=
  findall root (DescendantWith (py "contrib") (py "contrib-type") (py "author")).

(** An [Article] instance: with fields as the class declares them, or, from
    a cached dict of another shape, with whatever values the dict held. *)
Inductive article_value :=
| TypedArticle (a : Article)
| UntypedArticle (fields : list (pystr * json)).

Definition article_fields : list pystr :=
  [ py "pmc_id"; py "pmid"; py "title"; py "authors"; py "journal";
    py "year"; py "doi"; py "abstract"; py "methods_text";
    py "full_text_url" ].

Definition as_str (v : json) : option pystr :=
  match v with JStr s => Some s | _ => None end.

Definition as_opt_str (v : json) : option (option pystr) :=
  match v with
  | JStr s => Some (Some s)
  | JNull => Some None
  | _ => None
  end.

Fixpoint as_str_list (l : list json) : option (list pystr) :=
  match l with
  | [] => Some []
  | JStr s :: rest => option_map (cons s) (as_str_list rest)
  | _ :: _ => None
  end.

(** The fields of a dict read at their declared types. *)
Definition typed_fields (items : list (pystr * json)) : option Article :=
  match dict_get (py "pmc_id") items, dict_get (py "pmid") items,
        dict_get (py "title") items, dict_get (py "authors") items,
        dict_get (py "journal") items, dict_get (py "year") items,
        dict_get (py "doi") items, dict_get (py "abstract") items,
        dict_get (py "methods_text") items,
        dict_get (py "full_text_url") items with
  | Some (JStr i), Some p, Some (JStr t), Some (JList a), Some (JStr j),
    Some (JStr y), Some d, Some b, Some m, Some (JStr u) =>
      match as_opt_str p, as_str_list a, as_opt_str d, as_opt_str b,
            as_opt_str m with
      | Some p', Some a', Some d', Some b', Some m' =>
          Some (mkArticle i p' t a' j y d' b' m' u)
      | _, _, _, _, _ => None
      end
  | _, _, _, _, _, _, _, _, _, _ => None
  end.

(** The call of [Article] with the items of [cached] as keyword arguments:
    [cached] must be a mapping whose keys are the ten field names. *)
Definition Article_of_kwargs (cached : json) : outcome article_value :=
  match cached with
  | JDict items =>
      if forallb (fun kv => existsb (eqb (fst kv)) article_fields) items
         && forallb (fun k => match dict_get k items with
                              | Some _ => true
                              | None => false
                              end) article_fields
      then Returned (match typed_fields items with
                     | Some a => TypedArticle a
                     | None => UntypedArticle items
                     end)
      else Raised TypeError
  | _ => Raised TypeError
  end.

(** The response to the fetch request: [document] is what
    [ET.fromstring(response.content)] returns, [None] when it raises. *)
Record xml_response := mkXmlResponse {
  xml_status_ok : bool;
  document : option XElement }.

(** What [fetch_article] ends with when no [exn] is raised: the article, or
    the [xml.etree.ElementTree.ParseError] of [ET.fromstring], which is
    outside [exn] and which nothing in the function catches. *)
Inductive fetched :=
| Fetched (a : article_value)
| XmlParseError.

Definition fetch_params (pmc_id : pystr) : list (pystr * pystr) :=
  [ (py "db", py "pmc"); (py "id", pmc_id); (py "retmode", py "xml") ].

Section Program.
Variable unicode_lower : pystr -> pystr.
Variable clock : nat -> datetime.
Variable fromisoformat : pystr -> option parsed_time.

(** The fetch collaborator: [session.get(url, params, timeout=30)]. *)
Variable session_get :
  pystr -> list (pystr * pystr) -> request_failure + xml_response.

(** [PubMedClient._parse_article_xml]; the default of the year is computed
    before the lookup, so the clock is read in every case. *)
Definition _parse_article_xml (root : XElement) (pmc_id : pystr) : M Article :=
  let title := _get_text id root (Descendant (py "article-title")) no_title in
  let authors := flat_map author_entry (author_contribs root) in
  let journal := _get_text id root (Descendant (py "journal-title"))
                   (py "Journal desconocido") in
  do t <- now clock ;
  let year := _get_text id root (DescendantChild (py "pub-date") (py "year"))
                (str_of_int (Datetime.year t)) in
  let doi := _get_text Some root
               (DescendantWith (py "article-id") (py "pub-id-type") (py "doi"))
               None in
  let pmid := _get_text Some root
                (DescendantWith (py "article-id") (py "pub-id-type") (py "pmid"))
                None in
  let abstract := _extract_abstract root in
  do methods_text <- lift (Extractor._extract_methods unicode_lower
                             (erase root)) ;
  let full_text_url :=
    py "https://www.ncbi.nlm.nih.gov/pmc/articles/PMC" ++ pmc_id ++ py "/" in
  ret (mkArticle pmc_id pmid title authors journal year doi abstract
         methods_text full_text_url).

Definition request_get_xml (url : pystr) (params : list (pystr * pystr))
  : M xml_response :=
  do _ <- emit (HttpGet url params) ;
  match session_get url params with
  | inr r => ret r
  | inl failure => raise (RequestException failure)
  end.

(** [PubMedClient.fetch_article]. The [except requests.RequestException]
    clause logs and re-raises. *)
Definition fetch_article (pmc_id : pystr) : M fetched :=
  do cache_key <- lift (get_cache_key (py "article_" ++ pmc_id)) ;
  do cached <- get clock fromisoformat cache_key ;
  if json_truthy cached
  then do a <- lift (Article_of_kwargs cached) ; ret (Fetched a)
  else
    do response <- request_get_xml (BASE_URL ++ py "/efetch.fcgi")
                     (fetch_params pmc_id) ;
    do _ <- (if xml_status_ok response then ret tt
             else raise (RequestException HTTPError)) ;
    match document response with
    | None => ret XmlParseError
    | Some root =>
        do article <- _parse_article_xml root pmc_id ;
        do _ <- set clock cache_key (asdict_article article) ;
        ret (Fetched (TypedArticle article))
    end.

End Program.

End Articles.
Import Articles.

(** ** Documents and replies for the fetch runs *)

Module FetchReplies.

(** [<article><front><article-title>Lysis of cells</article-title>
    <contrib contrib-type="author"><surname>Curie</surname>
    <given-names>Marie</given-names></contrib>
    <contrib contrib-type="author"><given-names>Anon</given-names></contrib>
    <article-id pub-id-type="doi">10.1/x</article-id></front>
    <body><sec><title>Methods</title><p>Cells were lysed.</p></sec></body>
    </article>], without the white space between the tags. *)
Definition article_doc : XElement :=
  mkX (py "article") [] None None
    [ mkX (py "front") [] None None
        [ mkX (py "article-title") [] (Some (py "Lysis of cells")) None [];
          mkX (py "contrib") [ (py "contrib-type", py "author") ] None None
            [ mkX (py "surname") [] (Some (py "Curie")) None [];
              mkX (py "given-names") [] (Some (py "Marie")) None [] ];
          mkX (py "contrib") [ (py "contrib-type", py "author") ] None None
            [ mkX (py "given-names") [] (Some (py "Anon")) None [] ];
          mkX (py "article-id") [ (py "pub-id-type", py "doi") ]
            (Some (py "10.1/x")) None [] ];
      mkX (py "body") [] None None
        [ mkX (py "sec") [] None None
            [ mkX (py "title") [] (Some (py "Methods")) None [];
              mkX (py "p") [] (Some (py "Cells were lysed.")) None [] ] ] ].

(** A fetch collaborator that serves the document, one that is
    unreachable, one whose body is not XML. *)
Definition document_reply (_ : pystr) (_ : list (pystr * pystr))
  : request_failure + xml_response :=
  inr (mkXmlResponse true (Some article_doc)).

Definition no_reply (_ : pystr) (_ : list (pystr * pystr))
  : request_failure + xml_response :=
  inl ConnectionFailed.


(** The cache directory with [Fixtures.some_article] under the key of
    article 12345, written at the first reading of the daily clock. *)
Definition fetched_world : World :=
  mkWorld {[ cache_file Fixtures.article_key
             := entry (Fixtures.daily_clock 0)
                      (asdict_article Fixtures.some_article) ]} 1 [].

End FetchReplies.

(** ** Exporting a protocol *)

Module Exporter.

(** [s.replace(old, new)] for a one-character [old] *)
Definition replace_char (old : char) (new : pystr) (s : pystr) : pystr :=
  flat_map (fun c => if N.eqb c old then new else [c]) s.

(** [s.replace('%', '\\%').replace('&', '\\&')] *)
Definition latex_escape (s : pystr) : pystr :=
  replace_char 38%N (py "\&") (replace_char 37%N (py "\%") s).

(** [bool(o)] for the value of a field: an [Article] is an object without
    [__bool__] or [__len__], always true. *)
Definition pyobj_truthy (o : pyobj) : bool :=
  match o with
  | Data v => json_truthy v
  | ArticleObj _ => true
  end.

(** [for x in o]: the items of a list, the characters of a string, the
    keys of a dict; other values are not iterable. *)
Definition py_iter (o : pyobj) : outcome (list json) :=
  match o with
  | Data (JList items) => Returned items
  | Data (JStr s) => Returned (List.map (fun c => JStr [c]) s)
  | Data (JDict items) => Returned (List.map (fun kv => JStr (fst kv)) items)
  | _ => Raised TypeError
  end.

(** The receiver of a [str] method: other values have no such method. *)
Definition as_string (v : json) : outcome pystr :=
  match v with
  | JStr s => Returned s
  | _ => Raised AttributeError
  end.

(** A loop that appends the lines of [f x] for every [x], until [f]
    raises. *)
Fixpoint for_each {A} (f : A -> outcome (list pystr)) (xs : list A)
  : outcome (list pystr) :=
  match xs with
  | [] => Returned []
  | x :: rest =>
      let! lines := f x in
      let! more := for_each f rest in
      Returned (lines ++ more)
  end.

(** [protocol.title.replace("&", "\\&")] *)
Definition latex_title (protocol : Protocol) : outcome pystr :=
  match title protocol with
  | Data v => let! s := as_string v in Returned (replace_char 38%N (py "\&") s)
  | ArticleObj _ => Raised AttributeError
  end.

(** [protocol.original_article.title[:50]]: the attribute of an [Article];
    on a string [title] is a method, which cannot be sliced; other values
    have no such attribute. *)
Definition latex_article_title (protocol : Protocol) : outcome pystr :=
  match original_article protocol with
  | ArticleObj a => Returned (slice_to 50 (art_title a))
  | Data (JStr _) => Raised TypeError
  | Data _ => Raised AttributeError
  end.

(** The right operand of [str + x]: a string, or [TypeError]. *)
Definition concat_operand (o : pyobj) : outcome pystr :=
  match o with
  | Data (JStr s) => Returned s
  | _ => Raised TypeError
  end.

(** One turn of the loop over the reagents. *)
Definition reagent_item (reagent : json) : outcome (list pystr) :=
  let! s := as_string reagent in
  Returned [py "\item " ++ latex_escape s].

(** One turn of the loop over the procedure. *)
Definition step_item (step : json) : outcome (list pystr) :=
  let! action := dict_get_default step (py "action") (JStr []) in
  let! s := as_string action in
  Returned [py "\item " ++ latex_escape s].

(** The section of the reagents. *)
Definition latex_reagents (field : pyobj) : outcome (list pystr) :=
  if pyobj_truthy field then
    let! items := py_iter field in
    let! lines := for_each reagent_item items in
    Returned ([py "\section{Reactivos}"; py "\begin{itemize}"]
                ++ lines ++ [py "\end{itemize}"])
  else Returned [].

(** The section of the procedure. *)
Definition latex_procedure (field : pyobj) : outcome (list pystr) :=
  if pyobj_truthy field then
    let! steps := py_iter field in
    let! lines := for_each step_item steps in
    Returned ([py "\section{Procedimiento}"; py "\begin{enumerate}"]
                ++ lines ++ [py "\end{enumerate}"])
  else Returned [].

(** [ProtocolExporter.to_latex] *)
Definition to_latex (protocol : Protocol) : outcome pystr :=
  let! t := latex_title protocol in
  let! a := latex_article_title protocol in
  let! d := concat_operand (generated_date protocol) in
  let! reagent_lines := latex_reagents (reagents protocol) in
  let! procedure_lines := latex_procedure (procedure protocol) in
  Returned
    (join [10%N]
       ([ py "\documentclass{article}";
          py "\usepackage[utf8]{inputenc}";
          py "\usepackage[spanish]{babel}";
          py "\usepackage{hyperref}";
          py "\usepackage{enumitem}";
          py "\title{" ++ t ++ py "}";
          py "\author{Generado desde: " ++ a ++ py "...}";
          py "\date{" ++ d ++ py "}";
          py "\begin{document}";
          py "\maketitle" ]
          ++ reagent_lines ++ procedure_lines ++ [py "\end{document}"])).

Section Markdown.

(** [str(v)] for a value that is not a string, the [repr] of an [Article]
    and [str.title()] are the library's; they are parameters. *)
Variable py_str : json -> pystr.
Variable repr_article : Article -> pystr.
Variable str_title : pystr -> pystr.

(** [f"{v}"] *)
Definition format_value (v : json) : pystr :=
  match v with
  | JStr s => s
  | _ => py_str v
  end.

Definition format_obj (o : pyobj) : pystr :=
  match o with
  | Data v => format_value v
  | ArticleObj a => repr_article a
  end.

(** A section that lists the items of a field under a heading. *)
Definition bullet_section (heading bullet : pystr) (field : pyobj)
  : outcome (list pystr) :=
  if pyobj_truthy field then
    let! items := py_iter field in
    Returned ([heading]
                ++ List.map (fun x => bullet ++ format_value x) items
                ++ [[]])
  else Returned [].

(** [for i, prep in enumerate(protocol.preparation, 1)] *)
Fixpoint numbered (i : Z) (items : list json) : list pystr :=
  match items with
  | [] => []
  | x :: rest =>
      (str_of_int i ++ py ". " ++ format_value x) :: numbered (i + 1) rest
  end.

(** [step.get(k)]: the value, or [None]. *)
Definition step_get (step : json) (k : pystr) : outcome json :=
  dict_get_default step k JNull.

(** One turn of the loop over the procedure. *)
Definition step_lines (step : json) : outcome (list pystr) :=
  let! number := dict_get_default step (py "step") (JStr (py "?")) in
  let! action := dict_get_default step (py "action") (JStr []) in
  let! time := step_get step (py "time") in
  let! temp := step_get step (py "temp") in
  let! notes := step_get step (py "notes") in
  let step_text :=
    py "**Paso " ++ format_value number ++ py ":** " ++ format_value action
      ++ (if json_truthy time then py " (" ++ format_value time ++ py ")"
          else [])
      ++ (if json_truthy temp then py " a " ++ format_value temp else []) in
  Returned ([step_text]
              ++ (if json_truthy notes
                  then [py "   > " ++ [128161%N] ++ py " " ++ format_value notes]
                  else [])
              ++ [[]]).

(** The section of the preparation steps, numbered from 1. *)
Definition preparation_lines (field : pyobj) : outcome (list pystr) :=
  if pyobj_truthy field then
    let! items := py_iter field in
    Returned ([py "## " ++ [128203%N] ++ py " Preparaci" ++ [243%N]
                 ++ py "n Previa" ++ [10%N]]
                ++ numbered 1 items ++ [[]])
  else Returned [].

(** The section of the procedure. *)
Definition procedure_lines (field : pyobj) : outcome (list pystr) :=
  if pyobj_truthy field then
    let! steps := py_iter field in
    let! lines := for_each step_lines steps in
    Returned ([py "## " ++ [128221%N] ++ py " Procedimiento" ++ [10%N]]
                ++ lines)
  else Returned [].

(** [protocol.conditions.items()]: only a dict has the method. *)
Definition condition_lines (field : pyobj) : outcome (list pystr) :=
  if pyobj_truthy field then
    match field with
    | Data (JDict items) =>
        Returned
          ([py "## " ++ [9881%N; 65039%N] ++ py " Condiciones Experimentales"
              ++ [10%N]]
             ++ List.map
                  (fun kv =>
                     py "- **"
                       ++ str_title (replace_char 95%N (py " ") (fst kv))
                       ++ py ":** " ++ format_value (snd kv)) items
             ++ [[]])
    | _ => Raised AttributeError
    end
  else Returned [].

(** The lines about the original article: the attributes are those of an
    [Article]; any other value fails on one of them. *)
Definition article_lines (o : pyobj) : outcome (list pystr) :=
  match o with
  | ArticleObj a =>
      Returned
        ([ py "- **T" ++ [237%N] ++ py "tulo:** " ++ art_title a;
           py "- **Autores:** " ++ join (py ", ") (firstn 3 (authors a))
             ++ py " et al.";
           py "- **Journal:** " ++ journal a ++ py " (" ++ art_year a
             ++ py ")" ]
           ++ (if truthy (doi a)
               then [py "- **DOI:** [" ++ default [] (doi a)
                       ++ py "](https://doi.org/" ++ default [] (doi a)
                       ++ py ")"]
               else [])
           ++ [ py "- **PMC:** [PMC" ++ pmc_id a ++ py "]("
                  ++ full_text_url a ++ py ")" ++ [10%N] ])
  | Data _ => Raised AttributeError
  end.

(** [ProtocolExporter.to_markdown] *)
Definition to_markdown (protocol : Protocol) : outcome pystr :=
  let head :=
    [ py "# " ++ format_obj (title protocol) ++ [10%N];
      py "**Generado:** " ++ format_obj (generated_date protocol);
      py "**Modelo LLM:** " ++ format_obj (llm_model protocol) ++ [10%N];
      py "## " ++ [128218%N] ++ py " Art" ++ [237%N] ++ py "culo Original"
        ++ [10%N] ] in
  let! article := article_lines (original_article protocol) in
  let! reagent_lines :=
    bullet_section (py "## " ++ [129514%N] ++ py " Reactivos" ++ [10%N])
                   (py "- ") (reagents protocol) in
  let! material_lines :=
    bullet_section (py "## " ++ [128300%N] ++ py " Materiales y Equipos"
                      ++ [10%N])
                   (py "- ") (materials protocol) in
  let! preparation := preparation_lines (preparation protocol) in
  let! procedure := procedure_lines (procedure protocol) in
  let! conditions := condition_lines (conditions protocol) in
  let! note_lines :=
    bullet_section (py "## " ++ [9888%N; 65039%N] ++ py " Notas Cr"
                      ++ [237%N] ++ py "ticas" ++ [10%N])
                   (py "- " ++ [9889%N] ++ py " ")
                   (critical_notes protocol) in
  let! warning_lines :=
    bullet_section (py "## " ++ [128680%N] ++ py " Seguridad" ++ [10%N])
                   (py "- " ++ [9940%N] ++ py " ")
                   (safety_warnings protocol) in
  Returned
    (join [10%N]
       (head ++ article ++ reagent_lines ++ material_lines
          ++ preparation ++ procedure ++ conditions
          ++ note_lines ++ warning_lines)).

End Markdown.

End Exporter.
Import Exporter.

(** ** Protocols to export *)

Module Exports.

(** A protocol as the synthesis builds it from a well-formed response. *)
Definition heating : Protocol :=
  mkProtocol (Data (JStr (py "Heating")))
    (ArticleObj Fixtures.some_article)
    (Data (JList [JStr (py "water"); JStr (py "5% NaCl")]))
    (Data (JList [JStr (py "beaker")]))
    (Data (JList [JStr (py "fill the beaker")]))
    (Data (JList [JDict [ (py "step", JInt 1);
                          (py "action", JStr (py "heat the sample"));
                          (py "time", JStr (py "5 min")) ]]))
    (Data (JDict [ (py "ph_level", JStr (py "7")) ]))
    (Data (JList [JStr (py "do not boil")]))
    (Data (JList [JStr (py "hot surface")]))
    (Data (JStr (py "2024-01-02T00:00:00")))
    (Data (JStr (py "gpt-4-turbo-preview"))).

(** Stand-ins for [str], [repr] and [str.title] on the values above. *)
Definition plain_str (v : json) : pystr :=
  match v with
  | JInt n => str_of_int n
  | _ => py "?"
  end.

Definition plain_repr (a : Article) : pystr := py "Article(...)".

Definition plain_title (s : pystr) : pystr := s.

End Exports.

(** * Properties *)

(** ** Strings *)

Lemma pystr_eqb_eq (a b : pystr) : eqb a b = true <-> a = b.
Proof.
  revert b. induction a as [|x a IH]; intros [|y b]; simpl; split;
    try congruence; try reflexivity.
  - intros H. apply andb_true_iff in H as [Hx Ha].
    apply N.eqb_eq in Hx. apply IH in Ha. congruence.
  - intros H. injection H as -> ->. rewrite N.eqb_refl. simpl.
    apply IH. reflexivity.
Qed.

Lemma pystr_eqb_refl (a : pystr) : eqb a a = true.
Proof. apply pystr_eqb_eq. reflexivity. Qed.


Lemma on_str_truthy {A} (o : option pystr) (f : pystr -> A) :
  truthy o = true -> on_str o f = Returned (f (default [] o)).
Proof. destruct o as [[|c s]|]; intros H; first [reflexivity | discriminate H]. Qed.

(** ** The extractor *)

Section ExtractorFacts.
Variable unicode_lower : pystr -> pystr.

Notation lower := (Extractor.lower unicode_lower).
Notation title_text := (Extractor.title_text unicode_lower).
Notation titled_section_scan := (Extractor.titled_section_scan unicode_lower).
Notation extract_methods_with := (Extractor.extract_methods_with unicode_lower).
Notation _extract_methods := (Extractor._extract_methods unicode_lower).
Notation title_has_synonym := (Reading.title_has_synonym unicode_lower).

(** The inner loop never raises: it reads [.strip()] only off a truthy
    string. *)
Lemma collect_text_pieces (elems : list Element) :
  collect_text elems = Returned (flat_map node_pieces elems).
Proof.
  induction elems as [|e rest IH]; [reflexivity|].
  simpl. unfold node_pieces.
  destruct (truthy (text e)) eqn:Ht; destruct (truthy (tail e)) eqn:Hl;
    rewrite ?(on_str_truthy _ _ Ht), ?(on_str_truthy _ _ Hl); simpl;
    rewrite IH; simpl; reflexivity.
Qed.

Lemma section_text_content (sec : Element) :
  section_text sec = Returned (section_content sec).
Proof.
  unfold section_text, section_content.
  rewrite collect_text_pieces. reflexivity.
Qed.



(** What the title test of the loop computes. *)
Lemma title_text_spec (title : Element) :
  exists tt, title_text title = Returned tt /\
    has_methods_title tt =
    match text title with
    | Some s => has_methods_title (lower s)
    | None => false
    end.
Proof.
  unfold Extractor.title_text.
  destruct (text title) as [[|c s]|]; simpl.
  - exists []. split; reflexivity.
  - eexists. split; reflexivity.
  - exists []. split; reflexivity.
Qed.

(** One turn of the first loop. *)
Lemma scan_step (sec : Element) (rest : list Element) :
  titled_section_scan (sec :: rest) =
  if title_has_synonym sec
  then Returned (Some (section_content sec))
  else titled_section_scan rest.
Proof.
  cbn [Extractor.titled_section_scan]. unfold Reading.title_has_synonym.
  destruct (find_child (py "title") sec) as [title|]; [|reflexivity].
  destruct (title_text_spec title) as (tt & -> & Hm).
  unfold obind at 1. rewrite Hm.
  destruct (text title) as [s|]; [|reflexivity].
  change (existsb (fun syn => contains syn (lower s)) methods_titles)
    with (has_methods_title (lower s)).
  destruct (has_methods_title (lower s)); [|reflexivity].
  rewrite section_text_content. reflexivity.
Qed.

Lemma scan_first_match (before : list Element) (sec : Element)
    (after : list Element) :
  Forall (fun x => title_has_synonym x = false) before ->
  title_has_synonym sec = true ->
  titled_section_scan (before ++ sec :: after)
  = Returned (Some (section_content sec)).
Proof.
  intros Hb Hs. induction Hb as [|x before Hx _ IH].
  - simpl app. rewrite scan_step, Hs. reflexivity.
  - change ((x :: before) ++ sec :: after) with (x :: (before ++ sec :: after)).
    rewrite scan_step, Hx. exact IH.
Qed.

Lemma scan_no_match (secs : list Element) :
  Forall (fun x => title_has_synonym x = false) secs ->
  titled_section_scan secs = Returned None.
Proof.
  intros H. induction H as [|x secs Hx _ IH]; [reflexivity|].
  rewrite scan_step, Hx. exact IH.
Qed.

Lemma scan_skips (before : list Element) (sec : Element)
    (after : list Element) :
  title_has_synonym sec = false ->
  titled_section_scan (before ++ sec :: after)
  = titled_section_scan (before ++ after).
Proof.
  intros Hs. induction before as [|x before IH].
  - simpl app. rewrite scan_step, Hs. reflexivity.
  - change ((x :: before) ++ ?l) with (x :: (before ++ l)).
    rewrite !scan_step, IH. reflexivity.
Qed.

(** The first loop always runs to an end. *)
Lemma scan_returns (secs : list Element) :
  exists r, titled_section_scan secs = Returned r.
Proof.
  induction secs as [|x secs [r IH]]; [eexists; reflexivity|].
  rewrite scan_step. destruct (title_has_synonym x); eauto.
Qed.

(** A list with a matching element has a first one. *)
Lemma first_match_split (secs : list Element) :
  (exists sec, In sec secs /\ title_has_synonym sec = true) ->
  exists before sec after,
    secs = before ++ sec :: after
    /\ Forall (fun x => title_has_synonym x = false) before
    /\ title_has_synonym sec = true.
Proof.
  induction secs as [|x secs IH]; intros (sec & Hin & Hs).
  - destruct Hin.
  - destruct (title_has_synonym x) eqn:Hx.
    + exists [], x, secs. auto.
    + destruct IH as (before & s & after & -> & Hb & Hm).
      { destruct Hin as [->|Hin]; [congruence|eauto]. }
      exists (x :: before), s, after. auto.
Qed.

Lemma body_fallback_returns (root : Element) :
  exists r, body_pattern_fallback root = Returned r.
Proof.
  unfold body_pattern_fallback.
  destruct (find_descendant (py "body") root); eauto.
Qed.

Lemma first_pattern_none (patterns : list pystr) (body_text : pystr) :
  (forall pattern, In pattern patterns -> re_search pattern body_text = None) ->
  first_pattern_match patterns body_text = None.
Proof.
  induction patterns as [|p ps IH]; intros H; [reflexivity|].
  simpl. rewrite (H p) by (left; reflexivity).
  apply IH. intros q Hq. apply H. right. exact Hq.
Qed.

(** C1. When some section of the document has a title whose text contains a
    methods synonym, the extractor returns the concatenated text of the
    first such section in document order; this holds whatever the second
    stage would do, so the body-pattern fallback has no part in the result. *)
Theorem titled_section_wins (root : Element) :
  (exists sec, In sec (iter_tag (py "sec") root)
               /\ title_has_synonym sec = true) ->
  exists before sec after,
    iter_tag (py "sec") root = before ++ sec :: after
    /\ Forall (fun x => title_has_synonym x = false) before
    /\ title_has_synonym sec = true
    /\ _extract_methods root = Returned (Some (section_content sec))
    /\ forall stage2,
         extract_methods_with stage2 root
         = Returned (Some (section_content sec)).
Proof.
  intros H. apply first_match_split in H as (before & sec & after & E & Hb & Hs).
  exists before, sec, after. repeat split; try assumption.
  - unfold Extractor._extract_methods, Extractor.extract_methods_with.
    rewrite E, (scan_first_match _ _ _ Hb Hs). reflexivity.
  - intros stage2. unfold Extractor.extract_methods_with.
    rewrite E, (scan_first_match _ _ _ Hb Hs). reflexivity.
Qed.

(** C3. The extractor returns on every document tree, a text or nothing,
    and it returns nothing when no section title matches and no body
    pattern matches. *)
Theorem extract_methods_total (root : Element) :
  (exists r, _extract_methods root = Returned r)
  /\ (Forall (fun sec => title_has_synonym sec = false)
             (iter_tag (py "sec") root) ->
      (forall body pattern,
          find_descendant (py "body") root = Some body ->
          In pattern body_patterns ->
          re_search pattern (join (py " ") (itertext body)) = None) ->
      _extract_methods root = Returned None).
Proof.
  unfold Extractor._extract_methods, Extractor.extract_methods_with. split.
  - destruct (scan_returns (iter_tag (py "sec") root)) as [[t|] ->]; simpl.
    + eauto.
    + apply body_fallback_returns.
  - intros Hsec Hbody. rewrite (scan_no_match _ Hsec). simpl.
    unfold body_pattern_fallback.
    destruct (find_descendant (py "body") root) as [body|] eqn:Eb;
      [|reflexivity].
    rewrite first_pattern_none; [reflexivity|]. intros p Hp. eauto.
Qed.

(** C10. A section whose title node has no text of its own, or text that
    lacks every synonym, is passed over by the first loop whatever the
    children of the title node contain: the scan goes on as if the section
    were not there, and when it is the only section the result is that of
    the body-pattern fallback. *)
Theorem nested_title_not_matched (sec title : Element) :
  find_child (py "title") sec = Some title ->
  (forall s, text title = Some s -> has_methods_title (lower s) = false) ->
  (forall before after,
      titled_section_scan (before ++ sec :: after)
      = titled_section_scan (before ++ after))
  /\ (forall root,
        iter_tag (py "sec") root = [sec] ->
        _extract_methods root = body_pattern_fallback root).
Proof.
  intros Ht Htext.
  assert (Hs : title_has_synonym sec = false).
  { unfold Reading.title_has_synonym. rewrite Ht.
    destruct (text title) as [s|] eqn:E; [|reflexivity].
    apply (Htext s). reflexivity. }
  split.
  - intros before after. apply scan_skips. exact Hs.
  - intros root E.
    unfold Extractor._extract_methods, Extractor.extract_methods_with.
    rewrite E, scan_step, Hs. reflexivity.
Qed.

End ExtractorFacts.

(** The fixture run: the title comes first in the returned text. *)
Example extract_methods_sec :
  Extractor._extract_methods ascii_only Fixtures.methods_sec
  = Returned (Some (py "Materials and Methods " ++ Fixtures.paragraph)).
Proof. vm_compute. reflexivity. Qed.

Example extract_both_stages :
  Extractor._extract_methods ascii_only Fixtures.both_stages
  = Returned (Some (py "Methods Cells were lysed."))
  /\ body_pattern_fallback Fixtures.both_stages
     = Returned (Some (py "cells were grown.")).
Proof. split; vm_compute; reflexivity. Qed.

Example extract_no_methods :
  Extractor._extract_methods ascii_only Fixtures.no_methods = Returned None.
Proof. vm_compute. reflexivity. Qed.

Example extract_nested_title :
  Extractor._extract_methods ascii_only Fixtures.nested_title_sec
  = Returned None
  /\ Extractor._extract_methods ascii_only Fixtures.nested_then_plain
     = Returned (Some (py "Experimental procedures Seen.")).
Proof. split; vm_compute; reflexivity. Qed.

(** An instance: a document with a titled section and a body the fallback
    pattern matches. *)
Lemma titled_section_wins_witness :
  (exists sec, In sec (iter_tag (py "sec") Fixtures.both_stages)
               /\ title_has_synonym ascii_only sec = true)
  /\ exists before sec after,
       iter_tag (py "sec") Fixtures.both_stages = before ++ sec :: after
       /\ Forall (fun x => title_has_synonym ascii_only x = false) before
       /\ title_has_synonym ascii_only sec = true
       /\ Extractor._extract_methods ascii_only Fixtures.both_stages
          = Returned (Some (section_content sec))
       /\ forall stage2,
            Extractor.extract_methods_with ascii_only stage2
              Fixtures.both_stages
            = Returned (Some (section_content sec)).
Proof.
  assert (H : exists sec, In sec (iter_tag (py "sec") Fixtures.both_stages)
                          /\ title_has_synonym ascii_only sec = true).
  { exists Fixtures.titled_sec. split.
    - left. reflexivity.
    - vm_compute. reflexivity. }
  split; [exact H|].
  exact (titled_section_wins ascii_only Fixtures.both_stages H).
Defined.

(** An instance: a document with an introduction only. *)
Lemma extract_methods_total_witness :
  Forall (fun sec => title_has_synonym ascii_only sec = false)
         (iter_tag (py "sec") Fixtures.no_methods)
  /\ (forall body pattern,
         find_descendant (py "body") Fixtures.no_methods = Some body ->
         In pattern body_patterns ->
         re_search pattern (join (py " ") (itertext body)) = None)
  /\ Extractor._extract_methods ascii_only Fixtures.no_methods
     = Returned None.
Proof.
  assert (H1 : Forall (fun sec => title_has_synonym ascii_only sec = false)
                      (iter_tag (py "sec") Fixtures.no_methods)).
  { repeat constructor. }
  assert (H2 : forall body pattern,
             find_descendant (py "body") Fixtures.no_methods = Some body ->
             In pattern body_patterns ->
             re_search pattern (join (py " ") (itertext body)) = None).
  { intros body pattern Hb Hp. injection Hb as <-.
    destruct Hp as [<-|[<-|[<-|[]]]]; vm_compute; reflexivity. }
  split; [exact H1|]. split; [exact H2|].
  exact (proj2 (extract_methods_total ascii_only Fixtures.no_methods) H1 H2).
Defined.

(** An instance: the phrase sits in an [italic] child of the title. *)
Lemma nested_title_not_matched_witness :
  let title := mkElement (py "title") None None
                 [ mkElement (py "italic") (Some (py "Methods")) None [] ] in
  find_child (py "title") Fixtures.nested_title_sec = Some title
  /\ (forall s, text title = Some s ->
                has_methods_title (Extractor.lower ascii_only s) = false)
  /\ Extractor.titled_section_scan ascii_only
       ([] ++ Fixtures.nested_title_sec :: [Fixtures.later_sec])
     = Extractor.titled_section_scan ascii_only ([] ++ [Fixtures.later_sec])
  /\ Extractor._extract_methods ascii_only Fixtures.nested_title_sec
     = body_pattern_fallback Fixtures.nested_title_sec.
Proof.
  intros title.
  assert (H1 : find_child (py "title") Fixtures.nested_title_sec = Some title)
    by reflexivity.
  assert (H2 : forall s, text title = Some s ->
                 has_methods_title (Extractor.lower ascii_only s) = false)
    by (intros s Hs; discriminate Hs).
  split; [exact H1|]. split; [exact H2|].
  destruct (nested_title_not_matched ascii_only Fixtures.nested_title_sec
              title H1 H2) as [Hscan Hroot].
  split; [apply Hscan | apply Hroot; reflexivity].
Defined.

(** C2 as stated fails: the text returned for the fixture is not the
    paragraph, even up to white space. *)
Lemma fixture_is_not_paragraph_only :
  exists s,
    Extractor._extract_methods ascii_only Fixtures.methods_sec
    = Returned (Some s)
    /\ normalize_ws s <> normalize_ws Fixtures.paragraph.
Proof.
  eexists. split; [vm_compute; reflexivity|].
  vm_compute. intros H. discriminate H.
Qed.

(** C2, amended. For the fixture the extractor returns the title text, a
    space and the paragraph text: the title node is a node of the section
    like any other. *)
Theorem fixture_methods_text (unicode_lower : pystr -> pystr) :
  Extractor._extract_methods unicode_lower Fixtures.methods_sec
  = Returned (Some (py "Materials and Methods " ++ Fixtures.paragraph)).
Proof. vm_compute. reflexivity. Qed.

(** ** The cache *)

Lemma days_sub (a b : datetime) :
  days (sub a b) = (timestamp_us a - timestamp_us b) / us_per_day.
Proof.
  unfold sub, make_timedelta, timestamp_us. cbn [days].
  f_equal. ring.
Qed.

(** The age test of [get], on the time line. *)
Lemma fresh_iff (a b : datetime) :
  (days (sub a b) <? CACHE_EXPIRY_DAYS)
  = (timestamp_us a - timestamp_us b <? CACHE_EXPIRY_DAYS * us_per_day).
Proof.
  rewrite days_sub. unfold CACHE_EXPIRY_DAYS, us_per_day.
  set (x := timestamp_us a - timestamp_us b).
  destruct (Z.ltb_spec (x / (86400 * 1000000)) 7) as [H|H];
    destruct (Z.ltb_spec x (7 * (86400 * 1000000))) as [H'|H'];
    try reflexivity; exfalso.
  - assert (7 <= x / (86400 * 1000000))
      by (apply Z.div_le_lower_bound; lia). lia.
  - assert (x / (86400 * 1000000) < 7)
      by (apply Z.div_lt_upper_bound; lia). lia.
Qed.

Section CacheFacts.
Variable clock : nat -> datetime.
Variable fromisoformat : pystr -> option parsed_time.

Notation get := (get clock fromisoformat).
Notation set := (set clock).

Lemma set_spec (key : pystr) (content : json) (w : World) :
  set key content w
  = (Returned tt,
     mkWorld (<[cache_file key := entry (clock (ticks w)) content]> (fs w))
             (S (ticks w)) (CacheWrite key :: trace w)).
Proof. reflexivity. Qed.

Lemma get_missing (key : pystr) (w : World) :
  fs w !! cache_file key = None ->
  get key w
  = (Returned JNull, mkWorld (fs w) (ticks w) (CacheRead key :: trace w)).
Proof.
  intros H. unfold Pipeline.get, bind, emit. cbn [fs ticks trace].
  rewrite H. reflexivity.
Qed.

(** [get] on an entry as [set] writes it: the content while the entry is
    younger than the expiry, nothing afterwards; the file stays. *)
Lemma get_entry (key : pystr) (t_put : datetime) (content : json)
    (w : World) :
  fs w !! cache_file key = Some (entry t_put content) ->
  fromisoformat (isoformat t_put) = Some (Naive t_put) ->
  get key w
  = (Returned
       (if timestamp_us (clock (ticks w)) - timestamp_us t_put
           <? CACHE_EXPIRY_DAYS * us_per_day
        then content else JNull),
     mkWorld (fs w) (S (ticks w)) (CacheRead key :: trace w)).
Proof.
  intros Hf Hiso. unfold Pipeline.get, bind, emit. cbn [fs ticks trace].
  rewrite Hf. unfold entry, lift, json_load.
  change (getitem (JDict [(py "timestamp", JStr (isoformat t_put));
                          (py "content", content)]) (py "timestamp"))
    with (Returned (A := json) (JStr (isoformat t_put))).
  cbn [parse_timestamp]. rewrite Hiso. unfold now. cbn [fs ticks trace].
  cbn [elapsed]. rewrite fresh_iff.
  destruct (_ <? _); reflexivity.
Qed.

(** C4. After [set] under the key of a semantic string, [get] under that
    key returns the payload written, as long as the clock reading at the
    [get] is less than the expiry (7 days) after the one at the [set]. *)
Theorem cache_roundtrip (w : World) (k key : pystr) (p : json) :
  get_cache_key k = Returned key ->
  let t_put := clock (ticks w) in
  let w' := snd (set key p w) in
  let t_get := clock (ticks w') in
  fromisoformat (isoformat t_put) = Some (Naive t_put) ->
  timestamp_us t_get - timestamp_us t_put < CACHE_EXPIRY_DAYS * us_per_day ->
  fst (set key p w) = Returned tt /\ fst (get key w') = Returned p.
Proof.
  intros _ t_put w' t_get Hiso Hage. split; [reflexivity|].
  subst w' t_get t_put. rewrite set_spec in *. cbn [snd] in *.
  rewrite (get_entry key (clock (ticks w)) p); cbn [fs ticks trace fst].
  - apply Z.ltb_lt in Hage. cbn [ticks] in Hage. rewrite Hage. reflexivity.
  - apply lookup_insert_eq.
  - exact Hiso.
Qed.

(** C5. An entry written by [set] at clock reading [t_put] and read at
    [t_get]: [get] gives the payload when [t_get - t_put] is below the
    expiry and nothing otherwise; so at [t_put + 7 days + eps], [eps > 0],
    the entry is absent. The read leaves the file in place. *)
Theorem cache_expiry (w : World) (key : pystr) (p : json) :
  let t_put := clock (ticks w) in
  let w' := snd (set key p w) in
  let t_get := clock (ticks w') in
  fromisoformat (isoformat t_put) = Some (Naive t_put) ->
  fst (get key w')
  = Returned (if timestamp_us t_get - timestamp_us t_put
                 <? CACHE_EXPIRY_DAYS * us_per_day
              then p else JNull)
  /\ (forall eps, 0 < eps ->
        timestamp_us t_get
        = timestamp_us t_put + CACHE_EXPIRY_DAYS * us_per_day + eps ->
        fst (get key w') = Returned JNull)
  /\ fs (snd (get key w')) = fs w'.
Proof.
  intros t_put w' t_get Hiso.
  assert (E : get key w'
              = (Returned
                   (if timestamp_us t_get - timestamp_us t_put
                       <? CACHE_EXPIRY_DAYS * us_per_day
                    then p else JNull),
                 mkWorld (fs w') (S (ticks w')) (CacheRead key :: trace w'))).
  { apply get_entry; [|exact Hiso].
    subst w'. rewrite set_spec. cbn [snd fs]. apply lookup_insert_eq. }
  rewrite E. cbn [fst snd fs]. repeat split.
  intros eps Heps Ht.
  destruct (Z.ltb_spec (timestamp_us t_get - timestamp_us t_put)
                       (CACHE_EXPIRY_DAYS * us_per_day)); [lia|reflexivity].
Qed.

(** C6, amended. A stored entry that cannot be used makes [get] raise, and
    the exception is the one of the step that failed: a file that cannot be
    opened, one that is not UTF-8, one that is not JSON, a JSON value that
    is not an object or has no [timestamp] key, a timestamp that is not a
    string, does not parse or carries a UTC offset, an unexpired entry
    without the [content] key. What [get] reports absent for a file that
    exists is an entry with a timestamp it can read that has expired, or an
    unexpired one whose content is [null]; nothing else. *)
Theorem corrupt_entry_raises (w : World) (key : pystr) (f : file) :
  fs w !! cache_file key = Some f ->
  (f = Unreadable -> fst (get key w) = Raised OSError)
  /\ (f = NotUtf8 -> fst (get key w) = Raised UnicodeDecodeError)
  /\ (f = NotJson -> fst (get key w) = Raised JSONDecodeError)
  /\ (forall data,
        f = JsonDoc data ->
        (forall items, data <> JDict items) ->
        fst (get key w) = Raised TypeError)
  /\ (forall items,
        f = JsonDoc (JDict items) ->
        dict_get (py "timestamp") items = None ->
        fst (get key w) = Raised (KeyError (py "timestamp")))
  /\ (forall items v,
        f = JsonDoc (JDict items) ->
        dict_get (py "timestamp") items = Some v ->
        (forall s, v <> JStr s) ->
        fst (get key w) = Raised TypeError)
  /\ (forall items s,
        f = JsonDoc (JDict items) ->
        dict_get (py "timestamp") items = Some (JStr s) ->
        fromisoformat s = None ->
        fst (get key w) = Raised InvalidIsoformat)
  /\ (forall items s,
        f = JsonDoc (JDict items) ->
        dict_get (py "timestamp") items = Some (JStr s) ->
        fromisoformat s = Some Aware ->
        fst (get key w) = Raised TypeError)
  /\ (forall items s t,
        f = JsonDoc (JDict items) ->
        dict_get (py "timestamp") items = Some (JStr s) ->
        fromisoformat s = Some (Naive t) ->
        timestamp_us (clock (ticks w)) - timestamp_us t
          < CACHE_EXPIRY_DAYS * us_per_day ->
        dict_get (py "content") items = None ->
        fst (get key w) = Raised (KeyError (py "content")))
  /\ (fst (get key w) = Returned JNull ->
      exists items s t,
        f = JsonDoc (JDict items)
        /\ dict_get (py "timestamp") items = Some (JStr s)
        /\ fromisoformat s = Some (Naive t)
        /\ (CACHE_EXPIRY_DAYS * us_per_day
              <= timestamp_us (clock (ticks w)) - timestamp_us t
            \/ dict_get (py "content") items = Some JNull)).
Proof.
  intros Hf. unfold Pipeline.get, bind, emit. cbn [fs ticks trace].
  rewrite Hf.
  split; [intros ->; reflexivity|].
  split; [intros ->; reflexivity|].
  split; [intros ->; reflexivity|].
  split.
  { intros data -> Hd. unfold lift, json_load, getitem.
    destruct data; try reflexivity. destruct (Hd items eq_refl). }
  split.
  { intros items -> Hts. unfold lift, json_load, getitem.
    rewrite Hts. reflexivity. }
  split.
  { intros items v -> Hts Hv. unfold lift, json_load, getitem.
    rewrite Hts. destruct v; try reflexivity. destruct (Hv s eq_refl). }
  split.
  { intros items s -> Hts Hiso. unfold lift, json_load, getitem.
    rewrite Hts. cbn [parse_timestamp]. rewrite Hiso. reflexivity. }
  split.
  { intros items s -> Hts Hiso. unfold lift, json_load, getitem.
    rewrite Hts. cbn [parse_timestamp]. rewrite Hiso. reflexivity. }
  split.
  { intros items s t -> Hts Hiso Hage Hc. unfold lift, json_load, getitem.
    rewrite Hts. cbn [parse_timestamp]. rewrite Hiso.
    unfold now. cbn [fs ticks trace elapsed]. rewrite fresh_iff.
    apply Z.ltb_lt in Hage. rewrite Hage, Hc. reflexivity. }
  destruct f as [| | |data]; try (intros H; discriminate H).
  unfold lift, json_load, getitem.
  destruct data as [| | | | | |items]; try (intros H; discriminate H).
  destruct (dict_get (py "timestamp") items) as [v|] eqn:Hts;
    [|intros H; discriminate H].
  destruct v as [| | | |s| |]; try (intros H; discriminate H).
  cbn [parse_timestamp].
  destruct (fromisoformat s) as [[t|]|] eqn:Hiso;
    try (intros H; discriminate H).
  unfold now. cbn [fs ticks trace elapsed]. rewrite fresh_iff.
  destruct (Z.ltb_spec (timestamp_us (clock (ticks w)) - timestamp_us t)
                       (CACHE_EXPIRY_DAYS * us_per_day)) as [Hage|Hage].
  - destruct (dict_get (py "content") items) as [c|] eqn:Hc;
      [|intros H; discriminate H].
    cbn [fst]. intros [= ->]. exists items, s, t.
    split; [reflexivity|]. split; [exact Hts|]. split; [exact Hiso|].
    right. exact Hc.
  - intros _. exists items, s, t.
    split; [reflexivity|]. split; [exact Hts|]. split; [exact Hiso|].
    left. exact Hage.
Qed.

End CacheFacts.

Example article_key_digest :
  get_cache_key (py "article_12345") = Returned Fixtures.article_key.
Proof. vm_compute. reflexivity. Qed.

Example isoformat_reading :
  isoformat (Fixtures.late_clock 1) = py "2024-01-08T12:00:00.000001"
  /\ read_isoformat (py "2024-01-08T12:00:00.000001")
     = Some (Naive (Fixtures.late_clock 1))
  /\ isoformat (Fixtures.daily_clock 0) = py "2024-01-01T12:00:00".
Proof. repeat split; vm_compute; reflexivity. Qed.

(** An instance: written at noon, read one day later. *)
Lemma cache_roundtrip_witness :
  get_cache_key (py "article_12345") = Returned Fixtures.article_key
  /\ fst (set Fixtures.daily_clock Fixtures.article_key Fixtures.payload
            Fixtures.empty_world) = Returned tt
  /\ fst (get Fixtures.daily_clock read_isoformat Fixtures.article_key
            (snd (set Fixtures.daily_clock Fixtures.article_key
                    Fixtures.payload Fixtures.empty_world)))
     = Returned Fixtures.payload.
Proof.
  assert (H : get_cache_key (py "article_12345")
              = Returned Fixtures.article_key) by (vm_compute; reflexivity).
  split; [exact H|].
  apply (cache_roundtrip Fixtures.daily_clock read_isoformat
           Fixtures.empty_world (py "article_12345") Fixtures.article_key
           Fixtures.payload H).
  - vm_compute. reflexivity.
  - vm_compute. reflexivity.
Defined.

(** An instance: read seven days and one microsecond after the write. *)
Lemma cache_expiry_witness :
  read_isoformat (isoformat (Fixtures.late_clock 0))
  = Some (Naive (Fixtures.late_clock 0))
  /\ fst (get Fixtures.late_clock read_isoformat Fixtures.article_key
            (snd (set Fixtures.late_clock Fixtures.article_key
                    Fixtures.payload Fixtures.empty_world)))
     = Returned JNull.
Proof.
  assert (H : read_isoformat (isoformat (Fixtures.late_clock 0))
              = Some (Naive (Fixtures.late_clock 0))) by (vm_compute; reflexivity).
  split; [exact H|].
  destruct (cache_expiry Fixtures.late_clock read_isoformat
              Fixtures.empty_world Fixtures.article_key Fixtures.payload H)
    as (_ & Hlate & _).
  apply (Hlate 1); [lia|]. vm_compute. reflexivity.
Defined.

(** C6 as stated fails: with a file that is not JSON under the key, [get]
    raises instead of reporting the entry absent. *)
Lemma corrupt_entry_is_not_a_miss :
  fst (get Fixtures.daily_clock read_isoformat Fixtures.article_key
         Fixtures.corrupt_world)
  = Raised JSONDecodeError.
Proof.
  unfold Pipeline.get, bind, emit, Fixtures.corrupt_world.
  cbn [fs ticks trace]. rewrite lookup_singleton_eq. reflexivity.
Qed.

(** An instance: the file under the key is not JSON. *)
Lemma corrupt_entry_raises_witness :
  fs Fixtures.corrupt_world !! cache_file Fixtures.article_key = Some NotJson
  /\ fst (get Fixtures.daily_clock read_isoformat Fixtures.article_key
            Fixtures.corrupt_world)
     = Raised JSONDecodeError.
Proof.
  assert (H : fs Fixtures.corrupt_world !! cache_file Fixtures.article_key
              = Some NotJson) by apply lookup_singleton_eq.
  split; [exact H|].
  destruct (corrupt_entry_raises Fixtures.daily_clock read_isoformat
              Fixtures.corrupt_world Fixtures.article_key NotJson H)
    as (_ & _ & Hnotjson & _).
  apply Hnotjson. reflexivity.
Defined.

(** ** Search and synthesis *)

Ltac run_search :=
  unfold request_get, raise_for_status, response_json, bind, ret, raise,
    lift, emit;
  cbn [fs ticks trace].

Section PipelineFacts.
Variable clock : nat -> datetime.
Variable fromisoformat : pystr -> option parsed_time.
Variable json_loads : pystr -> option json.
Variable session_get :
  pystr -> list (pystr * pystr) -> request_failure + response.
Variable chat_completion : pystr -> pystr -> pystr -> option (option pystr).
Variable _get_system_prompt : pystr.
Variable _build_prompt : pystr -> pystr -> pystr.

Notation get := (get clock fromisoformat).
Notation search_articles := (search_articles clock fromisoformat session_get).
Notation generate_protocol :=
  (generate_protocol clock fromisoformat json_loads chat_completion
     _get_system_prompt _build_prompt).

(** C7. With no methods text ([None] or the empty string),
    [generate_protocol] raises the [ValueError] of its first statement and
    the world is as before: no event was recorded, so no request went to
    the generative collaborator and the cache was neither read nor
    written. *)
Theorem empty_methods_rejected (model : pystr) (methods_text : option pystr)
    (article_info : Article) (style : pystr) (w : World) :
  truthy methods_text = false ->
  generate_protocol model methods_text article_info style w
  = (Raised (ValueError no_methods_message), w).
Proof.
  intros H. unfold Pipeline.generate_protocol. rewrite H. reflexivity.
Qed.

(** [search_articles] from the request on, when the cache has no file for
    the key. *)
Lemma search_on_miss (query : pystr) (max_results : Z) (key : pystr)
    (w : World) :
  get_cache_key (py "search_" ++ query ++ py "_" ++ str_of_int max_results)
  = Returned key ->
  fs w !! cache_file key = None ->
  search_articles query max_results w
  = (do response <- request_get session_get (BASE_URL ++ py "/esearch.fcgi")
                      (search_params query max_results) ;
     do _ <- raise_for_status response ;
     do data <- response_json response ;
     do has_result <- lift (py_in (py "esearchresult") data) ;
     if has_result then
       do result <- lift (getitem data (py "esearchresult")) ;
       do has_idlist <- lift (py_in (py "idlist") result) ;
       if has_idlist then
         do ids <- lift (getitem result (py "idlist")) ;
         do _ <- set clock key ids ;
         ret ids
       else ret (JList [])
     else ret (JList []))
      (mkWorld (fs w) (ticks w) (CacheRead key :: trace w)).
Proof.
  intros Hk Hf. unfold Pipeline.search_articles.
  rewrite Hk. unfold bind at 1. unfold lift at 1.
  unfold bind at 1. rewrite (get_missing clock fromisoformat key w Hf).
  reflexivity.
Qed.

Lemma py_in_dict (k : pystr) (items : list (pystr * json)) :
  py_in k (JDict items)
  = Returned (match dict_get k items with Some _ => true | None => false end).
Proof.
  unfold py_in. destruct (dict_get k items); reflexivity.
Qed.

(** C8, amended. On a cache miss [search_articles] raises the exception of
    the request when the search collaborator fails: no response, an error
    status, a body that is not JSON. A JSON object without
    ["esearchresult"], or whose ["esearchresult"] is an object without
    ["idlist"], is answered with the empty list, and so is a well-formed
    response whose identifier list is empty. *)
Theorem search_failure_modes (query : pystr) (max_results : Z) (key : pystr)
    (w : World) :
  get_cache_key (py "search_" ++ query ++ py "_" ++ str_of_int max_results)
  = Returned key ->
  fs w !! cache_file key = None ->
  let url := BASE_URL ++ py "/esearch.fcgi" in
  let params := search_params query max_results in
  let result := fst (search_articles query max_results w) in
  (forall failure,
      session_get url params = inl failure ->
      result = Raised (RequestException failure))
  /\ (forall r,
        session_get url params = inr r -> status_ok r = false ->
        result = Raised (RequestException HTTPError))
  /\ (forall r,
        session_get url params = inr r -> status_ok r = true ->
        body r = None ->
        result = Raised (RequestException InvalidJSON))
  /\ (forall r items,
        session_get url params = inr r -> status_ok r = true ->
        body r = Some (JDict items) ->
        dict_get (py "esearchresult") items = None ->
        result = Returned (JList []))
  /\ (forall r items inner,
        session_get url params = inr r -> status_ok r = true ->
        body r = Some (JDict items) ->
        dict_get (py "esearchresult") items = Some (JDict inner) ->
        dict_get (py "idlist") inner = None ->
        result = Returned (JList []))
  /\ (forall r items inner,
        session_get url params = inr r -> status_ok r = true ->
        body r = Some (JDict items) ->
        dict_get (py "esearchresult") items = Some (JDict inner) ->
        dict_get (py "idlist") inner = Some (JList []) ->
        result = Returned (JList [])).
Proof.
  intros Hk Hf url params result. subst result url params.
  rewrite (search_on_miss query max_results key w Hk Hf).
  repeat split.
  - intros failure Hg. run_search. rewrite Hg. reflexivity.
  - intros r Hg Hs. run_search. rewrite Hg. cbv beta iota.
    rewrite Hs. reflexivity.
  - intros r Hg Hs Hb. run_search. rewrite Hg. cbv beta iota.
    rewrite Hs. cbv beta iota. rewrite Hb. reflexivity.
  - intros r items Hg Hs Hb He. run_search. rewrite Hg. cbv beta iota.
    rewrite Hs. cbv beta iota. rewrite Hb. cbv beta iota.
    rewrite py_in_dict, He. reflexivity.
  - intros r items inner Hg Hs Hb He Hi. run_search. rewrite Hg.
    cbv beta iota. rewrite Hs. cbv beta iota. rewrite Hb. cbv beta iota.
    rewrite py_in_dict, He. cbv beta iota. unfold getitem at 1.
    rewrite He. cbv beta iota. rewrite py_in_dict, Hi. reflexivity.
  - intros r items inner Hg Hs Hb He Hi. run_search. rewrite Hg.
    cbv beta iota. rewrite Hs. cbv beta iota. rewrite Hb. cbv beta iota.
    rewrite py_in_dict, He. cbv beta iota. unfold getitem at 1.
    rewrite He. cbv beta iota. rewrite py_in_dict, Hi. cbv beta iota.
    unfold getitem. rewrite Hi. reflexivity.
Qed.

(** [generate_protocol] on a cache hit: the cached value goes to the
    [Protocol] constructor and nothing else happens. *)
Lemma generate_protocol_hit (model text : pystr) (article_info : Article)
    (style key : pystr) (cached : json) (w : World) :
  text <> [] ->
  protocol_cache_key text style = Returned key ->
  fst (get key w) = Returned cached ->
  json_truthy cached = true ->
  generate_protocol model (Some text) article_info style w
  = (Protocol_of_kwargs cached, snd (get key w)).
Proof.
  intros Hne Hk Hg Ht. unfold Pipeline.generate_protocol.
  destruct text as [|c text]; [congruence|]. cbn [truthy negb].
  change (default [] (Some (c :: text))) with (c :: text).
  rewrite Hk. unfold bind at 1. unfold lift at 1. unfold bind at 1.
  destruct (get key w) as [r w'] eqn:E. cbn [fst snd] in *. subst r.
  rewrite Ht. reflexivity.
Qed.

End PipelineFacts.

(** Instances: [None] and the empty string. *)
Lemma empty_methods_rejected_witness :
  truthy None = false /\ truthy (Some []) = false
  /\ generate_protocol Fixtures.daily_clock read_isoformat
       Fixtures.fixed_loads Fixtures.fixed_completion (py "system")
       Fixtures.plain_prompt (py "gpt-4-turbo-preview") None
       Fixtures.some_article (py "detailed") Fixtures.empty_world
     = (Raised (ValueError no_methods_message), Fixtures.empty_world)
  /\ generate_protocol Fixtures.daily_clock read_isoformat
       Fixtures.fixed_loads Fixtures.fixed_completion (py "system")
       Fixtures.plain_prompt (py "gpt-4-turbo-preview") (Some [])
       Fixtures.some_article (py "detailed") Fixtures.empty_world
     = (Raised (ValueError no_methods_message), Fixtures.empty_world).
Proof.
  assert (H1 : truthy None = false) by reflexivity.
  assert (H2 : truthy (Some []) = false) by reflexivity.
  split; [exact H1|]. split; [exact H2|]. split.
  - exact (empty_methods_rejected Fixtures.daily_clock read_isoformat
             Fixtures.fixed_loads Fixtures.fixed_completion (py "system")
             Fixtures.plain_prompt (py "gpt-4-turbo-preview") None
             Fixtures.some_article (py "detailed") Fixtures.empty_world H1).
  - exact (empty_methods_rejected Fixtures.daily_clock read_isoformat
             Fixtures.fixed_loads Fixtures.fixed_completion (py "system")
             Fixtures.plain_prompt (py "gpt-4-turbo-preview") (Some [])
             Fixtures.some_article (py "detailed") Fixtures.empty_world H2).
Defined.

(** [get_cache_key("search_PCR_5")] *)
Example search_key_digest :
  get_cache_key (py "search_" ++ py "PCR" ++ py "_" ++ str_of_int 5)
  = Returned Fixtures.search_key.
Proof. vm_compute. reflexivity. Qed.

(** C8 as stated fails: a response without the expected structure, here
    the JSON object [{}], gives the empty list, not an error. *)
Lemma malformed_response_is_not_an_error :
  fst (search_articles Fixtures.daily_clock read_isoformat
         Fixtures.empty_object_reply (py "PCR") 5 Fixtures.empty_world)
  = Returned (JList []).
Proof.
  rewrite (search_on_miss Fixtures.daily_clock read_isoformat
             Fixtures.empty_object_reply (py "PCR") 5 Fixtures.search_key
             Fixtures.empty_world search_key_digest (lookup_empty _)).
  reflexivity.
Qed.

(** An instance: the collaborator cannot be reached. *)
Lemma search_failure_modes_witness :
  get_cache_key (py "search_" ++ py "PCR" ++ py "_" ++ str_of_int 5)
  = Returned Fixtures.search_key
  /\ fs Fixtures.empty_world !! cache_file Fixtures.search_key = None
  /\ fst (search_articles Fixtures.daily_clock read_isoformat
            Fixtures.unreachable (py "PCR") 5 Fixtures.empty_world)
     = Raised (RequestException ConnectionFailed).
Proof.
  assert (H : fs Fixtures.empty_world !! cache_file Fixtures.search_key
              = None) by apply lookup_empty.
  split; [exact search_key_digest|]. split; [exact H|].
  destruct (search_failure_modes Fixtures.daily_clock read_isoformat
              Fixtures.unreachable (py "PCR") 5 Fixtures.search_key
              Fixtures.empty_world search_key_digest H) as (Hfail & _).
  apply Hfail. reflexivity.
Defined.

Example protocol_key_digest :
  protocol_cache_key Fixtures.methods_one (py "detailed")
  = Returned Fixtures.protocol_key.
Proof. vm_compute. reflexivity. Qed.

(** A run of the false hit: a protocol is generated for the first text
    and article; the call for the second text, one clock reading later,
    gets that protocol back, article included, and the generative
    collaborator is asked once in all. *)
Example false_hit_run :
  let generate :=
    generate_protocol Fixtures.daily_clock read_isoformat
      Fixtures.fixed_loads Fixtures.fixed_completion (py "system")
      Fixtures.plain_prompt (py "gpt-4-turbo-preview") in
  let first := generate (Some Fixtures.methods_one) Fixtures.some_article
                 (py "detailed") Fixtures.empty_world in
  let second := generate (Some Fixtures.methods_two) Fixtures.other_article
                  (py "detailed") (snd first) in
  (exists p1, fst first = Returned p1
     /\ original_article p1 = ArticleObj Fixtures.some_article)
  /\ (exists p2, fst second = Returned p2
        /\ title p2 = Data (JStr (py "Heating"))
        /\ original_article p2
           = Data (asdict_article Fixtures.some_article))
  /\ trace (snd second)
     = [ CacheRead Fixtures.protocol_key;
         CacheWrite Fixtures.protocol_key;
         ChatCompletion (py "gpt-4-turbo-preview") (py "system")
           (Fixtures.plain_prompt Fixtures.methods_one (py "detailed"));
         CacheRead Fixtures.protocol_key ].
Proof.
  cbv zeta. split; [|split].
  - eexists. split; vm_compute; reflexivity.
  - eexists. split; [vm_compute; reflexivity|]. split; reflexivity.
  - vm_compute. reflexivity.
Qed.

(** ** The timestamp reader

    [read_isoformat] reads back every timestamp [isoformat] writes, so the
    premise on [fromisoformat] in C4 and C5 holds of it at every clock
    reading. *)

Lemma digit_range (n : Z) :
  ((48 <=? digit n) && (digit n <=? 57))%N = true
  /\ Z.of_N (digit n) - 48 = n mod 10.
Proof.
  unfold digit. pose proof (Z.mod_pos_bound n 10 ltac:(lia)) as Hm.
  split.
  - apply andb_true_iff. split; apply N.leb_le.
    + rewrite <- (N2Z.id 48). apply Z2N.inj_le; lia.
    + change 57%N with (Z.to_N 57). apply Z2N.inj_le; lia.
  - rewrite Z2N.id; lia.
Qed.

Lemma number_digit (n : Z) (s : pystr) (acc : Z) :
  number (digit n :: s) acc = number s (10 * acc + n mod 10).
Proof.
  destruct (digit_range n) as [Hr Hv].
  cbn [number]. rewrite Hr, Hv. reflexivity.
Qed.

Lemma number_digits2 (n : Z) :
  0 <= n < 100 -> number (digits 2 n) 0 = Some n.
Proof.
  intros H. change (digits 2 n) with [digit (n / 10); digit n].
  rewrite !number_digit. cbn [number]. f_equal.
  Z.to_euclidean_division_equations. lia.
Qed.

Lemma number_digits4 (n : Z) :
  0 <= n < 10000 -> number (digits 4 n) 0 = Some n.
Proof.
  intros H.
  change (digits 4 n)
    with [digit (n / 10 / 10 / 10); digit (n / 10 / 10); digit (n / 10);
          digit n].
  rewrite !number_digit. cbn [number]. f_equal.
  Z.to_euclidean_division_equations. lia.
Qed.

Lemma number_digits6 (n : Z) :
  0 <= n < 1000000 -> number (digits 6 n) 0 = Some n.
Proof.
  intros H.
  change (digits 6 n)
    with [digit (n / 10 / 10 / 10 / 10 / 10); digit (n / 10 / 10 / 10 / 10);
          digit (n / 10 / 10 / 10); digit (n / 10 / 10); digit (n / 10);
          digit n].
  rewrite !number_digit. cbn [number]. f_equal.
  Z.to_euclidean_division_equations. lia.
Qed.


Lemma read_chars19 (y3 y2 y1 y0 m1 m0 d1 d0 h1 h0 i1 i0 s1 s0 : char) :
  read_isoformat
    [y3; y2; y1; y0; 45; m1; m0; 45; d1; d0; 84; h1; h0; 58; i1; i0; 58;
     s1; s0]%N
  = match number [y3; y2; y1; y0] 0, number [m1; m0] 0, number [d1; d0] 0,
          number [h1; h0] 0, number [i1; i0] 0, number [s1; s0] 0 with
    | Some y, Some mo, Some d, Some h, Some mi, Some sec =>
        Some (Naive (mkDatetime y mo d h mi sec 0))
    | _, _, _, _, _, _ => None
    end.
Proof. reflexivity. Qed.

Lemma read_chars26
    (y3 y2 y1 y0 m1 m0 d1 d0 h1 h0 i1 i0 s1 s0 u5 u4 u3 u2 u1 u0 : char) :
  read_isoformat
    [y3; y2; y1; y0; 45; m1; m0; 45; d1; d0; 84; h1; h0; 58; i1; i0; 58;
     s1; s0; 46; u5; u4; u3; u2; u1; u0]%N
  = match number [y3; y2; y1; y0] 0, number [m1; m0] 0, number [d1; d0] 0,
          number [h1; h0] 0, number [i1; i0] 0, number [s1; s0] 0,
          number [u5; u4; u3; u2; u1; u0] 0 with
    | Some y, Some mo, Some d, Some h, Some mi, Some sec, Some us =>
        Some (Naive (mkDatetime y mo d h mi sec us))
    | _, _, _, _, _, _, _ => None
    end.
Proof. reflexivity. Qed.

(** The reader inverts [isoformat] on every datetime. *)
Lemma read_isoformat_isoformat (t : datetime) :
  valid_datetime t -> read_isoformat (isoformat t) = Some (Naive t).
Proof.
  destruct t as [y mo d h mi s us].
  unfold valid_datetime. cbn [year month day hour minute second microsecond].
  intros (Hy & Hmo & Hd & Hh & Hmi & Hs & Hus).
  assert (Hd' : 0 <= d < 100).
  { unfold days_in_month in Hd.
    destruct (mo =? 2), (is_leap y),
      ((mo =? 4) || (mo =? 6) || (mo =? 9) || (mo =? 11)); lia. }
  pose proof (number_digits4 y ltac:(lia)) as Ny.
  pose proof (number_digits2 mo ltac:(lia)) as Nmo.
  pose proof (number_digits2 d Hd') as Nd.
  pose proof (number_digits2 h ltac:(lia)) as Nh.
  pose proof (number_digits2 mi ltac:(lia)) as Nmi.
  pose proof (number_digits2 s ltac:(lia)) as Ns.
  pose proof (number_digits6 us Hus) as Nus.
  unfold isoformat. cbn [year month day hour minute second microsecond].
  destruct (us =? 0) eqn:E.
  - apply Z.eqb_eq in E. subst us.
    change (digits 4 y ++ py "-" ++ digits 2 mo ++ py "-" ++ digits 2 d
              ++ py "T" ++ digits 2 h ++ py ":" ++ digits 2 mi ++ py ":"
              ++ digits 2 s ++ [])
      with (digits 4 y ++ [45%N] ++ digits 2 mo ++ [45%N] ++ digits 2 d
              ++ [84%N] ++ digits 2 h ++ [58%N] ++ digits 2 mi ++ [58%N]
              ++ digits 2 s).
    cbn [digits app]. rewrite read_chars19.
    cbn [digits app] in Ny, Nmo, Nd, Nh, Nmi, Ns.
    rewrite Ny, Nmo, Nd, Nh, Nmi, Ns. reflexivity.
  - change (digits 4 y ++ py "-" ++ digits 2 mo ++ py "-" ++ digits 2 d
              ++ py "T" ++ digits 2 h ++ py ":" ++ digits 2 mi ++ py ":"
              ++ digits 2 s ++ py "." ++ digits 6 us)
      with (digits 4 y ++ [45%N] ++ digits 2 mo ++ [45%N] ++ digits 2 d
              ++ [84%N] ++ digits 2 h ++ [58%N] ++ digits 2 mi ++ [58%N]
              ++ digits 2 s ++ [46%N] ++ digits 6 us).
    cbn [digits app]. rewrite read_chars26.
    cbn [digits app] in Ny, Nmo, Nd, Nh, Nmi, Ns, Nus.
    rewrite Ny, Nmo, Nd, Nh, Nmi, Ns, Nus. reflexivity.
Qed.

(** The round trip of C4 with the reader in place of the library's
    [fromisoformat]: no premise on parsing is left. *)
Lemma get_after_set_reference (clock : nat -> datetime) (w : World)
    (key : pystr) (p : json) :
  valid_datetime (clock (ticks w)) ->
  timestamp_us (clock (S (ticks w))) - timestamp_us (clock (ticks w))
    < CACHE_EXPIRY_DAYS * us_per_day ->
  fst (get clock read_isoformat key (snd (set clock key p w))) = Returned p.
Proof.
  intros Hv Hage. rewrite set_spec. cbn [snd].
  rewrite (get_entry clock read_isoformat key (clock (ticks w)) p).
  - cbn [fst ticks]. apply Z.ltb_lt in Hage. rewrite Hage. reflexivity.
  - cbn [fs]. apply lookup_insert_eq.
  - apply read_isoformat_isoformat. exact Hv.
Qed.

(** * Further properties of the code *)

(** ** Cache keys *)

Lemma le_bytes_length (n : nat) (x : Z) : length (Digest.le_bytes n x) = n.
Proof. unfold Digest.le_bytes. rewrite length_map, length_seq. reflexivity. Qed.

Lemma le_bytes_range (n : nat) (x : Z) :
  Forall (fun b => 0 <= b < 256) (Digest.le_bytes n x).
Proof.
  unfold Digest.le_bytes. apply Forall_forall. intros b Hb.
  apply list_elem_of_In, in_map_iff in Hb as (i & <- & _).
  change 255 with (Z.ones 8). rewrite Z.land_ones by lia.
  apply Z.mod_pos_bound. lia.
Qed.

Lemma md5_length (msg : list Z) : length (Digest.md5 msg) = 16%nat.
Proof.
  unfold Digest.md5. cbv zeta. rewrite !length_app, !le_bytes_length.
  reflexivity.
Qed.

Lemma md5_range (msg : list Z) :
  Forall (fun b => 0 <= b < 256) (Digest.md5 msg).
Proof.
  unfold Digest.md5. cbv zeta.
  repeat (apply Forall_app; split); apply le_bytes_range.
Qed.

Lemma hex_digit_range (d : Z) : 0 <= d < 16 -> is_hex_char (Digest.hex_digit d).
Proof.
  intros H. unfold Digest.hex_digit, is_hex_char.
  destruct (Z.ltb_spec d 10); [left | right]; lia.
Qed.

Lemma hex_shape (bytes : list Z) :
  Forall (fun b => 0 <= b < 256) bytes ->
  length (Digest.hex bytes) = (2 * length bytes)%nat
  /\ Forall is_hex_char (Digest.hex bytes).
Proof.
  induction 1 as [|b bytes Hb _ [IHl IHf]]; [split; constructor|].
  unfold Digest.hex in *. cbn [flat_map app length]. split.
  - rewrite IHl. lia.
  - constructor; [|constructor; [|exact IHf]]; apply hex_digit_range.
    + split; [apply Z.div_pos; lia | apply Z.div_lt_upper_bound; lia].
    + apply Z.mod_pos_bound. lia.
Qed.

(** X1. Every cache key is 32 characters long and made of the characters
    [0-9a-f] only, whatever the text it was derived from. *)
Theorem cache_key_shape (text key : pystr) :
  get_cache_key text = Returned key ->
  length key = 32%nat /\ Forall is_hex_char key.
Proof.
  unfold get_cache_key. destruct (Digest.encode text) as [bytes|]; [|discriminate].
  intros [= <-].
  destruct (hex_shape _ (md5_range bytes)) as [Hl Hf].
  rewrite md5_length in Hl. split; assumption.
Qed.

(** An instance: the key of "article_12345". *)
Lemma cache_key_shape_witness :
  get_cache_key (py "article_12345") = Returned Fixtures.article_key
  /\ length Fixtures.article_key = 32%nat
  /\ Forall is_hex_char Fixtures.article_key.
Proof.
  assert (H : get_cache_key (py "article_12345")
              = Returned Fixtures.article_key) by (vm_compute; reflexivity).
  split; [exact H|].
  exact (cache_key_shape (py "article_12345") Fixtures.article_key H).
Defined.

Lemma utf8_char_None (c : char) :
  Digest.utf8_char c = None <-> is_surrogate c.
Proof.
  unfold Digest.utf8_char, is_surrogate. cbv zeta.
  destruct (Z.ltb_spec (Z.of_N c) 128); [split; [discriminate | lia]|].
  destruct (Z.ltb_spec (Z.of_N c) 2048); [split; [discriminate | lia]|].
  destruct (Z.ltb_spec (Z.of_N c) 65536).
  - destruct (Z.leb_spec 55296 (Z.of_N c)); destruct (Z.leb_spec (Z.of_N c) 57343);
      cbn [andb]; split; try discriminate; try reflexivity; lia.
  - split; [discriminate | lia].
Qed.

Lemma encode_None (s : pystr) :
  Digest.encode s = None <-> Exists is_surrogate s.
Proof.
  induction s as [|c s IH]; cbn [Digest.encode].
  - split; [discriminate | intros H; inversion H].
  - destruct (Digest.utf8_char c) as [b|] eqn:Ec.
    + destruct (Digest.encode s) as [bs|].
      * split; [discriminate|]. intros H. exfalso. inversion H; subst.
        -- apply utf8_char_None in H1. congruence.
        -- apply IH in H1. discriminate.
      * split; [|reflexivity]. intros _. right. apply IH. reflexivity.
    + split; [|reflexivity]. intros _. left. apply utf8_char_None. exact Ec.
Qed.

(** X2. [get_cache_key] raises [UnicodeEncodeError] exactly on the texts
    that hold a surrogate code point; on every other text it returns a
    key. *)
Theorem cache_key_fails_on_surrogates (text : pystr) :
  (get_cache_key text = Raised UnicodeEncodeError
   <-> Exists is_surrogate text)
  /\ (~ Exists is_surrogate text -> exists key, get_cache_key text = Returned key).
Proof.
  unfold get_cache_key. pose proof (encode_None text) as H.
  destruct (Digest.encode text) as [bytes|].
  - split.
    + split; [discriminate|]. intros Hs. apply H in Hs. discriminate.
    + intros _. eexists. reflexivity.
  - split.
    + split; [|reflexivity]. intros _. apply H. reflexivity.
    + intros Hn. exfalso. apply Hn, H. reflexivity.
Qed.

(** An instance: a text without surrogates has a key, one with U+D800 has
    none. *)
Lemma cache_key_fails_on_surrogates_witness :
  ~ Exists is_surrogate (py "article_12345")
  /\ (exists key, get_cache_key (py "article_12345") = Returned key)
  /\ get_cache_key [97; 55296]%N = Raised UnicodeEncodeError.
Proof.
  assert (H : ~ Exists is_surrogate (py "article_12345")).
  { intros E. apply Exists_exists in E as (c & Hc & Hs).
    unfold is_surrogate in Hs. apply list_elem_of_In in Hc.
    vm_compute in Hc.
    repeat (destruct Hc as [<-|Hc]; [lia|]). exact Hc. }
  split; [exact H|]. split.
  - exact (proj2 (cache_key_fails_on_surrogates (py "article_12345")) H).
  - apply (proj1 (cache_key_fails_on_surrogates [97; 55296]%N)).
    right. left. unfold is_surrogate. lia.
Defined.

(** ** The cache directory under reads and writes *)

Ltac split_matches :=
  repeat match goal with
         | |- context [match ?x with _ => _ end] => destruct x eqn:?
         end.

Lemma cache_file_inj (k k' : pystr) : cache_file k = cache_file k' -> k = k'.
Proof. unfold cache_file. apply app_inv_tail. Qed.

Section CacheFrame.
Variable clock : nat -> datetime.
Variable fromisoformat : pystr -> option parsed_time.

Notation get := (get clock fromisoformat).
Notation set := (set clock).

(** What [get] does to the world. *)
Lemma get_effects (key : pystr) (w : World) :
  fs (snd (get key w)) = fs w
  /\ trace (snd (get key w)) = CacheRead key :: trace w
  /\ (ticks w <= ticks (snd (get key w)) <= S (ticks w))%nat.
Proof.
  unfold Pipeline.get, bind, emit, lift, now, ret. cbn [fs ticks trace].
  split_matches; cbn [snd fs ticks trace]; repeat split; lia.
Qed.

(** X3. [get] only reads: whatever it returns or raises, the cache
    directory is as before (an expired or corrupt entry is neither deleted
    nor rewritten), at most one clock reading is taken, and the one event
    recorded is the read. *)
Theorem get_is_read_only (key : pystr) (w : World) :
  fs (snd (get key w)) = fs w
  /\ trace (snd (get key w)) = CacheRead key :: trace w
  /\ (ticks w <= ticks (snd (get key w)) <= S (ticks w))%nat.
Proof. exact (get_effects key w). Qed.

(** What [get] returns depends on the file under the key and on the clock
    reading only. *)
Lemma get_depends_on_file (key : pystr) (w1 w2 : World) :
  fs w1 !! cache_file key = fs w2 !! cache_file key ->
  ticks w1 = ticks w2 ->
  fst (get key w1) = fst (get key w2).
Proof.
  intros Hf Ht.
  unfold Pipeline.get, bind, emit, lift, now, ret. cbn [fs ticks trace].
  rewrite Hf, Ht.
  split_matches; cbn [fst]; congruence.
Qed.

(** X4. [set] under one key leaves the entries of the other keys alone:
    what [get] returns under a different key, at a given clock reading, is
    the same with the directory as [set] left it and with the directory as
    it was before. *)
Theorem set_keeps_other_keys (key key' : pystr) (p : json) (w : World)
    (n : nat) (tr tr' : list event) :
  key <> key' ->
  fst (get key' (mkWorld (fs (snd (set key p w))) n tr))
  = fst (get key' (mkWorld (fs w) n tr')).
Proof.
  intros Hne. apply get_depends_on_file; [|reflexivity].
  rewrite set_spec. cbn [snd fs].
  apply lookup_insert_ne. intros E. apply Hne, cache_file_inj. exact E.
Qed.

End CacheFrame.

(** An instance: an entry under the article key, a write under the search
    key. *)
Lemma set_keeps_other_keys_witness :
  Fixtures.search_key <> Fixtures.article_key
  /\ fst (get Fixtures.daily_clock read_isoformat Fixtures.article_key
            (mkWorld (fs (snd (set Fixtures.daily_clock Fixtures.search_key
                                 (JList []) Fixtures.corrupt_world))) 1 []))
     = fst (get Fixtures.daily_clock read_isoformat Fixtures.article_key
              (mkWorld (fs Fixtures.corrupt_world) 1 [])).
Proof.
  assert (H : Fixtures.search_key <> Fixtures.article_key)
    by (intros E; vm_compute in E; discriminate E).
  split; [exact H|].
  exact (set_keeps_other_keys Fixtures.daily_clock read_isoformat
           Fixtures.search_key Fixtures.article_key (JList [])
           Fixtures.corrupt_world 1 [] [] H).
Defined.


(** ** Search through the cache *)

Section SearchFacts.
Variable clock : nat -> datetime.
Variable fromisoformat : pystr -> option parsed_time.

Notation get := (get clock fromisoformat).
Notation search_articles := (search_articles clock fromisoformat).

(** [search_articles] from the cache lookup on. *)
Lemma search_after_lookup
    (session_get : pystr -> list (pystr * pystr) -> request_failure + response)
    (query : pystr) (max_results : Z) (key : pystr) (w : World) :
  get_cache_key (py "search_" ++ query ++ py "_" ++ str_of_int max_results)
  = Returned key ->
  search_articles session_get query max_results w
  = match get key w with
    | (Returned cached, w') =>
        if json_truthy cached then (Returned cached, w')
        else
          (do response <- request_get session_get
                            (BASE_URL ++ py "/esearch.fcgi")
                            (search_params query max_results) ;
           do _ <- raise_for_status response ;
           do data <- response_json response ;
           do has_result <- lift (py_in (py "esearchresult") data) ;
           if has_result then
             do result <- lift (getitem data (py "esearchresult")) ;
             do has_idlist <- lift (py_in (py "idlist") result) ;
             if has_idlist then
               do ids <- lift (getitem result (py "idlist")) ;
               do _ <- set clock key ids ;
               ret ids
             else ret (JList [])
           else ret (JList [])) w'
    | (Raised e, w') => (Raised e, w')
    end.
Proof.
  intros Hk. unfold Pipeline.search_articles.
  rewrite Hk. unfold bind at 1. unfold lift at 1. unfold bind at 1.
  destruct (get key w) as [[cached|e] w']; [|reflexivity].
  destruct (json_truthy cached); reflexivity.
Qed.

(** The run of [search_articles] on a cache hit. *)
Lemma search_hit_run
    (session_get : pystr -> list (pystr * pystr) -> request_failure + response)
    (query : pystr) (max_results : Z) (key : pystr) (t : datetime)
    (ids : json) (w : World) :
  get_cache_key (py "search_" ++ query ++ py "_" ++ str_of_int max_results)
  = Returned key ->
  fs w !! cache_file key = Some (entry t ids) ->
  fromisoformat (isoformat t) = Some (Naive t) ->
  timestamp_us (clock (ticks w)) - timestamp_us t
    < CACHE_EXPIRY_DAYS * us_per_day ->
  json_truthy ids = true ->
  search_articles session_get query max_results w
  = (Returned ids,
     mkWorld (fs w) (S (ticks w)) (CacheRead key :: trace w)).
Proof.
  intros Hk Hf Hiso Hage Ht.
  rewrite (search_after_lookup session_get query max_results key w Hk).
  rewrite (get_entry clock fromisoformat key t ids w Hf Hiso).
  apply Z.ltb_lt in Hage. rewrite Hage, Ht. reflexivity.
Qed.

(** X5. A search whose key has a fresh entry with a non-empty value in the
    cache returns that value; the search collaborator is not asked
    (whatever it would answer), and the cache directory is unchanged. *)
Theorem search_served_from_cache
    (session_get : pystr -> list (pystr * pystr) -> request_failure + response)
    (query : pystr) (max_results : Z) (key : pystr) (t : datetime)
    (ids : json) (w : World) :
  get_cache_key (py "search_" ++ query ++ py "_" ++ str_of_int max_results)
  = Returned key ->
  fs w !! cache_file key = Some (entry t ids) ->
  fromisoformat (isoformat t) = Some (Naive t) ->
  timestamp_us (clock (ticks w)) - timestamp_us t
    < CACHE_EXPIRY_DAYS * us_per_day ->
  json_truthy ids = true ->
  search_articles session_get query max_results w
  = (Returned ids,
     mkWorld (fs w) (S (ticks w)) (CacheRead key :: trace w)).
Proof. exact (search_hit_run session_get query max_results key t ids w). Qed.

(** The run of [search_articles] on a cache miss with an identifier list. *)
Lemma search_miss_run
    (session_get : pystr -> list (pystr * pystr) -> request_failure + response)
    (query : pystr) (max_results : Z) (key : pystr) (r : response)
    (items inner : list (pystr * json)) (ids : json) (w : World) :
  get_cache_key (py "search_" ++ query ++ py "_" ++ str_of_int max_results)
  = Returned key ->
  fs w !! cache_file key = None ->
  session_get (BASE_URL ++ py "/esearch.fcgi")
              (search_params query max_results) = inr r ->
  status_ok r = true ->
  body r = Some (JDict items) ->
  dict_get (py "esearchresult") items = Some (JDict inner) ->
  dict_get (py "idlist") inner = Some ids ->
  search_articles session_get query max_results w
  = (Returned ids,
     mkWorld (<[cache_file key := entry (clock (ticks w)) ids]> (fs w))
             (S (ticks w))
             (CacheWrite key
                :: HttpGet (BASE_URL ++ py "/esearch.fcgi")
                           (search_params query max_results)
                :: CacheRead key :: trace w)).
Proof.
  intros Hk Hf Hg Hs Hb He Hi.
  rewrite (search_after_lookup session_get query max_results key w Hk).
  rewrite (get_missing clock fromisoformat key w Hf). cbn [json_truthy].
  run_search. rewrite Hg. cbv beta iota. rewrite Hs. cbv beta iota.
  rewrite Hb. cbv beta iota. rewrite py_in_dict, He. cbv beta iota.
  unfold getitem at 1. rewrite He. cbv beta iota.
  rewrite py_in_dict, Hi. cbv beta iota. unfold getitem. rewrite Hi.
  cbv beta iota. rewrite set_spec. reflexivity.
Qed.

(** X6. A search that misses the cache and gets a response with an
    identifier list returns the list and writes it to the cache under the
    search key, stamped with the clock reading of the write; the events are
    the cache read, the request and the cache write, in that order. *)
Theorem search_fills_cache
    (session_get : pystr -> list (pystr * pystr) -> request_failure + response)
    (query : pystr) (max_results : Z) (key : pystr) (r : response)
    (items inner : list (pystr * json)) (ids : json) (w : World) :
  get_cache_key (py "search_" ++ query ++ py "_" ++ str_of_int max_results)
  = Returned key ->
  fs w !! cache_file key = None ->
  session_get (BASE_URL ++ py "/esearch.fcgi")
              (search_params query max_results) = inr r ->
  status_ok r = true ->
  body r = Some (JDict items) ->
  dict_get (py "esearchresult") items = Some (JDict inner) ->
  dict_get (py "idlist") inner = Some ids ->
  search_articles session_get query max_results w
  = (Returned ids,
     mkWorld (<[cache_file key := entry (clock (ticks w)) ids]> (fs w))
             (S (ticks w))
             (CacheWrite key
                :: HttpGet (BASE_URL ++ py "/esearch.fcgi")
                           (search_params query max_results)
                :: CacheRead key :: trace w)).
Proof. exact (search_miss_run session_get query max_results key r items inner ids w). Qed.

(** X7. Two searches in a row: when the first fills the cache with a
    non-empty identifier list and the second runs before the entry
    expires, the second returns the same list without a request, even with
    a collaborator that has become unreachable or answers otherwise. *)
Theorem search_twice_one_request
    (session_get session_get' :
       pystr -> list (pystr * pystr) -> request_failure + response)
    (query : pystr) (max_results : Z) (key : pystr) (r : response)
    (items inner : list (pystr * json)) (ids : json) (w : World) :
  get_cache_key (py "search_" ++ query ++ py "_" ++ str_of_int max_results)
  = Returned key ->
  fs w !! cache_file key = None ->
  session_get (BASE_URL ++ py "/esearch.fcgi")
              (search_params query max_results) = inr r ->
  status_ok r = true ->
  body r = Some (JDict items) ->
  dict_get (py "esearchresult") items = Some (JDict inner) ->
  dict_get (py "idlist") inner = Some ids ->
  json_truthy ids = true ->
  fromisoformat (isoformat (clock (ticks w)))
  = Some (Naive (clock (ticks w))) ->
  timestamp_us (clock (S (ticks w))) - timestamp_us (clock (ticks w))
    < CACHE_EXPIRY_DAYS * us_per_day ->
  let w1 := snd (search_articles session_get query max_results w) in
  fst (search_articles session_get' query max_results w1) = Returned ids
  /\ trace (snd (search_articles session_get' query max_results w1))
     = CacheRead key :: trace w1.
Proof.
  intros Hk Hf Hg Hs Hb He Hi Ht Hiso Hage w1. subst w1.
  rewrite (search_miss_run session_get query max_results key r items
             inner ids w Hk Hf Hg Hs Hb He Hi).
  cbn [snd].
  rewrite (search_hit_run session_get' query max_results key
             (clock (ticks w)) ids _ Hk); try assumption.
  - split; reflexivity.
  - cbn [fs]. apply lookup_insert_eq.
Qed.

(** X8. An empty identifier list is written to the cache but never served
    from it: after a search that returned the empty list, the next search
    asks the collaborator again, and fails when the collaborator does,
    although a fresh entry is in the cache. *)
Theorem empty_result_is_cached_but_not_served
    (session_get session_get' :
       pystr -> list (pystr * pystr) -> request_failure + response)
    (query : pystr) (max_results : Z) (key : pystr) (r : response)
    (items inner : list (pystr * json)) (failure : request_failure)
    (w : World) :
  get_cache_key (py "search_" ++ query ++ py "_" ++ str_of_int max_results)
  = Returned key ->
  fs w !! cache_file key = None ->
  session_get (BASE_URL ++ py "/esearch.fcgi")
              (search_params query max_results) = inr r ->
  status_ok r = true ->
  body r = Some (JDict items) ->
  dict_get (py "esearchresult") items = Some (JDict inner) ->
  dict_get (py "idlist") inner = Some (JList []) ->
  fromisoformat (isoformat (clock (ticks w)))
  = Some (Naive (clock (ticks w))) ->
  session_get' (BASE_URL ++ py "/esearch.fcgi")
               (search_params query max_results) = inl failure ->
  let w1 := snd (search_articles session_get query max_results w) in
  fst (search_articles session_get query max_results w) = Returned (JList [])
  /\ fs w1 !! cache_file key = Some (entry (clock (ticks w)) (JList []))
  /\ fst (search_articles session_get' query max_results w1)
     = Raised (RequestException failure).
Proof.
  intros Hk Hf Hg Hs Hb He Hi Hiso Hg' w1. subst w1.
  rewrite (search_miss_run session_get query max_results key r items
             inner (JList []) w Hk Hf Hg Hs Hb He Hi).
  cbn [fst snd fs]. split; [reflexivity|]. split; [apply lookup_insert_eq|].
  rewrite (search_after_lookup session_get' query max_results key _ Hk).
  rewrite (get_entry clock fromisoformat key (clock (ticks w)) (JList []));
    [|apply lookup_insert_eq|exact Hiso].
  assert (Hfalsy : forall b : bool,
             json_truthy (if b then JList [] else JNull) = false)
    by (intros []; reflexivity).
  rewrite Hfalsy. run_search. rewrite Hg'. reflexivity.
Qed.

(** [search_articles] with a write that succeeds is the search of the
    claims. *)
Lemma search_articles_written
    (session_get : pystr -> list (pystr * pystr) -> request_failure + response)
    (query : pystr) (max_results : Z) :
  search_articles_under clock fromisoformat session_get Written query
    max_results
  = search_articles session_get query max_results.
Proof. reflexivity. Qed.

(** X9. [search_articles] touches at most the file of its own key,
    whether the cache write succeeds or fails. A search that returns has
    left the directory as it was, or has written that file with the list
    it returns. A search that raises has left the directory as it was,
    with one exception: a cache write that fails after the file was
    opened. Then the call raises [OSError], the key's file is left
    truncated, and a lookup under the key raises [JSONDecodeError] from
    then on. *)
Theorem search_writes_only_its_result
    (session_get : pystr -> list (pystr * pystr) -> request_failure + response)
    (o : write_outcome) (query : pystr) (max_results : Z) (w : World) :
  let run :=
    search_articles_under clock fromisoformat session_get o query
      max_results w in
  let search_key :=
    get_cache_key (py "search_" ++ query ++ py "_"
                     ++ str_of_int max_results) in
  (forall ids,
      fst run = Returned ids ->
      fs (snd run) = fs w
      \/ exists key t,
           search_key = Returned key
           /\ fs (snd run) = <[cache_file key := entry t ids]> (fs w))
  /\ (forall e,
        fst run = Raised e ->
        fs (snd run) = fs w
        \/ exists key,
             o = WriteFailed
             /\ e = OSError
             /\ search_key = Returned key
             /\ fs (snd run) = <[cache_file key := NotJson]> (fs w)
             /\ forall n tr,
                  fst (get key (mkWorld (fs (snd run)) n tr))
                  = Raised JSONDecodeError).
Proof.
  cbv zeta.
  destruct (search_articles_under clock fromisoformat session_get o query
              max_results w) as [r w'] eqn:E.
  cbn [fst snd]. revert E. unfold search_articles_under.
  destruct (get_cache_key (py "search_" ++ query ++ py "_"
                             ++ str_of_int max_results)) as [key|e0] eqn:Hk.
  2:{ intros [= <- <-]. split; intros ? _; left; reflexivity. }
  unfold bind at 1. unfold lift at 1. unfold bind at 1.
  destruct (get_effects clock fromisoformat key w) as (Hfs & _ & _).
  destruct (get key w) as [[cached|e] w0]; cbn [snd] in Hfs.
  2:{ intros [= <- <-]. split; intros ? _; left; exact Hfs. }
  destruct (json_truthy cached).
  { intros [= <- <-]. split; intros ? _; left; exact Hfs. }
  assert (Hpoison : forall n tr,
             fst (get key
                    (mkWorld (<[cache_file key := NotJson]> (fs w0)) n tr))
             = Raised JSONDecodeError).
  { intros n tr. unfold Pipeline.get, bind, emit. cbn [fs ticks trace].
    rewrite lookup_insert_eq. reflexivity. }
  run_search. unfold set_under, Pipeline.set, now, bind, raise.
  cbn [fs ticks trace].
  repeat (match goal with
          | |- context [match session_get ?u ?p with _ => _ end] =>
              destruct (session_get u p)
          | |- context [if status_ok ?r then _ else _] =>
              destruct (status_ok r)
          | |- context [match body ?r with _ => _ end] => destruct (body r)
          | |- context [match py_in ?k ?v with _ => _ end] =>
              destruct (py_in k v) as [[|]|]
          | |- context [match getitem ?v ?k with _ => _ end] =>
              destruct (getitem v k)
          end; cbv beta iota; cbn [fst snd fs ticks trace]).
  all: try (destruct o; cbv beta iota; cbn [fst snd fs ticks trace]).
  all: intros [= <- <-]; cbn [fs]; split;
    [ intros ? Hr;
      first [ discriminate Hr
            | left; exact Hfs
            | injection Hr as <-; right; eexists _, _; rewrite <- Hfs;
              split; reflexivity ]
    | intros ? Hr;
      first [ discriminate Hr
            | left; exact Hfs
            | injection Hr as <-; right; exists key; rewrite <- Hfs;
              repeat split; try reflexivity; exact Hpoison ] ].
Qed.

End SearchFacts.

(** An instance: the two identifiers are in the cache since the day
    before, the collaborator is unreachable. *)
Lemma search_served_from_cache_witness :
  search_articles Fixtures.daily_clock read_isoformat Fixtures.unreachable
    (py "PCR") 5 Replies.searched_world
  = (Returned Replies.two_ids,
     mkWorld (fs Replies.searched_world) 2 [CacheRead Fixtures.search_key]).
Proof.
  apply (search_served_from_cache Fixtures.daily_clock read_isoformat
           Fixtures.unreachable (py "PCR") 5 Fixtures.search_key
           (Fixtures.daily_clock 0) Replies.two_ids Replies.searched_world).
  - exact search_key_digest.
  - apply lookup_singleton_eq.
  - vm_compute. reflexivity.
  - vm_compute. reflexivity.
  - reflexivity.
Defined.

(** An instance: an empty cache and a collaborator that finds two
    articles. *)
Lemma search_fills_cache_witness :
  fst (search_articles Fixtures.daily_clock read_isoformat
         Replies.two_ids_reply (py "PCR") 5 Fixtures.empty_world)
  = Returned Replies.two_ids
  /\ fs (snd (search_articles Fixtures.daily_clock read_isoformat
                Replies.two_ids_reply (py "PCR") 5 Fixtures.empty_world))
     = <[cache_file Fixtures.search_key
         := entry (Fixtures.daily_clock 0) Replies.two_ids]> ∅.
Proof.
  rewrite (search_fills_cache Fixtures.daily_clock read_isoformat
             Replies.two_ids_reply (py "PCR") 5 Fixtures.search_key
             (mkResponse true (Some (Replies.esearch_body Replies.two_ids)))
             _ _ Replies.two_ids Fixtures.empty_world search_key_digest
             (lookup_empty _) eq_refl eq_refl eq_refl eq_refl eq_refl).
  split; reflexivity.
Defined.

(** An instance: the search is repeated one day later with the
    collaborator unreachable. *)
Lemma search_twice_one_request_witness :
  fst (search_articles Fixtures.daily_clock read_isoformat
         Fixtures.unreachable (py "PCR") 5
         (snd (search_articles Fixtures.daily_clock read_isoformat
                 Replies.two_ids_reply (py "PCR") 5 Fixtures.empty_world)))
  = Returned Replies.two_ids.
Proof.
  refine (proj1 (search_twice_one_request Fixtures.daily_clock read_isoformat
             Replies.two_ids_reply Fixtures.unreachable (py "PCR") 5
             Fixtures.search_key
             (mkResponse true (Some (Replies.esearch_body Replies.two_ids)))
             _ _ Replies.two_ids Fixtures.empty_world search_key_digest
             (lookup_empty _) eq_refl eq_refl eq_refl eq_refl eq_refl
             eq_refl _ _)).
  - vm_compute. reflexivity.
  - vm_compute. reflexivity.
Defined.

(** An instance: the first search finds nothing, the second meets an
    unreachable collaborator. *)
Lemma empty_result_is_cached_but_not_served_witness :
  fst (search_articles Fixtures.daily_clock read_isoformat
         Replies.no_ids_reply (py "PCR") 5 Fixtures.empty_world)
  = Returned (JList [])
  /\ fst (search_articles Fixtures.daily_clock read_isoformat
            Fixtures.unreachable (py "PCR") 5
            (snd (search_articles Fixtures.daily_clock read_isoformat
                    Replies.no_ids_reply (py "PCR") 5 Fixtures.empty_world)))
     = Raised (RequestException ConnectionFailed).
Proof.
  assert (Hiso : read_isoformat (isoformat (Fixtures.daily_clock 0))
                 = Some (Naive (Fixtures.daily_clock 0))) by (vm_compute; reflexivity).
  destruct (empty_result_is_cached_but_not_served Fixtures.daily_clock
              read_isoformat Replies.no_ids_reply Fixtures.unreachable
              (py "PCR") 5 Fixtures.search_key
              (mkResponse true (Some (Replies.esearch_body (JList []))))
              _ _ ConnectionFailed Fixtures.empty_world search_key_digest
              (lookup_empty _) eq_refl eq_refl eq_refl eq_refl eq_refl
              Hiso eq_refl) as (H1 & _ & H3).
  split; [exact H1 | exact H3].
Defined.

(** ** Synthesis through the cache *)

(** The constructor call on the dictionary form of a protocol. *)
Lemma protocol_of_asdict (p : Protocol) :
  exists p',
    Protocol_of_kwargs (asdict p) = Returned p'
    /\ asdict p' = asdict p
    /\ original_article p' = Data (asdict_obj (original_article p))
    /\ forall a, original_article p' <> ArticleObj a.
Proof.
  destruct p. eexists. split; [reflexivity|].
  split; [reflexivity|]. split; [reflexivity|]. intros a. discriminate.
Qed.

(** X10. A protocol that goes through the cache comes back with the same
    dictionary form, but not as the same object: the constructor call on
    [asdict(protocol)] succeeds, every field is what [asdict] made of it,
    and the original article, an [Article] before, is now a plain
    dictionary. *)
Theorem protocol_cache_round_trip (p : Protocol) :
  exists p',
    Protocol_of_kwargs (asdict p) = Returned p'
    /\ asdict p' = asdict p
    /\ original_article p' = Data (asdict_obj (original_article p))
    /\ forall a, original_article p' <> ArticleObj a.
Proof. exact (protocol_of_asdict p). Qed.

Section SynthesisFacts.
Variable clock : nat -> datetime.
Variable fromisoformat : pystr -> option parsed_time.
Variable json_loads : pystr -> option json.
Variable chat_completion : pystr -> pystr -> pystr -> option (option pystr).
Variable _get_system_prompt : pystr.
Variable _build_prompt : pystr -> pystr -> pystr.

Notation get := (get clock fromisoformat).
Notation generate_protocol :=
  (generate_protocol clock fromisoformat json_loads chat_completion
     _get_system_prompt _build_prompt).

(** [generate_protocol] on a cache miss, up to the request. *)
Lemma generate_on_miss (model text : pystr) (article_info : Article)
    (style key : pystr) (w : World) :
  text <> [] ->
  protocol_cache_key text style = Returned key ->
  fs w !! cache_file key = None ->
  generate_protocol model (Some text) article_info style w
  = (do content <- create_completion chat_completion _get_system_prompt
                     model (_build_prompt text style) ;
     do protocol_data <- lift (loads_content json_loads content) ;
     let field k d := lift (dict_get_default protocol_data k d) in
     do p_title <- field (py "title") (JStr untitled) ;
     do p_reagents <- field (py "reagents") (JList []) ;
     do p_materials <- field (py "materials") (JList []) ;
     do p_preparation <- field (py "preparation") (JList []) ;
     do p_procedure <- field (py "procedure") (JList []) ;
     do p_conditions <- field (py "conditions") (JDict []) ;
     do p_critical <- field (py "critical_notes") (JList []) ;
     do p_safety <- field (py "safety_warnings") (JList []) ;
     do t <- now clock ;
     let protocol :=
       mkProtocol (Data p_title) (ArticleObj article_info)
         (Data p_reagents) (Data p_materials) (Data p_preparation)
         (Data p_procedure) (Data p_conditions) (Data p_critical)
         (Data p_safety) (Data (JStr (isoformat t))) (Data (JStr model)) in
     do _ <- set clock key (asdict protocol) ;
     ret protocol)
      (mkWorld (fs w) (ticks w) (CacheRead key :: trace w)).
Proof.
  intros Hne Hk Hf. unfold Pipeline.generate_protocol.
  destruct text as [|c text]; [congruence|]. cbn [truthy negb].
  change (default [] (Some (c :: text))) with (c :: text).
  rewrite Hk. unfold bind at 1. unfold lift at 1. unfold bind at 1.
  rewrite (get_missing clock fromisoformat key w Hf). reflexivity.
Qed.

(** The run of [generate_protocol] on a cache miss with a JSON object. *)
Lemma generate_miss_run (model text : pystr)
    (article_info : Article) (style key content : pystr)
    (items : list (pystr * json)) (w : World) :
  text <> [] ->
  protocol_cache_key text style = Returned key ->
  fs w !! cache_file key = None ->
  chat_completion model _get_system_prompt (_build_prompt text style)
  = Some (Some content) ->
  json_loads content = Some (JDict items) ->
  let field k d := match dict_get k items with Some v => v | None => d end in
  let protocol :=
    mkProtocol (Data (field (py "title") (JStr untitled)))
      (ArticleObj article_info)
      (Data (field (py "reagents") (JList [])))
      (Data (field (py "materials") (JList [])))
      (Data (field (py "preparation") (JList [])))
      (Data (field (py "procedure") (JList [])))
      (Data (field (py "conditions") (JDict [])))
      (Data (field (py "critical_notes") (JList [])))
      (Data (field (py "safety_warnings") (JList [])))
      (Data (JStr (isoformat (clock (ticks w)))))
      (Data (JStr model)) in
  generate_protocol model (Some text) article_info style w
  = (Returned protocol,
     mkWorld (<[cache_file key
                := entry (clock (S (ticks w))) (asdict protocol)]> (fs w))
             (S (S (ticks w)))
             (CacheWrite key
                :: ChatCompletion model _get_system_prompt
                     (_build_prompt text style)
                :: CacheRead key :: trace w)).
Proof.
  intros Hne Hk Hf Hc Hl field protocol.
  rewrite (generate_on_miss model text article_info style key w Hne Hk Hf).
  unfold create_completion, bind, emit, lift, ret, now.
  cbn [fs ticks trace]. rewrite Hc. cbv beta iota.
  unfold loads_content. rewrite Hl. cbv beta iota.
  unfold dict_get_default. cbv beta iota. cbn [fs ticks trace].
  rewrite set_spec. reflexivity.
Qed.

(** X11. On a cache miss with a response that parses to a JSON object,
    [generate_protocol] returns a protocol whose fields are those of the
    object, with the defaults of the code for the keys that are missing
    (the placeholder title, empty lists, an empty dict), whose article is
    the one passed in and whose date is the clock reading taken after the
    response; its dictionary form is written to the cache under the
    synthesis key. *)
Theorem generate_builds_and_caches (model text : pystr)
    (article_info : Article) (style key content : pystr)
    (items : list (pystr * json)) (w : World) :
  text <> [] ->
  protocol_cache_key text style = Returned key ->
  fs w !! cache_file key = None ->
  chat_completion model _get_system_prompt (_build_prompt text style)
  = Some (Some content) ->
  json_loads content = Some (JDict items) ->
  let field k d := match dict_get k items with Some v => v | None => d end in
  let protocol :=
    mkProtocol (Data (field (py "title") (JStr untitled)))
      (ArticleObj article_info)
      (Data (field (py "reagents") (JList [])))
      (Data (field (py "materials") (JList [])))
      (Data (field (py "preparation") (JList [])))
      (Data (field (py "procedure") (JList [])))
      (Data (field (py "conditions") (JDict [])))
      (Data (field (py "critical_notes") (JList [])))
      (Data (field (py "safety_warnings") (JList [])))
      (Data (JStr (isoformat (clock (ticks w)))))
      (Data (JStr model)) in
  generate_protocol model (Some text) article_info style w
  = (Returned protocol,
     mkWorld (<[cache_file key
                := entry (clock (S (ticks w))) (asdict protocol)]> (fs w))
             (S (S (ticks w)))
             (CacheWrite key
                :: ChatCompletion model _get_system_prompt
                     (_build_prompt text style)
                :: CacheRead key :: trace w)).
Proof. exact (generate_miss_run model text article_info style key content items w). Qed.

(** The run of two syntheses in a row whose texts have, with the style,
    the same cache key. *)
Lemma generate_twice_run (model text text' : pystr)
    (article_info article_info' : Article) (style key content : pystr)
    (items : list (pystr * json)) (w : World) :
  text <> [] ->
  text' <> [] ->
  protocol_cache_key text style = Returned key ->
  protocol_cache_key text' style = Returned key ->
  fs w !! cache_file key = None ->
  chat_completion model _get_system_prompt (_build_prompt text style)
  = Some (Some content) ->
  json_loads content = Some (JDict items) ->
  fromisoformat (isoformat (clock (S (ticks w))))
  = Some (Naive (clock (S (ticks w)))) ->
  timestamp_us (clock (S (S (ticks w)))) - timestamp_us (clock (S (ticks w)))
    < CACHE_EXPIRY_DAYS * us_per_day ->
  let first := generate_protocol model (Some text) article_info style w in
  let second :=
    generate_protocol model (Some text') article_info' style (snd first) in
  exists p1 p2,
    fst first = Returned p1
    /\ fst second = Returned p2
    /\ asdict p2 = asdict p1
    /\ original_article p2 = Data (asdict_article article_info)
    /\ trace (snd second) = CacheRead key :: trace (snd first).
Proof.
  intros Hne Hne' Hk Hk' Hf Hc Hl Hiso Hage first second.
  subst first second.
  rewrite (generate_miss_run model text article_info style key
             content items w Hne Hk Hf Hc Hl).
  cbn [fst snd].
  match goal with
  | |- context [entry _ (asdict ?p)] => set (p1 := p)
  end.
  destruct (protocol_of_asdict p1) as (p2 & Hp2 & Hd & Ha & _).
  exists p1, p2.
  assert (Hget : get key
                   (mkWorld (<[cache_file key
                               := entry (clock (S (ticks w))) (asdict p1)]>
                               (fs w))
                            (S (S (ticks w)))
                            (CacheWrite key
                               :: ChatCompletion model _get_system_prompt
                                    (_build_prompt text style)
                               :: CacheRead key :: trace w))
                 = (Returned (asdict p1),
                    mkWorld (<[cache_file key
                                := entry (clock (S (ticks w))) (asdict p1)]>
                                (fs w))
                            (S (S (S (ticks w))))
                            (CacheRead key :: CacheWrite key
                               :: ChatCompletion model _get_system_prompt
                                    (_build_prompt text style)
                               :: CacheRead key :: trace w))).
  { rewrite (get_entry clock fromisoformat key (clock (S (ticks w)))
               (asdict p1));
      [|apply lookup_insert_eq|exact Hiso].
    cbn [ticks fs trace]. apply Z.ltb_lt in Hage. rewrite Hage. reflexivity. }
  rewrite (generate_protocol_hit clock fromisoformat json_loads
             chat_completion _get_system_prompt _build_prompt model text'
             article_info' style key (asdict p1) _ Hne' Hk');
    [|rewrite Hget; reflexivity|reflexivity].
  rewrite Hget. cbn [fst snd trace]. rewrite Hp2.
  repeat split; try reflexivity; assumption.
Qed.

(** X12. Two syntheses of the same text and style in a row: when the
    first one built and cached a protocol and the second runs before the
    entry expires, the second asks the generative collaborator nothing and
    returns the cached protocol, which has the dictionary form of the first
    one with a dictionary in place of the article. *)
Theorem generate_twice_one_request (model text : pystr)
    (article_info article_info' : Article) (style key content : pystr)
    (items : list (pystr * json)) (w : World) :
  text <> [] ->
  protocol_cache_key text style = Returned key ->
  fs w !! cache_file key = None ->
  chat_completion model _get_system_prompt (_build_prompt text style)
  = Some (Some content) ->
  json_loads content = Some (JDict items) ->
  fromisoformat (isoformat (clock (S (ticks w))))
  = Some (Naive (clock (S (ticks w)))) ->
  timestamp_us (clock (S (S (ticks w)))) - timestamp_us (clock (S (ticks w)))
    < CACHE_EXPIRY_DAYS * us_per_day ->
  let first := generate_protocol model (Some text) article_info style w in
  let second :=
    generate_protocol model (Some text) article_info' style (snd first) in
  exists p1 p2,
    fst first = Returned p1
    /\ fst second = Returned p2
    /\ asdict p2 = asdict p1
    /\ original_article p2 = Data (asdict_article article_info)
    /\ trace (snd second) = CacheRead key :: trace (snd first).
Proof.
  intros Hne Hk.
  exact (generate_twice_run model text text article_info article_info' style
           key content items w Hne Hne Hk Hk).
Qed.

(** A synthesis whose key has an unexpired entry written from a protocol
    returns that protocol, in its dictionary form, without a request. *)
Lemma generate_hit_entry (model text : pystr) (article_info : Article)
    (style key : pystr) (t : datetime) (p : Protocol) (w : World) :
  text <> [] ->
  protocol_cache_key text style = Returned key ->
  fs w !! cache_file key = Some (entry t (asdict p)) ->
  fromisoformat (isoformat t) = Some (Naive t) ->
  timestamp_us (clock (ticks w)) - timestamp_us t
    < CACHE_EXPIRY_DAYS * us_per_day ->
  exists p',
    generate_protocol model (Some text) article_info style w
    = (Returned p',
       mkWorld (fs w) (S (ticks w)) (CacheRead key :: trace w))
    /\ asdict p' = asdict p.
Proof.
  intros Hne Hk Hf Hiso Hage.
  destruct (protocol_of_asdict p) as (p' & Hp' & Hd & _).
  exists p'. split; [|exact Hd].
  assert (Hget : get key w
                 = (Returned (asdict p),
                    mkWorld (fs w) (S (ticks w))
                            (CacheRead key :: trace w))).
  { rewrite (get_entry clock fromisoformat key t (asdict p) w Hf Hiso).
    apply Z.ltb_lt in Hage. rewrite Hage. reflexivity. }
  rewrite (generate_protocol_hit clock fromisoformat json_loads
             chat_completion _get_system_prompt _build_prompt model text
             article_info style key (asdict p) w Hne Hk);
    [|rewrite Hget; reflexivity|reflexivity].
  rewrite Hget. cbn [snd]. rewrite Hp'. reflexivity.
Qed.

(** C9. Two methods texts with the same first 100 characters have, for
    every style, the same synthesis cache key. So a protocol cached under
    the key of the first text is what a synthesis of the second text
    returns while the entry has not expired, whatever follows the prefix
    and whatever the article, and the generative collaborator is not
    asked: this holds for any unexpired entry written from a protocol, and
    in particular for the entry a synthesis of the first text has just
    written. *)
Theorem synthesis_key_prefix (m1 m2 style : pystr) :
  slice_to 100 m1 = slice_to 100 m2 ->
  protocol_cache_key m1 style = protocol_cache_key m2 style
  /\ (forall model a2 key t p1 w,
        m2 <> [] ->
        protocol_cache_key m1 style = Returned key ->
        fs w !! cache_file key = Some (entry t (asdict p1)) ->
        fromisoformat (isoformat t) = Some (Naive t) ->
        timestamp_us (clock (ticks w)) - timestamp_us t
          < CACHE_EXPIRY_DAYS * us_per_day ->
        exists p2,
          generate_protocol model (Some m2) a2 style w
          = (Returned p2,
             mkWorld (fs w) (S (ticks w)) (CacheRead key :: trace w))
          /\ asdict p2 = asdict p1)
  /\ forall model a1 a2 key content items w,
       m1 <> [] -> m2 <> [] ->
       protocol_cache_key m1 style = Returned key ->
       fs w !! cache_file key = None ->
       chat_completion model _get_system_prompt (_build_prompt m1 style)
       = Some (Some content) ->
       json_loads content = Some (JDict items) ->
       fromisoformat (isoformat (clock (S (ticks w))))
       = Some (Naive (clock (S (ticks w)))) ->
       timestamp_us (clock (S (S (ticks w))))
         - timestamp_us (clock (S (ticks w)))
         < CACHE_EXPIRY_DAYS * us_per_day ->
       let first := generate_protocol model (Some m1) a1 style w in
       let second := generate_protocol model (Some m2) a2 style (snd first) in
       exists p1 p2,
         fst first = Returned p1
         /\ fst second = Returned p2
         /\ asdict p2 = asdict p1
         /\ trace (snd second) = CacheRead key :: trace (snd first).
Proof.
  intros Hp.
  assert (Hk : protocol_cache_key m1 style = protocol_cache_key m2 style).
  { unfold protocol_cache_key. rewrite Hp. reflexivity. }
  split; [exact Hk|]. split.
  - intros model a2 key t p1 w H2 Hkey Hf Hiso Hage.
    assert (Hkey' : protocol_cache_key m2 style = Returned key)
      by (rewrite <- Hk; exact Hkey).
    exact (generate_hit_entry model m2 a2 style key t p1 w H2 Hkey' Hf
             Hiso Hage).
  - intros model a1 a2 key content items w H1 H2 Hkey Hf Hc Hl Hiso Hage.
    assert (Hkey' : protocol_cache_key m2 style = Returned key)
      by (rewrite <- Hk; exact Hkey).
    destruct (generate_twice_run model m1 m2 a1 a2 style key content items w
                H1 H2 Hkey Hkey' Hf Hc Hl Hiso Hage)
      as (p1 & p2 & Hp1 & Hp2 & Hd & _ & Ht).
    exists p1, p2. repeat split; assumption.
Qed.

(** [generate_protocol] with a write that succeeds is the synthesis of
    the claims. *)
Lemma generate_protocol_written (model : pystr)
    (methods_text : option pystr) (article_info : Article) (style : pystr) :
  generate_protocol_under clock fromisoformat json_loads chat_completion
    _get_system_prompt _build_prompt Written model methods_text article_info
    style
  = generate_protocol model methods_text article_info style.
Proof. reflexivity. Qed.

(** X13. [generate_protocol] touches at most the file of its own key,
    whether the cache write succeeds or fails. A call that returns has
    left the directory as it was, or has written that file with the
    dictionary form of the protocol it returns. A call that raises has
    left the directory as it was, with one exception: a cache write that
    fails after the file was opened. Then the call raises [OSError], the
    protocol is lost, the key's file is left truncated, and a lookup under
    the key raises [JSONDecodeError] from then on. *)
Theorem generate_writes_only_its_result (o : write_outcome) (model : pystr)
    (methods_text : option pystr) (article_info : Article) (style : pystr)
    (w : World) :
  let run :=
    generate_protocol_under clock fromisoformat json_loads chat_completion
      _get_system_prompt _build_prompt o model methods_text article_info
      style w in
  let synthesis_key :=
    protocol_cache_key (default [] methods_text) style in
  (forall p,
      fst run = Returned p ->
      fs (snd run) = fs w
      \/ exists key t,
           synthesis_key = Returned key
           /\ fs (snd run) = <[cache_file key := entry t (asdict p)]> (fs w))
  /\ (forall e,
        fst run = Raised e ->
        fs (snd run) = fs w
        \/ exists key,
             o = WriteFailed
             /\ e = OSError
             /\ synthesis_key = Returned key
             /\ fs (snd run) = <[cache_file key := NotJson]> (fs w)
             /\ forall n tr,
                  fst (get key (mkWorld (fs (snd run)) n tr))
                  = Raised JSONDecodeError).
Proof.
  cbv zeta.
  destruct (generate_protocol_under clock fromisoformat json_loads
              chat_completion _get_system_prompt _build_prompt o model
              methods_text article_info style w) as [r w'] eqn:E.
  cbn [fst snd]. revert E. unfold generate_protocol_under.
  destruct (negb (truthy methods_text)).
  { intros [= <- <-]. split; intros ? _; left; reflexivity. }
  destruct (protocol_cache_key (default [] methods_text) style)
    as [key|e0] eqn:Hk.
  2:{ intros [= <- <-]. split; intros ? _; left; reflexivity. }
  unfold bind at 1. unfold lift at 1. unfold bind at 1.
  destruct (get_effects clock fromisoformat key w) as (Hfs & _ & _).
  destruct (get key w) as [[cached|e] w0]; cbn [snd] in Hfs.
  2:{ intros [= <- <-]. split; intros ? _; left; exact Hfs. }
  destruct (json_truthy cached).
  { unfold lift. intros [= <- <-]. split; intros ? _; left; exact Hfs. }
  assert (Hpoison : forall n tr,
             fst (get key
                    (mkWorld (<[cache_file key := NotJson]> (fs w0)) n tr))
             = Raised JSONDecodeError).
  { intros n tr. unfold Pipeline.get, bind, emit. cbn [fs ticks trace].
    rewrite lookup_insert_eq. reflexivity. }
  unfold create_completion, set_under, Pipeline.set, now, bind, emit, lift,
    ret, raise.
  cbn [fs ticks trace].
  repeat (match goal with
          | |- context [match chat_completion ?a ?b ?c with _ => _ end] =>
              destruct (chat_completion a b c)
          | |- context [match loads_content ?f ?c with _ => _ end] =>
              destruct (loads_content f c)
          | |- context [match dict_get_default ?d ?k ?x with _ => _ end] =>
              destruct (dict_get_default d k x)
          end; cbv beta iota; cbn [fst snd fs ticks trace]).
  all: try (destruct o; cbv beta iota; cbn [fst snd fs ticks trace]).
  all: intros [= <- <-]; cbn [fs]; split;
    [ intros ? Hr;
      first [ discriminate Hr
            | left; exact Hfs
            | injection Hr as <-; right; eexists _, _; rewrite <- Hfs;
              split; reflexivity ]
    | intros ? Hr;
      first [ discriminate Hr
            | left; exact Hfs
            | injection Hr as <-; right; exists key; rewrite <- Hfs;
              repeat split; try reflexivity; exact Hpoison ] ].
Qed.

End SynthesisFacts.

Lemma methods_one_not_empty : Fixtures.methods_one <> [].
Proof. intros E. vm_compute in E. discriminate E. Qed.

(** An instance: the response holds a title only; the lists come out
    empty and the entry is stamped with the second clock reading. *)
Lemma generate_builds_and_caches_witness :
  exists p,
    fst (generate_protocol Fixtures.daily_clock read_isoformat
           Fixtures.fixed_loads Fixtures.fixed_completion (py "system")
           Fixtures.plain_prompt (py "gpt-4-turbo-preview")
           (Some Fixtures.methods_one) Fixtures.some_article (py "detailed")
           Fixtures.empty_world)
    = Returned p
    /\ title p = Data (JStr (py "Heating"))
    /\ reagents p = Data (JList [])
    /\ conditions p = Data (JDict [])
    /\ fs (snd (generate_protocol Fixtures.daily_clock read_isoformat
                  Fixtures.fixed_loads Fixtures.fixed_completion (py "system")
                  Fixtures.plain_prompt (py "gpt-4-turbo-preview")
                  (Some Fixtures.methods_one) Fixtures.some_article
                  (py "detailed") Fixtures.empty_world))
         !! cache_file Fixtures.protocol_key
       = Some (entry (Fixtures.daily_clock 1) (asdict p)).
Proof.
  rewrite (generate_builds_and_caches Fixtures.daily_clock read_isoformat
             Fixtures.fixed_loads Fixtures.fixed_completion (py "system")
             Fixtures.plain_prompt (py "gpt-4-turbo-preview")
             Fixtures.methods_one Fixtures.some_article (py "detailed")
             Fixtures.protocol_key (py "{}")
             [ (py "title", JStr (py "Heating")) ] Fixtures.empty_world
             methods_one_not_empty protocol_key_digest (lookup_empty _)
             eq_refl eq_refl).
  eexists. split; [reflexivity|]. cbn [fst snd fs].
  split; [reflexivity|]. split; [reflexivity|]. split; [reflexivity|].
  apply lookup_insert_eq.
Defined.

(** An instance: the synthesis is repeated a day later for another
    article. *)
Lemma generate_twice_one_request_witness :
  let first :=
    generate_protocol Fixtures.daily_clock read_isoformat
      Fixtures.fixed_loads Fixtures.fixed_completion (py "system")
      Fixtures.plain_prompt (py "gpt-4-turbo-preview")
      (Some Fixtures.methods_one) Fixtures.some_article (py "detailed")
      Fixtures.empty_world in
  let second :=
    generate_protocol Fixtures.daily_clock read_isoformat
      Fixtures.fixed_loads Fixtures.fixed_completion (py "system")
      Fixtures.plain_prompt (py "gpt-4-turbo-preview")
      (Some Fixtures.methods_one) Fixtures.other_article (py "detailed")
      (snd first) in
  exists p1 p2,
    fst first = Returned p1
    /\ fst second = Returned p2
    /\ asdict p2 = asdict p1
    /\ original_article p2 = Data (asdict_article Fixtures.some_article)
    /\ trace (snd second)
       = CacheRead Fixtures.protocol_key :: trace (snd first).
Proof.
  refine (generate_twice_one_request Fixtures.daily_clock read_isoformat
            Fixtures.fixed_loads Fixtures.fixed_completion (py "system")
            Fixtures.plain_prompt (py "gpt-4-turbo-preview")
            Fixtures.methods_one Fixtures.some_article Fixtures.other_article
            (py "detailed") Fixtures.protocol_key (py "{}")
            [ (py "title", JStr (py "Heating")) ] Fixtures.empty_world
            methods_one_not_empty protocol_key_digest (lookup_empty _)
            eq_refl eq_refl _ _).
  - vm_compute. reflexivity.
  - vm_compute. reflexivity.
Defined.

(** An instance: two texts that share their first 100 characters and
    differ afterwards; the second synthesis, a day later and for another
    article, returns the protocol of the first. *)
Lemma synthesis_key_prefix_witness :
  slice_to 100 Fixtures.methods_one = slice_to 100 Fixtures.methods_two
  /\ Fixtures.methods_one <> Fixtures.methods_two
  /\ protocol_cache_key Fixtures.methods_one (py "detailed")
     = protocol_cache_key Fixtures.methods_two (py "detailed")
  /\ (let first :=
        generate_protocol Fixtures.daily_clock read_isoformat
          Fixtures.fixed_loads Fixtures.fixed_completion (py "system")
          Fixtures.plain_prompt (py "gpt-4-turbo-preview")
          (Some Fixtures.methods_one) Fixtures.some_article (py "detailed")
          Fixtures.empty_world in
      let second :=
        generate_protocol Fixtures.daily_clock read_isoformat
          Fixtures.fixed_loads Fixtures.fixed_completion (py "system")
          Fixtures.plain_prompt (py "gpt-4-turbo-preview")
          (Some Fixtures.methods_two) Fixtures.other_article (py "detailed")
          (snd first) in
      exists p1 p2,
        fst first = Returned p1
        /\ fst second = Returned p2
        /\ asdict p2 = asdict p1
        /\ trace (snd second)
           = CacheRead Fixtures.protocol_key :: trace (snd first)).
Proof.
  assert (H : slice_to 100 Fixtures.methods_one
              = slice_to 100 Fixtures.methods_two) by reflexivity.
  assert (Hdiff : Fixtures.methods_one <> Fixtures.methods_two).
  { intros E. apply (f_equal (skipn 100)) in E. vm_compute in E.
    discriminate E. }
  assert (Hne : Fixtures.methods_two <> []).
  { intros E. vm_compute in E. discriminate E. }
  destruct (synthesis_key_prefix Fixtures.daily_clock read_isoformat
              Fixtures.fixed_loads Fixtures.fixed_completion
              (py "system") Fixtures.plain_prompt
              Fixtures.methods_one Fixtures.methods_two
              (py "detailed") H) as (Hkey & _ & Hrun).
  split; [exact H|]. split; [exact Hdiff|]. split; [exact Hkey|].
  refine (Hrun (py "gpt-4-turbo-preview") Fixtures.some_article
            Fixtures.other_article Fixtures.protocol_key (py "{}")
            [ (py "title", JStr (py "Heating")) ] Fixtures.empty_world
            methods_one_not_empty Hne protocol_key_digest (lookup_empty _)
            eq_refl eq_refl _ _).
  - vm_compute. reflexivity.
  - vm_compute. reflexivity.
Defined.

(** ** The text of a titled section *)

Lemma is_prefix_app (x b : pystr) : is_prefix x (x ++ b) = true.
Proof.
  induction x as [|c x IH]; [reflexivity|].
  cbn [is_prefix app]. rewrite N.eqb_refl. exact IH.
Qed.

Lemma contains_here (x b : pystr) : contains x (x ++ b) = true.
Proof.
  destruct (x ++ b) eqn:E; cbn [contains]; rewrite <- E, is_prefix_app;
    reflexivity.
Qed.

Lemma contains_later (x a s : pystr) :
  contains x s = true -> contains x (a ++ s) = true.
Proof.
  intros H. induction a as [|c a IH]; [exact H|].
  cbn [app contains]. rewrite IH. apply orb_true_r.
Qed.

Lemma contains_join (sep piece : pystr) (pieces : list pystr) :
  In piece pieces -> contains piece (join sep pieces) = true.
Proof.
  induction pieces as [|p rest IH]; intros Hin; [destruct Hin|].
  destruct rest as [|q rest].
  - destruct Hin as [->|[]]. cbn [join].
    rewrite <- (app_nil_r piece) at 2. apply contains_here.
  - change (join sep (p :: q :: rest)) with (p ++ sep ++ join sep (q :: rest)).
    destruct Hin as [->|Hin].
    + apply contains_here.
    + apply contains_later, contains_later, IH, Hin.
Qed.

Lemma find_child_In (t : pystr) (e c : Element) :
  find_child t e = Some c -> In c (children e).
Proof. intros H. apply find_some in H. apply H. Qed.

Lemma child_in_iter (e c : Element) : In c (children e) -> In c (iter e).
Proof.
  intros H. destruct e as [tg tx tl cs]. cbn [children] in H.
  cbn [iter]. right. apply in_flat_map. exists c. split; [exact H|].
  destruct c. cbn [iter]. left. reflexivity.
Qed.

Lemma self_in_iter (e : Element) : In e (iter e).
Proof. destruct e. cbn [iter]. left. reflexivity. Qed.

Lemma text_piece (e : Element) (s : pystr) :
  text e = Some s -> s <> [] -> In (strip s) (node_pieces e).
Proof.
  intros Ht Hs. unfold node_pieces. rewrite Ht.
  destruct s as [|c s]; [congruence|]. cbn [truthy]. left. reflexivity.
Qed.

Lemma tail_piece (e : Element) (s : pystr) :
  tail e = Some s -> s <> [] -> In (strip s) (node_pieces e).
Proof.
  intros Ht Hs. unfold node_pieces. rewrite Ht. apply in_or_app. right.
  destruct s as [|c s]; [congruence|]. cbn [truthy]. left. reflexivity.
Qed.

(** X14. The text returned for a section leaves nothing of the section
    out: the text and the tail of every node of its subtree, when not
    empty, occur in it stripped. This includes the tail of the section
    node itself, which is the text that follows the section's end tag. *)
Theorem section_text_is_complete (sec : Element) :
  exists t,
    section_text sec = Returned t
    /\ (forall e s, In e (iter sec) -> text e = Some s -> s <> [] ->
                    contains (strip s) t = true)
    /\ (forall e s, In e (iter sec) -> tail e = Some s -> s <> [] ->
                    contains (strip s) t = true)
    /\ (forall s, tail sec = Some s -> s <> [] ->
                  contains (strip s) t = true).
Proof.
  exists (section_content sec). split; [apply section_text_content|].
  assert (Hpiece : forall e piece, In e (iter sec) ->
                     In piece (node_pieces e) ->
                     contains piece (section_content sec) = true).
  { intros e piece He Hp. apply contains_join, in_flat_map. eauto. }
  split; [|split].
  - intros e s He Ht Hs. eapply Hpiece; [exact He|]. apply text_piece; assumption.
  - intros e s He Ht Hs. eapply Hpiece; [exact He|]. apply tail_piece; assumption.
  - intros s Ht Hs. eapply Hpiece; [apply self_in_iter|].
    apply tail_piece; assumption.
Qed.

Section TitleInText.
Variable unicode_lower : pystr -> pystr.

(** X15. Whenever a section matches by its title, the text returned for
    it contains the title itself: the title node has non-empty text and
    that text, stripped, occurs in the section text. *)
Theorem matched_section_text_has_title (sec : Element) :
  title_has_synonym unicode_lower sec = true ->
  exists title s,
    find_child (py "title") sec = Some title
    /\ text title = Some s
    /\ s <> []
    /\ section_text sec = Returned (section_content sec)
    /\ contains (strip s) (section_content sec) = true.
Proof.
  unfold Reading.title_has_synonym.
  destruct (find_child (py "title") sec) as [title|] eqn:Ef; [|discriminate].
  destruct (text title) as [s|] eqn:Et; [|discriminate].
  intros Hm. exists title, s.
  assert (Hs : s <> []).
  { intros ->. vm_compute in Hm. discriminate Hm. }
  repeat split; try assumption; try reflexivity.
  - apply section_text_content.
  - apply contains_join, in_flat_map. exists title. split.
    + apply child_in_iter. eapply find_child_In. exact Ef.
    + apply text_piece; assumption.
Qed.

End TitleInText.

(** An instance: the fixture section. *)
Lemma matched_section_text_has_title_witness :
  title_has_synonym ascii_only Fixtures.methods_sec = true
  /\ contains (strip (py "Materials and Methods"))
       (section_content Fixtures.methods_sec) = true.
Proof.
  assert (H : title_has_synonym ascii_only Fixtures.methods_sec = true)
    by (vm_compute; reflexivity).
  split; [exact H|].
  destruct (matched_section_text_has_title ascii_only Fixtures.methods_sec H)
    as (title & s & Hf & Ht & _ & _ & Hc).
  vm_compute in Hf. injection Hf as <-. injection Ht as <-. exact Hc.
Defined.

(** ** The body-pattern fallback *)

Lemma lstrip_spec (s : pystr) :
  exists a, s = a ++ lstrip s
            /\ Forall (fun c => isspace c = true) a
            /\ match lstrip s with
               | c :: _ => isspace c = false
               | [] => True
               end.
Proof.
  induction s as [|c s (a & Ea & Ha & Hh)].
  - exists []. repeat split. constructor.
  - cbn [lstrip]. destruct (isspace c) eqn:Ec.
    + exists (c :: a). split; [cbn; congruence|]. split; [|exact Hh].
      constructor; assumption.
    + exists []. repeat split; [constructor | exact Ec].
Qed.

Lemma lstrip_fixed (s : pystr) :
  match s with c :: _ => isspace c = false | [] => True end ->
  lstrip s = s.
Proof. destruct s as [|c s]; [reflexivity|]. cbn [lstrip]. intros ->. reflexivity. Qed.

Lemma lstrip_idem (s : pystr) : lstrip (lstrip s) = lstrip s.
Proof.
  destruct (lstrip_spec s) as (a & _ & _ & Hh). apply lstrip_fixed, Hh.
Qed.

(** [rstrip] keeps the first character of a string that does not start
    with white space. *)
Lemma rstrip_head (c : char) (s : pystr) :
  isspace c = false -> exists s', rstrip (c :: s) = c :: s'.
Proof.
  intros Hc. unfold rstrip. cbn [rev].
  destruct (lstrip_spec (rev s ++ [c])) as (a & Ea & Ha & _).
  assert (Hne : exists x, lstrip (rev s ++ [c]) = x ++ [c]).
  { destruct (lstrip (rev s ++ [c])) as [|d l] eqn:El using rev_ind.
    - rewrite app_nil_r in Ea. rewrite <- Ea in Ha.
      apply Forall_app in Ha as [_ Ha]. inversion Ha; subst. congruence.
    - rewrite app_assoc in Ea. apply app_inj_tail in Ea as [_ ->].
      eexists. reflexivity. }
  destruct Hne as [x ->]. rewrite rev_app_distr. cbn. eauto.
Qed.

(** [strip] is idempotent: a stripped string has no white space at either
    end. *)
Lemma strip_idem (s : pystr) : strip (strip s) = strip s.
Proof.
  unfold strip.
  assert (Hl : lstrip (rstrip (lstrip s)) = rstrip (lstrip s)).
  { destruct (lstrip_spec s) as (_ & _ & _ & Hh).
    destruct (lstrip s) as [|c l]; [reflexivity|].
    destruct (rstrip_head c l Hh) as [s' ->]. apply lstrip_fixed, Hh. }
  rewrite Hl. unfold rstrip. rewrite rev_involutive, lstrip_idem. reflexivity.
Qed.

(** A stripped string is a run of the string, between white space. *)
Lemma strip_middle (s : pystr) : exists a b, s = a ++ strip s ++ b.
Proof.
  destruct (lstrip_spec s) as (a & Ea & _ & _).
  destruct (lstrip_spec (rev (lstrip s))) as (b & Eb & _ & _).
  exists a, (rev b). unfold strip, rstrip.
  rewrite <- rev_app_distr, <- Eb, rev_involutive. exact Ea.
Qed.

Lemma ci_prefix_app (m x y : pystr) :
  ci_prefix m x = true -> ci_prefix m (x ++ y) = true.
Proof.
  revert x. induction m as [|a m IH]; intros x H; [reflexivity|].
  destruct x as [|c x]; [discriminate|]. cbn [ci_prefix app] in *.
  apply andb_true_iff in H as [-> H]. apply IH, H.
Qed.

Lemma ci_prefix_length (m x : pystr) :
  ci_prefix m x = true -> (length m <= length x)%nat.
Proof.
  revert x. induction m as [|a m IH]; intros x H; [cbn; lia|].
  destruct x as [|c x]; [discriminate|]. cbn [ci_prefix] in H.
  apply andb_true_iff in H as [_ H]. apply IH in H. cbn [length]. lia.
Qed.

Lemma at_end_marker_app (x y : pystr) :
  at_end_marker x = true -> at_end_marker (x ++ y) = true.
Proof.
  unfold at_end_marker. rewrite !existsb_exists.
  intros (m & Hm & H). exists m. split; [exact Hm|]. apply ci_prefix_app, H.
Qed.

Lemma at_end_marker_nonempty (x : pystr) :
  at_end_marker x = true -> x <> [].
Proof. intros H ->. discriminate H. Qed.

(** The lazy group: what it captures is followed by an end marker, and no
    end marker starts inside it. *)
Lemma lazy_until_marker_sound (s g : pystr) :
  lazy_until_marker s = Some g ->
  exists post,
    s = g ++ post
    /\ at_end_marker post = true
    /\ forall j, (j < length g)%nat -> at_end_marker (skipn j s) = false.
Proof.
  revert g. induction s as [|c s IH]; intros g.
  - cbn. discriminate.
  - cbn [lazy_until_marker]. destruct (at_end_marker (c :: s)) eqn:Em.
    + intros [= <-]. exists (c :: s). repeat split; [exact Em|].
      intros j Hj. cbn in Hj. lia.
    + destruct (lazy_until_marker s) as [g'|]; [|discriminate].
      intros [= <-]. destruct (IH g' eq_refl) as (post & -> & Hp & Hmin).
      exists post. repeat split; [exact Hp|].
      intros [|j] Hj; [exact Em|]. cbn [skipn]. apply Hmin.
      cbn [length] in Hj. lia.
Qed.

Lemma lazy_until_marker_complete (mid post : pystr) :
  at_end_marker post = true ->
  exists g, lazy_until_marker (mid ++ post) = Some g.
Proof.
  intros Hp. induction mid as [|c mid [g IH]].
  - cbn [app]. destruct post as [|c post]; [discriminate|].
    cbn [lazy_until_marker]. rewrite Hp. eauto.
  - cbn [app lazy_until_marker]. destruct (at_end_marker (c :: mid ++ post)).
    + eauto.
    + rewrite IH. cbn. eauto.
Qed.

Lemma sep_run_firstn (k : nat) (r : pystr) :
  (k <= sep_run r)%nat ->
  length (firstn k r) = k /\ Forall (fun c => is_sep c = true) (firstn k r).
Proof.
  revert r. induction k as [|k IH]; intros r Hk.
  - split; [reflexivity | constructor].
  - destruct r as [|c r]; [cbn in Hk; lia|]. cbn [sep_run] in Hk.
    destruct (is_sep c) eqn:Ec; [|lia].
    destruct (IH r ltac:(lia)) as [Hl Hf]. cbn [firstn length].
    split; [lia | constructor; assumption].
Qed.

Lemma sep_then_capture_sound (k : nat) (r g : pystr) :
  sep_then_capture k r = Some g ->
  exists k', (1 <= k' <= k)%nat /\ lazy_until_marker (skipn k' r) = Some g.
Proof.
  induction k as [|k IH]; [discriminate|].
  cbn [sep_then_capture].
  destruct (lazy_until_marker (skipn (S k) r)) as [g'|] eqn:E.
  - intros [= <-]. exists (S k). split; [lia | exact E].
  - intros H. destruct (IH H) as (k' & Hk' & Hg). exists k'. split; [lia|exact Hg].
Qed.

Lemma sep_then_capture_complete (k : nat) (r : pystr) :
  (1 <= k)%nat ->
  (exists g, lazy_until_marker (skipn 1 r) = Some g) ->
  exists g, sep_then_capture k r = Some g.
Proof.
  intros Hk Hone. induction k as [|k IH]; [lia|].
  cbn [sep_then_capture].
  destruct (lazy_until_marker (skipn (S k) r)) as [g'|] eqn:E; [eauto|].
  destruct k as [|k]; [destruct Hone as [g Hg]; congruence|].
  apply IH. lia.
Qed.

(** The shape of a match of [re_search]. *)
Lemma re_search_split (pattern s g : pystr) :
  re_search pattern s = Some g ->
  exists pre lit seps post,
    s = pre ++ lit ++ seps ++ g ++ post
    /\ length lit = length pattern
    /\ ci_prefix pattern lit = true
    /\ seps <> []
    /\ Forall (fun c => is_sep c = true) seps
    /\ at_end_marker post = true
    /\ forall j, (j < length g)%nat ->
                 at_end_marker (skipn j (g ++ post)) = false.
Proof.
  induction s as [|c s IH].
  - cbn [re_search]. destruct (match_here pattern []) eqn:E; [|discriminate].
    intros [= ->]. revert E. unfold match_here.
    destruct (ci_prefix pattern []) eqn:Ep; [|discriminate].
    destruct pattern; [|discriminate]. cbn. discriminate.
  - cbn [re_search]. destruct (match_here pattern (c :: s)) as [g'|] eqn:E.
    + intros [= ->]. revert E. unfold match_here.
      destruct (ci_prefix pattern (c :: s)) eqn:Ep; [|discriminate].
      cbv zeta. set (r := skipn (length pattern) (c :: s)).
      intros H. apply sep_then_capture_sound in H as (k & Hk & Hg).
      apply lazy_until_marker_sound in Hg as (post & Hs & Hp & Hmin).
      destruct (sep_run_firstn k r ltac:(lia)) as [Hl Hf].
      exists [], (firstn (length pattern) (c :: s)), (firstn k r), post.
      repeat split.
      * cbn [app]. rewrite <- Hs, (firstn_skipn k r). subst r.
        symmetry. apply firstn_skipn.
      * apply firstn_length_le, ci_prefix_length, Ep.
      * revert Ep. generalize (c :: s). clear.
        induction pattern as [|a p IH]; intros x H; [reflexivity|].
        destruct x as [|d x]; [discriminate|]. cbn [ci_prefix length firstn] in *.
        apply andb_true_iff in H as [-> H]. apply IH, H.
      * intros E. rewrite E in Hl. cbn in Hl. lia.
      * exact Hf.
      * exact Hp.
      * intros j Hj. rewrite <- Hs. apply Hmin, Hj.
    + intros H. destruct (IH H) as (pre & lit & seps & post & -> & Hrest).
      exists (c :: pre), lit, seps, post. split; [reflexivity | exact Hrest].
Qed.

(** X16. What [re.search] finds for a body pattern: the text splits into
    what precedes the match, the pattern in any letter case, one or more
    separators (colon or white space), the captured group and the rest;
    the rest starts with an end marker, and no end marker starts inside the
    group. *)
Theorem re_search_sound (pattern s g : pystr) :
  re_search pattern s = Some g ->
  exists pre lit seps post,
    s = pre ++ lit ++ seps ++ g ++ post
    /\ length lit = length pattern
    /\ ci_prefix pattern lit = true
    /\ seps <> []
    /\ Forall (fun c => is_sep c = true) seps
    /\ at_end_marker post = true
    /\ forall j, (j < length g)%nat ->
                 at_end_marker (skipn j (g ++ post)) = false.
Proof. exact (re_search_split pattern s g). Qed.

(** An instance: the pattern in lower case, a colon and a space. *)
Lemma re_search_sound_witness :
  re_search (py "Methods") (py "Our methods: mix well. Results follow")
  = Some (py "mix well. ")
  /\ exists pre lit seps post,
       py "Our methods: mix well. Results follow"
       = pre ++ lit ++ seps ++ py "mix well. " ++ post
       /\ length lit = length (py "Methods")
       /\ ci_prefix (py "Methods") lit = true
       /\ seps <> []
       /\ Forall (fun c => is_sep c = true) seps
       /\ at_end_marker post = true
       /\ forall j, (j < length (py "mix well. "))%nat ->
            at_end_marker (skipn j (py "mix well. " ++ post)) = false.
Proof.
  assert (H : re_search (py "Methods")
                (py "Our methods: mix well. Results follow")
              = Some (py "mix well. ")) by (vm_compute; reflexivity).
  split; [exact H|]. exact (re_search_sound _ _ _ H).
Defined.

Lemma first_pattern_match_sound (patterns : list pystr) (body_text t : pystr) :
  first_pattern_match patterns body_text = Some t ->
  exists pattern g,
    In pattern patterns /\ re_search pattern body_text = Some g
    /\ t = strip g.
Proof.
  induction patterns as [|p ps IH]; [discriminate|].
  cbn [first_pattern_match].
  destruct (re_search p body_text) as [g|] eqn:E.
  - intros [= <-]. exists p, g. repeat split; [left; reflexivity | exact E].
  - intros H. destruct (IH H) as (q & g & Hq & Hg & Ht).
    exists q, g. repeat split; [right; exact Hq | exact Hg | exact Ht].
Qed.

(** X17. The text the body-pattern fallback returns is trimmed, and no
    end marker ("Results", "Discussion", "Conclusion", in any letter case)
    starts anywhere in it. *)
Theorem fallback_text_shape (root : Element) (t : pystr) :
  body_pattern_fallback root = Returned (Some t) ->
  strip t = t /\ forall j, at_end_marker (skipn j t) = false.
Proof.
  unfold body_pattern_fallback.
  destruct (find_descendant (py "body") root) as [body|]; [|discriminate].
  intros [= H].
  apply (first_pattern_match_sound body_patterns
           (join (py " ") (itertext body)) t) in H
    as (p & g & _ & Hg & ->).
  split; [apply strip_idem|].
  apply re_search_split in Hg
    as (pre & lit & seps & post & _ & _ & _ & _ & _ & _ & Hmin).
  destruct (strip_middle g) as (a & b & Eg).
  set (sg := strip g) in *. clearbody sg. subst g.
  intros j. destruct (at_end_marker (skipn j sg)) eqn:Em; [|reflexivity].
  exfalso.
  assert (Hj : (j < length sg)%nat).
  { destruct (Nat.lt_ge_cases j (length sg)) as [Hlt|Hge]; [exact Hlt|].
    rewrite skipn_all2 in Em by exact Hge. discriminate Em. }
  assert (Hbad : at_end_marker
                   (skipn (length a + j) ((a ++ sg ++ b) ++ post)) = true).
  { rewrite <- !app_assoc.
    rewrite skipn_app, skipn_all2 by lia.
    replace (length a + j - length a)%nat with j by lia. cbn [app].
    rewrite skipn_app. apply at_end_marker_app, Em. }
  rewrite Hmin in Hbad; [discriminate|].
  rewrite !length_app. lia.
Qed.

(** An instance: the document whose body holds "Methods: cells were
    grown. Results follow." *)
Lemma fallback_text_shape_witness :
  body_pattern_fallback Fixtures.both_stages
  = Returned (Some (py "cells were grown."))
  /\ strip (py "cells were grown.") = py "cells were grown."
  /\ forall j, at_end_marker (skipn j (py "cells were grown.")) = false.
Proof.
  assert (H : body_pattern_fallback Fixtures.both_stages
              = Returned (Some (py "cells were grown.")))
    by (vm_compute; reflexivity).
  split; [exact H|]. exact (fallback_text_shape _ _ H).
Defined.

Lemma re_search_complete (pattern pre lit mid post : pystr) (c : char) :
  length lit = length pattern ->
  ci_prefix pattern lit = true ->
  is_sep c = true ->
  at_end_marker post = true ->
  exists g, re_search pattern (pre ++ lit ++ c :: mid ++ post) = Some g.
Proof.
  intros Hlen Hlit Hc Hp.
  assert (Hhere : exists g,
             match_here pattern (lit ++ c :: mid ++ post) = Some g).
  { unfold match_here. rewrite (ci_prefix_app _ _ _ Hlit). cbv zeta.
    rewrite <- Hlen, skipn_app, skipn_all, Nat.sub_diag. cbn [app skipn].
    apply sep_then_capture_complete.
    - cbn [sep_run]. rewrite Hc. lia.
    - cbn [skipn]. apply lazy_until_marker_complete, Hp. }
  induction pre as [|d pre IH].
  - cbn [app]. destruct Hhere as [g Hg].
    destruct (lit ++ c :: mid ++ post); cbn [re_search]; rewrite Hg; eauto.
  - cbn [app re_search].
    destruct (match_here pattern (d :: pre ++ lit ++ c :: mid ++ post));
      [eauto | exact IH].
Qed.

Lemma first_pattern_match_complete (patterns : list pystr)
    (pattern body_text g : pystr) :
  In pattern patterns -> re_search pattern body_text = Some g ->
  exists t, first_pattern_match patterns body_text = Some t.
Proof.
  intros Hin Hg. induction patterns as [|p ps IH]; [destruct Hin|].
  cbn [first_pattern_match].
  destruct (re_search p body_text) as [g'|] eqn:E; [eauto|].
  destruct Hin as [->|Hin]; [congruence | apply IH, Hin].
Qed.

Section FallbackFacts.
Variable unicode_lower : pystr -> pystr.

(** X18. When no section title matches and the text of the body holds
    one of the three patterns in any letter case, then a colon or a white
    space, and further on an end marker, the extractor returns a text: the
    fallback does not miss it. *)
Theorem fallback_finds_marked_text (root body : Element)
    (pattern pre lit mid post : pystr) (c : char) :
  Forall (fun sec => title_has_synonym unicode_lower sec = false)
         (iter_tag (py "sec") root) ->
  find_descendant (py "body") root = Some body ->
  join (py " ") (itertext body) = pre ++ lit ++ c :: mid ++ post ->
  In pattern body_patterns ->
  length lit = length pattern ->
  ci_prefix pattern lit = true ->
  is_sep c = true ->
  at_end_marker post = true ->
  exists t,
    Extractor._extract_methods unicode_lower root = Returned (Some t).
Proof.
  intros Hsec Hbody Htext Hin Hlen Hlit Hc Hp.
  unfold Extractor._extract_methods, Extractor.extract_methods_with.
  rewrite (scan_no_match unicode_lower _ Hsec). cbn [obind].
  unfold body_pattern_fallback. rewrite Hbody, Htext.
  destruct (re_search_complete pattern pre lit mid post c Hlen Hlit Hc Hp)
    as [g Hg].
  destruct (first_pattern_match_complete body_patterns pattern _ g Hin Hg)
    as [t ->].
  eauto.
Qed.

End FallbackFacts.

(** An instance: "Experimental", a colon, and "Discussion" further on. *)
Lemma fallback_finds_marked_text_witness :
  exists t,
    Extractor._extract_methods ascii_only Documents.fallback_only
    = Returned (Some t).
Proof.
  apply (fallback_finds_marked_text ascii_only Documents.fallback_only
           (mkElement (py "body")
              (Some (py "Overview. Experimental: mix reagents. Discussion follows."))
              None [])
           (py "Experimental") (py "Overview. ") (py "Experimental")
           (py " mix reagents. ") (py "Discussion follows.") 58%N).
  - constructor.
  - reflexivity.
  - vm_compute. reflexivity.
  - right. right. left. reflexivity.
  - reflexivity.
  - vm_compute. reflexivity.
  - reflexivity.
  - vm_compute. reflexivity.
Defined.

Example extract_fallback_only :
  Extractor._extract_methods ascii_only Documents.fallback_only
  = Returned (Some (py "mix reagents.")).
Proof. vm_compute. reflexivity. Qed.

(** ** Parsing an article *)

(** A stripped string is empty or starts with a character that is not
    white space. *)
Lemma strip_head (s : pystr) :
  match strip s with
  | c :: _ => isspace c = false
  | [] => True
  end.
Proof.
  unfold strip. destruct (lstrip_spec s) as (_ & _ & _ & Hh).
  destruct (lstrip s) as [|c l]; [exact I|].
  destruct (rstrip_head c l Hh) as [s' ->]. exact Hh.
Qed.

Lemma strip_middle_spaces (s : pystr) :
  exists a b, s = a ++ strip s ++ b
              /\ Forall (fun c => isspace c = true) a
              /\ Forall (fun c => isspace c = true) b.
Proof.
  destruct (lstrip_spec s) as (a & Ea & Ha & _).
  destruct (lstrip_spec (rev (lstrip s))) as (b & Eb & Hb & _).
  exists a, (rev b). split; [|split].
  - unfold strip, rstrip.
    rewrite <- rev_app_distr, <- Eb, rev_involutive. exact Ea.
  - exact Ha.
  - apply Forall_forall. intros c Hc. apply list_elem_of_In, in_rev in Hc.
    rewrite Forall_forall in Hb. apply Hb, list_elem_of_In, Hc.
Qed.

(** A string with a character that is not white space does not strip to
    the empty string. *)
Lemma strip_not_empty (s : pystr) (c : char) :
  In c s -> isspace c = false -> strip s <> [].
Proof.
  intros Hin Hc E. destruct (strip_middle_spaces s) as (a & b & Es & Ha & Hb).
  rewrite E in Es. cbn [app] in Es. rewrite Es in Hin.
  rewrite Forall_forall in Ha, Hb.
  apply in_app_or in Hin as [Hin|Hin];
    [apply list_elem_of_In, Ha in Hin | apply list_elem_of_In, Hb in Hin];
    congruence.
Qed.

Lemma author_entry_shape (author : XElement) :
  Forall (fun name => name <> [] /\ strip name = name) (author_entry author)
  /\ (length (author_entry author) <= 1)%nat.
Proof.
  unfold author_entry. cbv zeta.
  set (surname := _get_text id author (Descendant (py "surname")) []).
  set (given := _get_text id author (Descendant (py "given-names")) []).
  assert (Hs : match surname with
               | c :: _ => isspace c = false
               | [] => True
               end).
  { subst surname. unfold _get_text.
    destruct (find author (Descendant (py "surname"))); [|exact I].
    apply strip_head. }
  destruct surname as [|c r]; cbn [truthy].
  - split; [constructor | cbn; lia].
  - split; [|cbn; lia]. constructor; [|constructor]. split.
    + apply (strip_not_empty _ c); [|exact Hs].
      apply in_or_app. right. apply in_or_app. right. left. reflexivity.
    + apply strip_idem.
Qed.

Lemma authors_shape (contribs : list XElement) :
  Forall (fun name => name <> [] /\ strip name = name)
         (flat_map author_entry contribs)
  /\ (length (flat_map author_entry contribs) <= length contribs)%nat.
Proof.
  induction contribs as [|c cs [IHf IHl]]; [split; [constructor | cbn; lia]|].
  destruct (author_entry_shape c) as [Hf Hl]. cbn [flat_map length]. split.
  - apply Forall_app. split; assumption.
  - rewrite length_app. lia.
Qed.

Lemma get_text_trimmed (element : XElement) (path : xpath) (default : pystr) :
  strip default = default ->
  strip (_get_text id element path default) = _get_text id element path default.
Proof.
  intros Hd. unfold _get_text. destruct (find element path); [|exact Hd].
  apply strip_idem.
Qed.

Lemma get_text_opt_trimmed (element : XElement) (path : xpath) (s : pystr) :
  _get_text Some element path None = Some s -> strip s = s.
Proof.
  unfold _get_text. destruct (find element path); [|discriminate].
  intros [= <-]. apply strip_idem.
Qed.

Section ParseFacts.
Variable unicode_lower : pystr -> pystr.
Variable clock : nat -> datetime.

Notation _parse_article_xml := (_parse_article_xml unicode_lower clock).

Lemma extract_methods_returns (root : Element) :
  exists r, Extractor._extract_methods unicode_lower root = Returned r.
Proof.
  unfold Extractor._extract_methods, Extractor.extract_methods_with.
  destruct (scan_returns unicode_lower (iter_tag (py "sec") root))
    as [[t|] ->]; cbn [obind]; [eauto | apply body_fallback_returns].
Qed.

(** What [_parse_article_xml] returns. *)
Lemma parse_run (root : XElement) (pmc_id : pystr) (w : World) :
  exists methods,
    Extractor._extract_methods unicode_lower (erase root) = Returned methods
    /\ _parse_article_xml root pmc_id w
       = (Returned
            (mkArticle pmc_id
               (_get_text Some root
                  (DescendantWith (py "article-id") (py "pub-id-type")
                     (py "pmid")) None)
               (_get_text id root (Descendant (py "article-title")) no_title)
               (flat_map author_entry (author_contribs root))
               (_get_text id root (Descendant (py "journal-title"))
                  (py "Journal desconocido"))
               (_get_text id root
                  (DescendantChild (py "pub-date") (py "year"))
                  (str_of_int (Datetime.year (clock (ticks w)))))
               (_get_text Some root
                  (DescendantWith (py "article-id") (py "pub-id-type")
                     (py "doi")) None)
               (_extract_abstract root) methods
               (py "https://www.ncbi.nlm.nih.gov/pmc/articles/PMC"
                  ++ pmc_id ++ py "/")),
          mkWorld (fs w) (S (ticks w)) (trace w)).
Proof.
  destruct (extract_methods_returns (erase root)) as [methods Hm].
  exists methods. split; [exact Hm|].
  unfold Articles._parse_article_xml, bind, now, lift, ret.
  cbn [fs ticks trace]. rewrite Hm. reflexivity.
Qed.

(** X19. [_parse_article_xml] returns an article for every document, and
    its author list is clean: every name is non-empty and has no white
    space at either end, and there are at most as many names as author
    contributors (those without a surname are left out). *)
Theorem parsed_authors_are_clean (root : XElement) (pmc_id : pystr)
    (w : World) :
  exists a,
    fst (_parse_article_xml root pmc_id w) = Returned a
    /\ Forall (fun name => name <> [] /\ strip name = name) (authors a)
    /\ (length (authors a) <= length (author_contribs root))%nat.
Proof.
  destruct (parse_run root pmc_id w) as (methods & _ & ->).
  eexists. split; [reflexivity|]. cbn [authors]. apply authors_shape.
Qed.

(** X20. The title, the journal, the DOI, the PMID and the abstract of a
    parsed article have no white space at either end, whether they come
    from the document or from the defaults of the code. *)
Theorem parsed_fields_are_trimmed (root : XElement) (pmc_id : pystr)
    (w : World) :
  exists a,
    fst (_parse_article_xml root pmc_id w) = Returned a
    /\ strip (art_title a) = art_title a
    /\ strip (journal a) = journal a
    /\ (forall s, doi a = Some s -> strip s = s)
    /\ (forall s, pmid a = Some s -> strip s = s)
    /\ (forall s, abstract a = Some s -> strip s = s).
Proof.
  destruct (parse_run root pmc_id w) as (methods & _ & ->).
  eexists. split; [reflexivity|].
  cbn [art_title journal doi pmid abstract]. repeat split.
  - apply get_text_trimmed. vm_compute. reflexivity.
  - apply get_text_trimmed. vm_compute. reflexivity.
  - intros s. apply get_text_opt_trimmed.
  - intros s. apply get_text_opt_trimmed.
  - intros s. unfold _extract_abstract.
    destruct (find root (Descendant (py "abstract"))); [|discriminate].
    intros [= <-]. apply strip_idem.
Qed.

End ParseFacts.

(** ** Fetching an article through the cache *)

Lemma as_str_list_map (l : list pystr) : as_str_list (List.map JStr l) = Some l.
Proof.
  induction l as [|s l IH]; [reflexivity|].
  cbn [List.map as_str_list]. rewrite IH. reflexivity.
Qed.

Lemma as_opt_str_json (o : option pystr) : as_opt_str (json_of_opt o) = Some o.
Proof. destruct o; reflexivity. Qed.

(** The constructor call on the dictionary form of an article. *)
Lemma article_of_asdict (a : Article) :
  Article_of_kwargs (asdict_article a) = Returned (TypedArticle a).
Proof.
  destruct a as [i p t au j y d b m u].
  unfold Article_of_kwargs, asdict_article.
  cbn [pmc_id pmid art_title authors journal art_year doi abstract
       methods_text full_text_url].
  change (forallb _ _ && forallb _ _) with true. cbv beta iota.
  unfold typed_fields.
  change (dict_get (py "pmc_id") _) with (Some (JStr i)).
  change (dict_get (py "pmid") _) with (Some (json_of_opt p)).
  change (dict_get (py "title") _) with (Some (JStr t)).
  change (dict_get (py "authors") _) with (Some (JList (List.map JStr au))).
  change (dict_get (py "journal") _) with (Some (JStr j)).
  change (dict_get (py "year") _) with (Some (JStr y)).
  change (dict_get (py "doi") _) with (Some (json_of_opt d)).
  change (dict_get (py "abstract") _) with (Some (json_of_opt b)).
  change (dict_get (py "methods_text") _) with (Some (json_of_opt m)).
  change (dict_get (py "full_text_url") _) with (Some (JStr u)).
  cbv beta iota. rewrite !as_opt_str_json, as_str_list_map. reflexivity.
Qed.

(** X21. An article survives the cache unchanged: the constructor call
    on [asdict(article)] gives back the article, field by field. *)
Theorem article_cache_round_trip (a : Article) :
  Article_of_kwargs (asdict_article a) = Returned (TypedArticle a)
  /\ json_truthy (asdict_article a) = true.
Proof. split; [apply article_of_asdict | reflexivity]. Qed.

Section FetchFacts.
Variable unicode_lower : pystr -> pystr.
Variable clock : nat -> datetime.
Variable fromisoformat : pystr -> option parsed_time.

Notation get := (get clock fromisoformat).
Notation fetch_article := (fetch_article unicode_lower clock fromisoformat).
Notation _parse_article_xml := (_parse_article_xml unicode_lower clock).

(** [fetch_article] from the cache lookup on. *)
Lemma fetch_after_lookup
    (session_get :
       pystr -> list (pystr * pystr) -> request_failure + xml_response)
    (pmc_id key : pystr) (w : World) :
  get_cache_key (py "article_" ++ pmc_id) = Returned key ->
  fetch_article session_get pmc_id w
  = match get key w with
    | (Returned cached, w') =>
        if json_truthy cached
        then (do a <- lift (Article_of_kwargs cached) ; ret (Fetched a)) w'
        else
          (do response <- request_get_xml session_get
                            (BASE_URL ++ py "/efetch.fcgi")
                            (fetch_params pmc_id) ;
           do _ <- (if xml_status_ok response then ret tt
                    else raise (RequestException HTTPError)) ;
           match document response with
           | None => ret XmlParseError
           | Some root =>
               do article <- _parse_article_xml root pmc_id ;
               do _ <- set clock key (asdict_article article) ;
               ret (Fetched (TypedArticle article))
           end) w'
    | (Raised e, w') => (Raised e, w')
    end.
Proof.
  intros Hk. unfold Articles.fetch_article.
  rewrite Hk. unfold bind at 1. unfold lift at 1. unfold bind at 1.
  destruct (get key w) as [[cached|e] w']; [|reflexivity].
  destruct (json_truthy cached); reflexivity.
Qed.

(** The run of [fetch_article] on a cache hit. *)
Lemma fetch_hit_run
    (session_get :
       pystr -> list (pystr * pystr) -> request_failure + xml_response)
    (pmc_id key : pystr) (t : datetime) (a : Article) (w : World) :
  get_cache_key (py "article_" ++ pmc_id) = Returned key ->
  fs w !! cache_file key = Some (entry t (asdict_article a)) ->
  fromisoformat (isoformat t) = Some (Naive t) ->
  timestamp_us (clock (ticks w)) - timestamp_us t
    < CACHE_EXPIRY_DAYS * us_per_day ->
  fetch_article session_get pmc_id w
  = (Returned (Fetched (TypedArticle a)),
     mkWorld (fs w) (S (ticks w)) (CacheRead key :: trace w)).
Proof.
  intros Hk Hf Hiso Hage.
  rewrite (fetch_after_lookup session_get pmc_id key w Hk).
  rewrite (get_entry clock fromisoformat key t (asdict_article a) w Hf Hiso).
  apply Z.ltb_lt in Hage. rewrite Hage.
  change (json_truthy (asdict_article a)) with true. cbv beta iota.
  unfold bind, lift, ret. rewrite article_of_asdict. reflexivity.
Qed.

(** X22. A fetch whose key has an unexpired entry written from an article
    returns that article; the fetch collaborator is not asked and the
    cache directory is unchanged. *)
Theorem fetch_served_from_cache
    (session_get :
       pystr -> list (pystr * pystr) -> request_failure + xml_response)
    (pmc_id key : pystr) (t : datetime) (a : Article) (w : World) :
  get_cache_key (py "article_" ++ pmc_id) = Returned key ->
  fs w !! cache_file key = Some (entry t (asdict_article a)) ->
  fromisoformat (isoformat t) = Some (Naive t) ->
  timestamp_us (clock (ticks w)) - timestamp_us t
    < CACHE_EXPIRY_DAYS * us_per_day ->
  fetch_article session_get pmc_id w
  = (Returned (Fetched (TypedArticle a)),
     mkWorld (fs w) (S (ticks w)) (CacheRead key :: trace w)).
Proof. exact (fetch_hit_run session_get pmc_id key t a w). Qed.

(** The run of [fetch_article] on a cache miss with a document. *)
Lemma fetch_miss_run
    (session_get :
       pystr -> list (pystr * pystr) -> request_failure + xml_response)
    (pmc_id key : pystr) (r : xml_response) (root : XElement) (w : World) :
  get_cache_key (py "article_" ++ pmc_id) = Returned key ->
  fs w !! cache_file key = None ->
  session_get (BASE_URL ++ py "/efetch.fcgi") (fetch_params pmc_id) = inr r ->
  xml_status_ok r = true ->
  document r = Some root ->
  exists a,
    fst (_parse_article_xml root pmc_id
           (mkWorld (fs w) (ticks w)
              (HttpGet (BASE_URL ++ py "/efetch.fcgi") (fetch_params pmc_id)
                 :: CacheRead key :: trace w)))
    = Returned a
    /\ fetch_article session_get pmc_id w
       = (Returned (Fetched (TypedArticle a)),
          mkWorld (<[cache_file key
                     := entry (clock (S (ticks w))) (asdict_article a)]>
                     (fs w))
                  (S (S (ticks w)))
                  (CacheWrite key
                     :: HttpGet (BASE_URL ++ py "/efetch.fcgi")
                                (fetch_params pmc_id)
                     :: CacheRead key :: trace w)).
Proof.
  intros Hk Hf Hg Hs Hd.
  rewrite (fetch_after_lookup session_get pmc_id key w Hk).
  rewrite (get_missing clock fromisoformat key w Hf). cbn [json_truthy].
  unfold request_get_xml, bind at 1, bind at 1, emit. cbn [fs ticks trace].
  rewrite Hg. unfold ret at 1. unfold bind at 1. rewrite Hs.
  unfold ret at 1. rewrite Hd.
  set (w1 := mkWorld (fs w) (ticks w)
               (HttpGet (BASE_URL ++ py "/efetch.fcgi") (fetch_params pmc_id)
                  :: CacheRead key :: trace w)).
  destruct (parse_run unicode_lower clock root pmc_id w1) as (m & _ & Hp).
  eexists. split; [rewrite Hp; reflexivity|].
  unfold bind at 1. rewrite Hp. unfold bind, ret. rewrite set_spec.
  reflexivity.
Qed.

(** X23. A fetch that misses the cache and receives a document returns
    the article parsed from it and writes the article's dictionary form to
    the cache under the article key; the events are the cache read, the
    request and the cache write, in that order. *)
Theorem fetch_fills_cache
    (session_get :
       pystr -> list (pystr * pystr) -> request_failure + xml_response)
    (pmc_id key : pystr) (r : xml_response) (root : XElement) (w : World) :
  get_cache_key (py "article_" ++ pmc_id) = Returned key ->
  fs w !! cache_file key = None ->
  session_get (BASE_URL ++ py "/efetch.fcgi") (fetch_params pmc_id) = inr r ->
  xml_status_ok r = true ->
  document r = Some root ->
  exists a,
    fst (_parse_article_xml root pmc_id
           (mkWorld (fs w) (ticks w)
              (HttpGet (BASE_URL ++ py "/efetch.fcgi") (fetch_params pmc_id)
                 :: CacheRead key :: trace w)))
    = Returned a
    /\ fetch_article session_get pmc_id w
       = (Returned (Fetched (TypedArticle a)),
          mkWorld (<[cache_file key
                     := entry (clock (S (ticks w))) (asdict_article a)]>
                     (fs w))
                  (S (S (ticks w)))
                  (CacheWrite key
                     :: HttpGet (BASE_URL ++ py "/efetch.fcgi")
                                (fetch_params pmc_id)
                     :: CacheRead key :: trace w)).
Proof. exact (fetch_miss_run session_get pmc_id key r root w). Qed.

(** X24. Two fetches of the same article in a row: when the first one
    parsed and cached it and the second runs before the entry expires, the
    second returns the same article without a request, even with a
    collaborator that has become unreachable or answers otherwise. *)
Theorem fetch_twice_one_request
    (session_get session_get' :
       pystr -> list (pystr * pystr) -> request_failure + xml_response)
    (pmc_id key : pystr) (r : xml_response) (root : XElement) (w : World) :
  get_cache_key (py "article_" ++ pmc_id) = Returned key ->
  fs w !! cache_file key = None ->
  session_get (BASE_URL ++ py "/efetch.fcgi") (fetch_params pmc_id) = inr r ->
  xml_status_ok r = true ->
  document r = Some root ->
  fromisoformat (isoformat (clock (S (ticks w))))
  = Some (Naive (clock (S (ticks w)))) ->
  timestamp_us (clock (S (S (ticks w)))) - timestamp_us (clock (S (ticks w)))
    < CACHE_EXPIRY_DAYS * us_per_day ->
  let first := fetch_article session_get pmc_id w in
  let second := fetch_article session_get' pmc_id (snd first) in
  fst second = fst first
  /\ (exists a, fst first = Returned (Fetched (TypedArticle a)))
  /\ trace (snd second) = CacheRead key :: trace (snd first).
Proof.
  intros Hk Hf Hg Hs Hd Hiso Hage first second. subst first second.
  destruct (fetch_miss_run session_get pmc_id key r root w Hk Hf Hg Hs Hd)
    as (a & _ & ->).
  cbn [fst snd].
  rewrite (fetch_hit_run session_get' pmc_id key (clock (S (ticks w))) a _ Hk);
    try assumption.
  - cbn [fst snd trace]. repeat split; eauto.
  - cbn [fs]. apply lookup_insert_eq.
Qed.


End FetchFacts.

Example parse_article_doc :
  fst (_parse_article_xml ascii_only Fixtures.daily_clock
         FetchReplies.article_doc (py "12345") Fixtures.empty_world)
  = Returned
      (mkArticle (py "12345") None (py "Lysis of cells") [py "Marie Curie"]
         (py "Journal desconocido") (py "2024") (Some (py "10.1/x")) None
         (Some (py "Methods Cells were lysed."))
         (py "https://www.ncbi.nlm.nih.gov/pmc/articles/PMC12345/")).
Proof. vm_compute. reflexivity. Qed.

(** An instance: the article is in the cache since the day before, the
    collaborator is unreachable. *)
Lemma fetch_served_from_cache_witness :
  fetch_article ascii_only Fixtures.daily_clock read_isoformat
    FetchReplies.no_reply (py "12345") FetchReplies.fetched_world
  = (Returned (Fetched (TypedArticle Fixtures.some_article)),
     mkWorld (fs FetchReplies.fetched_world) 2
       [CacheRead Fixtures.article_key]).
Proof.
  apply (fetch_served_from_cache ascii_only Fixtures.daily_clock
           read_isoformat FetchReplies.no_reply (py "12345")
           Fixtures.article_key (Fixtures.daily_clock 0)
           Fixtures.some_article FetchReplies.fetched_world).
  - exact article_key_digest.
  - apply lookup_singleton_eq.
  - vm_compute. reflexivity.
  - vm_compute. reflexivity.
Defined.

(** An instance: an empty cache and a collaborator that serves the
    document. *)
Lemma fetch_fills_cache_witness :
  exists a,
    fst (fetch_article ascii_only Fixtures.daily_clock read_isoformat
           FetchReplies.document_reply (py "12345") Fixtures.empty_world)
    = Returned (Fetched (TypedArticle a))
    /\ fs (snd (fetch_article ascii_only Fixtures.daily_clock read_isoformat
                  FetchReplies.document_reply (py "12345")
                  Fixtures.empty_world))
         !! cache_file Fixtures.article_key
       = Some (entry (Fixtures.daily_clock 1) (asdict_article a)).
Proof.
  destruct (fetch_fills_cache ascii_only Fixtures.daily_clock read_isoformat
              FetchReplies.document_reply (py "12345") Fixtures.article_key
              (mkXmlResponse true (Some FetchReplies.article_doc))
              FetchReplies.article_doc Fixtures.empty_world
              article_key_digest (lookup_empty _) eq_refl eq_refl eq_refl)
    as (a & _ & E).
  exists a. rewrite E. cbn [fst snd fs]. split; [reflexivity|].
  apply lookup_insert_eq.
Defined.

(** An instance: the fetch is repeated one day later with the collaborator
    unreachable. *)
Lemma fetch_twice_one_request_witness :
  fst (fetch_article ascii_only Fixtures.daily_clock read_isoformat
         FetchReplies.no_reply (py "12345")
         (snd (fetch_article ascii_only Fixtures.daily_clock read_isoformat
                 FetchReplies.document_reply (py "12345")
                 Fixtures.empty_world)))
  = fst (fetch_article ascii_only Fixtures.daily_clock read_isoformat
           FetchReplies.document_reply (py "12345") Fixtures.empty_world).
Proof.
  refine (proj1 (fetch_twice_one_request ascii_only Fixtures.daily_clock
            read_isoformat FetchReplies.document_reply FetchReplies.no_reply
            (py "12345") Fixtures.article_key
            (mkXmlResponse true (Some FetchReplies.article_doc))
            FetchReplies.article_doc Fixtures.empty_world
            article_key_digest (lookup_empty _) eq_refl eq_refl eq_refl _ _)).
  - vm_compute. reflexivity.
  - vm_compute. reflexivity.
Defined.


(** ** Escaping for LaTeX *)

(** The two replacements as one pass over the text. *)
Lemma latex_escape_chars (s : pystr) :
  latex_escape s
  = flat_map (fun c => if N.eqb c 37 then py "\%"
                       else if N.eqb c 38 then py "\&" else [c]) s.
Proof.
  unfold latex_escape, replace_char.
  induction s as [|c s IH]; [reflexivity|].
  cbn [flat_map]. rewrite flat_map_app. f_equal; [|exact IH].
  destruct (N.eqb c 37) eqn:E37; [reflexivity|].
  cbn [flat_map app]. rewrite app_nil_r. reflexivity.
Qed.

(** Where a percent sign or an ampersand stands in an escaped text. *)
Lemma escaped_chars_follow_backslash (s pre post : pystr) (c : char) :
  flat_map (fun c => if N.eqb c 37 then py "\%"
                     else if N.eqb c 38 then py "\&" else [c]) s
  = pre ++ c :: post ->
  c = 37%N \/ c = 38%N ->
  exists pre', pre = pre' ++ [92%N].
Proof.
  revert pre. induction s as [|x s IH]; intros pre H Hc.
  - destruct pre; discriminate H.
  - cbn [flat_map] in H.
    change (py "\%") with [92%N; 37%N] in H.
    change (py "\&") with [92%N; 38%N] in H.
    destruct (N.eqb x 37) eqn:E37; [|destruct (N.eqb x 38) eqn:E38];
      cbn [app] in H.
    + destruct pre as [|a [|b pre]]; cbn [app] in H.
      * injection H as <- _. destruct Hc as [Hc|Hc]; discriminate Hc.
      * injection H as <- _ _. exists []. reflexivity.
      * injection H as <- <- H.
        destruct (IH pre H Hc) as [pre' ->]. exists (92%N :: 37%N :: pre').
        reflexivity.
    + destruct pre as [|a [|b pre]]; cbn [app] in H.
      * injection H as <- _. destruct Hc as [Hc|Hc]; discriminate Hc.
      * injection H as <- _ _. exists []. reflexivity.
      * injection H as <- <- H.
        destruct (IH pre H Hc) as [pre' ->]. exists (92%N :: 38%N :: pre').
        reflexivity.
    + destruct pre as [|a pre]; cbn [app] in H.
      * injection H as <- _.
        destruct Hc as [Hc|Hc]; subst x; discriminate.
      * injection H as <- H.
        destruct (IH pre H Hc) as [pre' ->]. exists (x :: pre').
        reflexivity.
Qed.

(** X27. The escaping of the LaTeX export puts a backslash before every
    percent sign and every ampersand and changes nothing else: without
    the backslashes the escaped text is the text without its backslashes,
    and a text with neither character is left as it is. A backslash of
    the text itself is not escaped. *)
Theorem latex_escape_spec (s : pystr) :
  (forall pre c post,
      latex_escape s = pre ++ c :: post ->
      c = 37%N \/ c = 38%N ->
      exists pre', pre = pre' ++ [92%N])
  /\ List.filter (fun c => negb (N.eqb c 92)) (latex_escape s)
     = List.filter (fun c => negb (N.eqb c 92)) s
  /\ ((forall c, In c s -> c <> 37%N /\ c <> 38%N) -> latex_escape s = s).
Proof.
  rewrite latex_escape_chars. split; [|split].
  - intros pre c post H Hc.
    exact (escaped_chars_follow_backslash s pre post c H Hc).
  - induction s as [|x s IH]; [reflexivity|].
    cbn [flat_map]. rewrite List.filter_app.
    change (x :: s) with ([x] ++ s). rewrite (List.filter_app _ [x] s).
    f_equal; [|exact IH].
    destruct (N.eqb x 37) eqn:E37.
    { apply N.eqb_eq in E37. subst x. reflexivity. }
    destruct (N.eqb x 38) eqn:E38; [|reflexivity].
    apply N.eqb_eq in E38. subst x. reflexivity.
  - induction s as [|x s IH]; intros H; [reflexivity|].
    cbn [flat_map].
    destruct (H x (or_introl eq_refl)) as [H37 H38].
    apply N.eqb_neq in H37, H38. rewrite H37, H38.
    cbn [app]. f_equal. apply IH. intros c Hc. apply H. right. exact Hc.
Qed.

(** ** Export to Markdown *)

Lemma is_prefix_split (p s : pystr) :
  is_prefix p s = true -> exists b, s = p ++ b.
Proof.
  revert s. induction p as [|a p IH]; intros s H.
  - exists s. reflexivity.
  - destruct s as [|c s]; [discriminate H|]. cbn [is_prefix] in H.
    apply andb_true_iff in H as [Hc Hp]. apply N.eqb_eq in Hc. subst c.
    destruct (IH s Hp) as [b ->]. exists b. reflexivity.
Qed.

Lemma contains_split (x s : pystr) :
  contains x s = true <-> exists a b, s = a ++ x ++ b.
Proof.
  split.
  - induction s as [|c s IH]; cbn [contains]; intros H.
    + rewrite orb_false_r in H. destruct (is_prefix_split x [] H) as [b ->].
      exists [], b. reflexivity.
    + apply orb_true_iff in H as [H|H].
      * destruct (is_prefix_split x (c :: s) H) as [b ->].
        exists [], b. reflexivity.
      * destruct (IH H) as (a & b & ->). exists (c :: a), b. reflexivity.
  - intros (a & b & ->). apply contains_later, contains_here.
Qed.

Lemma contains_refl (x : pystr) : contains x x = true.
Proof. rewrite <- (app_nil_r x) at 2. apply contains_here. Qed.

Lemma contains_trans (x y z : pystr) :
  contains x y = true -> contains y z = true -> contains x z = true.
Proof.
  intros Hxy Hyz.
  apply contains_split in Hxy as (a & b & ->).
  apply contains_split in Hyz as (a' & b' & ->).
  apply contains_later. rewrite <- !app_assoc.
  apply contains_later, contains_here.
Qed.

Section ExportFacts.
Variable py_str : json -> pystr.
Variable repr_article : Article -> pystr.
Variable str_title : pystr -> pystr.

Notation format_value := (format_value py_str).
Notation to_markdown := (to_markdown py_str repr_article str_title).
Notation bullet_section := (bullet_section py_str).
Notation step_lines := (step_lines py_str).
Notation preparation_lines := (preparation_lines py_str).
Notation procedure_lines := (procedure_lines py_str).
Notation condition_lines := (condition_lines py_str str_title).

(** Neither exporter takes a protocol whose article is a dictionary. *)
Lemma export_of_dict_article (p : Protocol) (items : list (pystr * json)) :
  original_article p = Data (JDict items) ->
  to_markdown p = Raised AttributeError
  /\ to_latex p = Raised AttributeError.
Proof.
  intros Ha. split.
  - unfold Exporter.to_markdown. rewrite Ha. reflexivity.
  - unfold to_latex, latex_title, latex_article_title. rewrite Ha.
    destruct (title p) as [[]|]; reflexivity.
Qed.

Lemma bullet_section_list (heading bullet : pystr) (items : list json) :
  bullet_section heading bullet (Data (JList items))
  = Returned (match items with
              | [] => []
              | _ => [heading]
                       ++ List.map (fun x => bullet ++ format_value x) items
                       ++ [[]]
              end).
Proof. destruct items; reflexivity. Qed.

Lemma bullet_line_In (heading bullet : pystr) (items : list json) (x : json) :
  In x items ->
  In (bullet ++ format_value x)
     (match items with
      | [] => []
      | _ => [heading]
               ++ List.map (fun x => bullet ++ format_value x) items
               ++ [[]]
      end).
Proof.
  intros Hin. destruct items as [|y items]; [destruct Hin|].
  apply in_or_app. right. apply in_or_app. left.
  apply (in_map (fun x => bullet ++ format_value x)). exact Hin.
Qed.

Lemma numbered_In (items : list json) (x : json) (i : Z) :
  In x items ->
  exists n, In (str_of_int n ++ py ". " ++ format_value x)
               (numbered py_str i items).
Proof.
  revert i. induction items as [|y items IH]; intros i Hin; [destruct Hin|].
  cbn [numbered]. destruct Hin as [->|Hin].
  - exists i. left. reflexivity.
  - destruct (IH (i + 1)%Z Hin) as [n Hn]. exists n. right. exact Hn.
Qed.

(** The lines of a step that is a dictionary: the first one holds the
    action. *)
Lemma step_lines_dict (items : list (pystr * json)) :
  exists line rest,
    step_lines (JDict items) = Returned (line :: rest)
    /\ forall action,
         dict_get (py "action") items = Some action ->
         contains (format_value action) line = true.
Proof.
  unfold Exporter.step_lines, step_get, dict_get_default.
  cbv beta iota. unfold obind. cbn [app].
  eexists _, _. split; [reflexivity|].
  intros action ->.
  apply contains_later, contains_later, contains_later, contains_here.
Qed.

Lemma for_each_steps (steps : list json) :
  Forall (fun step => exists items, step = JDict items) steps ->
  exists lines,
    for_each step_lines steps = Returned lines
    /\ forall items action,
         In (JDict items) steps ->
         dict_get (py "action") items = Some action ->
         exists line,
           In line lines /\ contains (format_value action) line = true.
Proof.
  induction 1 as [|step steps [items ->] _ IH].
  - exists []. split; [reflexivity|]. intros ? ? [].
  - destruct IH as (more & Hmore & Hin).
    destruct (step_lines_dict items) as (line & rest & Hs & Ha).
    exists ((line :: rest) ++ more). cbn [for_each]. rewrite Hs.
    unfold obind at 1. rewrite Hmore. split; [reflexivity|].
    intros items' action [Heq|Hin'] Hget.
    + injection Heq as <-. exists line. split; [left; reflexivity|].
      apply Ha, Hget.
    + destruct (Hin items' action Hin' Hget) as (l & Hl & Hc).
      exists l. split; [|exact Hc]. apply in_or_app. right. exact Hl.
Qed.

Lemma preparation_lines_list (items : list json) :
  exists lines,
    preparation_lines (Data (JList items)) = Returned lines
    /\ forall x, In x items ->
         exists n, In (str_of_int n ++ py ". " ++ format_value x) lines.
Proof.
  destruct items as [|y items].
  - exists []. split; [reflexivity|]. intros x [].
  - eexists. split; [reflexivity|]. intros x Hin.
    destruct (numbered_In (y :: items) x 1 Hin) as [n Hn]. exists n.
    apply in_or_app. right. apply in_or_app. left. exact Hn.
Qed.

Lemma procedure_lines_steps (steps : list json) :
  Forall (fun step => exists items, step = JDict items) steps ->
  exists lines,
    procedure_lines (Data (JList steps)) = Returned lines
    /\ forall items action,
         In (JDict items) steps ->
         dict_get (py "action") items = Some action ->
         exists line,
           In line lines /\ contains (format_value action) line = true.
Proof.
  intros Hs. destruct (for_each_steps steps Hs) as (lines & Hl & Hin).
  destruct steps as [|step steps].
  - exists []. split; [reflexivity|]. intros ? ? [].
  - unfold Exporter.procedure_lines. cbn [pyobj_truthy json_truthy py_iter].
    unfold obind at 1. rewrite Hl. eexists. split; [reflexivity|].
    intros items action Hi Hg. destruct (Hin items action Hi Hg) as (l & Hl' & Hc).
    exists l. split; [|exact Hc]. apply in_or_app. right. exact Hl'.
Qed.

Lemma condition_lines_dict (items : list (pystr * json)) :
  exists lines,
    condition_lines (Data (JDict items)) = Returned lines
    /\ forall k v, In (k, v) items ->
         exists line,
           In line lines
           /\ contains (py ":** " ++ format_value v) line = true.
Proof.
  destruct items as [|kv items].
  - exists []. split; [reflexivity|]. intros ? ? [].
  - eexists. split; [reflexivity|]. intros k v Hin.
    eexists. split.
    + apply in_or_app. right. apply in_or_app. left.
      apply (in_map (fun kv =>
                       py "- **"
                         ++ str_title (replace_char 95%N (py " ") (fst kv))
                         ++ py ":** " ++ format_value (snd kv))
                    _ (k, v)) in Hin.
      exact Hin.
    + cbn [fst snd]. apply contains_later, contains_later, contains_refl.
Qed.

(** X28. A protocol as the synthesis builds it from a well-formed
    response (an [Article] object, lists for the itemised fields,
    dictionaries for the steps and the conditions) is exported to Markdown
    without an exception, and nothing of it is left out: the article's
    title, every reagent and material as a bullet, every preparation step
    with a number, the action of every step, the value of every condition
    and every critical note and safety warning occur in the text. *)
Theorem markdown_export_is_complete (p : Protocol) (a : Article)
    (rs ms ps steps ns ss : list json) (cs : list (pystr * json)) :
  original_article p = ArticleObj a ->
  reagents p = Data (JList rs) ->
  materials p = Data (JList ms) ->
  preparation p = Data (JList ps) ->
  procedure p = Data (JList steps) ->
  Forall (fun step => exists items, step = JDict items) steps ->
  conditions p = Data (JDict cs) ->
  critical_notes p = Data (JList ns) ->
  safety_warnings p = Data (JList ss) ->
  exists out,
    to_markdown p = Returned out
    /\ contains (art_title a) out = true
    /\ (forall x, In x rs \/ In x ms ->
          contains (py "- " ++ format_value x) out = true)
    /\ (forall x, In x ps ->
          exists n,
            contains (str_of_int n ++ py ". " ++ format_value x) out = true)
    /\ (forall items action,
          In (JDict items) steps ->
          dict_get (py "action") items = Some action ->
          contains (format_value action) out = true)
    /\ (forall k v, In (k, v) cs ->
          contains (py ":** " ++ format_value v) out = true)
    /\ (forall x, In x ns \/ In x ss ->
          contains (format_value x) out = true).
Proof.
  intros Ha Hr Hm Hp Hs Hsteps Hc Hn Hw.
  unfold Exporter.to_markdown.
  rewrite Ha, Hr, Hm, Hp, Hs, Hc, Hn, Hw. clear Hr Hm Hp Hs Hc Hn Hw.
  destruct (preparation_lines_list ps) as (P & -> & HP).
  destruct (procedure_lines_steps steps Hsteps) as (S & -> & HS).
  destruct (condition_lines_dict cs) as (C & -> & HC).
  rewrite !bullet_section_list. unfold article_lines, obind.
  eexists. split; [reflexivity|].
  assert (Hline : forall x line lines,
             contains x line = true -> In line lines ->
             contains x (join [10%N] lines) = true).
  { intros x line lines Hx Hin.
    exact (contains_trans x line _ Hx (contains_join _ _ _ Hin)). }
  split; [|split; [|split; [|split; [|split]]]].
  - apply (Hline _ (py "- **T" ++ [237%N] ++ py "tulo:** " ++ art_title a)).
    + apply contains_later, contains_later, contains_later, contains_refl.
    + apply in_or_app. right. apply in_or_app. left.
      apply in_or_app. left. left. reflexivity.
  - intros x [Hin|Hin]; apply contains_join.
    + apply in_or_app. right. apply in_or_app. right.
      apply in_or_app. left. apply bullet_line_In, Hin.
    + apply in_or_app. right. apply in_or_app. right.
      apply in_or_app. right. apply in_or_app. left.
      apply bullet_line_In, Hin.
  - intros x Hin. destruct (HP x Hin) as [n Hn]. exists n.
    apply contains_join. do 4 (apply in_or_app; right).
    apply in_or_app. left. exact Hn.
  - intros items action Hin Hg.
    destruct (HS items action Hin Hg) as (line & Hl & Hx).
    apply (Hline _ line); [exact Hx|].
    do 5 (apply in_or_app; right). apply in_or_app. left. exact Hl.
  - intros k v Hin. destruct (HC k v Hin) as (line & Hl & Hx).
    apply (Hline _ line); [exact Hx|].
    do 6 (apply in_or_app; right). apply in_or_app. left. exact Hl.
  - intros x [Hin|Hin].
    + apply (Hline _ (py "- " ++ [9889%N] ++ py " " ++ format_value x)).
      * apply contains_later, contains_later, contains_later, contains_refl.
      * do 7 (apply in_or_app; right). apply in_or_app. left.
        rewrite !(app_assoc _ _ (format_value x)).
        apply bullet_line_In, Hin.
    + apply (Hline _ (py "- " ++ [9940%N] ++ py " " ++ format_value x)).
      * apply contains_later, contains_later, contains_later, contains_refl.
      * do 8 (apply in_or_app; right).
        rewrite !(app_assoc _ _ (format_value x)).
        apply bullet_line_In, Hin.
Qed.

End ExportFacts.

(** ** Export to LaTeX *)

Lemma for_each_reagents (rs : list pystr) :
  for_each reagent_item (List.map JStr rs)
  = Returned (List.map (fun r => py "\item " ++ latex_escape r) rs).
Proof.
  induction rs as [|r rs IH]; [reflexivity|].
  cbn [List.map for_each]. rewrite IH. reflexivity.
Qed.

Lemma for_each_actions (steps : list (list (pystr * json))) :
  Forall (fun items =>
            dict_get (py "action") items = None
            \/ exists s, dict_get (py "action") items = Some (JStr s)) steps ->
  exists lines,
    for_each step_item (List.map JDict steps) = Returned lines
    /\ forall items s,
         In items steps ->
         dict_get (py "action") items = Some (JStr s) ->
         In (py "\item " ++ latex_escape s) lines.
Proof.
  induction 1 as [|items steps Hi _ IH].
  - exists []. split; [reflexivity|]. intros ? ? [].
  - destruct IH as (more & Hmore & Hin).
    assert (Hitem : exists line,
               step_item (JDict items) = Returned [line]
               /\ forall s, dict_get (py "action") items = Some (JStr s) ->
                            line = py "\item " ++ latex_escape s).
    { unfold step_item, dict_get_default.
      destruct Hi as [Hn|[s Hs]].
      - rewrite Hn. eexists. split; [reflexivity|]. intros s [=].
      - rewrite Hs. eexists. split; [reflexivity|]. intros s' [= <-].
        reflexivity. }
    destruct Hitem as (line & Hl & Hline).
    exists (line :: more). cbn [List.map for_each]. rewrite Hl.
    unfold obind at 1. rewrite Hmore. split; [reflexivity|].
    intros items' s [<-|Hin'] Hget.
    + left. apply Hline, Hget.
    + right. exact (Hin items' s Hin' Hget).
Qed.

(** X29. A protocol with a string title and date, an [Article] object,
    strings for reagents and dictionaries for steps whose action is a
    string (or missing) is exported to LaTeX without an exception; every
    reagent and every action is an item of the text, with its percent
    signs and ampersands escaped, and the title line holds the title with
    its ampersands escaped only. *)
Theorem latex_export_items (p : Protocol) (a : Article) (t d : pystr)
    (rs : list pystr) (steps : list (list (pystr * json))) :
  title p = Data (JStr t) ->
  original_article p = ArticleObj a ->
  generated_date p = Data (JStr d) ->
  reagents p = Data (JList (List.map JStr rs)) ->
  procedure p = Data (JList (List.map JDict steps)) ->
  Forall (fun items =>
            dict_get (py "action") items = None
            \/ exists s, dict_get (py "action") items = Some (JStr s)) steps ->
  exists out,
    to_latex p = Returned out
    /\ contains (py "\title{" ++ replace_char 38%N (py "\&") t ++ py "}") out
       = true
    /\ (forall r, In r rs ->
          contains (py "\item " ++ latex_escape r) out = true)
    /\ (forall items s,
          In items steps ->
          dict_get (py "action") items = Some (JStr s) ->
          contains (py "\item " ++ latex_escape s) out = true).
Proof.
  intros Ht Ha Hd Hr Hp Hsteps.
  unfold to_latex, latex_title, latex_article_title.
  rewrite Ht, Ha, Hd, Hr, Hp. clear Ht Ha Hd Hr Hp.
  destruct (for_each_actions steps Hsteps) as (lines & Hl & Hin).
  assert (HR : exists R,
             latex_reagents (Data (JList (List.map JStr rs))) = Returned R
             /\ forall r, In r rs ->
                          In (py "\item " ++ latex_escape r) R).
  { unfold latex_reagents. destruct rs as [|r0 rs].
    - exists []. split; [reflexivity|]. intros r [].
    - cbn [pyobj_truthy json_truthy py_iter List.map]. unfold obind at 1.
      change (JStr r0 :: List.map JStr rs) with (List.map JStr (r0 :: rs)).
      rewrite (for_each_reagents (r0 :: rs)). eexists.
      split; [reflexivity|]. intros r Hr.
      apply in_or_app. right. apply in_or_app. left.
      apply (in_map (fun r => py "\item " ++ latex_escape r)). exact Hr. }
  assert (HS : exists S,
             latex_procedure (Data (JList (List.map JDict steps)))
             = Returned S
             /\ forall items s,
                  In items steps ->
                  dict_get (py "action") items = Some (JStr s) ->
                  In (py "\item " ++ latex_escape s) S).
  { unfold latex_procedure. destruct steps as [|s0 steps].
    - exists []. split; [reflexivity|]. intros ? ? [].
    - cbn [pyobj_truthy json_truthy py_iter List.map]. unfold obind at 1.
      cbn [List.map] in Hl. rewrite Hl. eexists.
      split; [reflexivity|]. intros items s Hi Hg.
      apply in_or_app. right. apply in_or_app. left.
      exact (Hin items s Hi Hg). }
  destruct HR as (R & -> & HR). destruct HS as (S & -> & HS).
  unfold as_string, concat_operand, obind.
  eexists. split; [reflexivity|]. split; [|split].
  - apply contains_join. do 5 right. left. reflexivity.
  - intros r Hr. apply contains_join.
    apply in_or_app. right. apply in_or_app. left. exact (HR r Hr).
  - intros items s Hi Hg. apply contains_join.
    apply in_or_app. right. apply in_or_app. right.
    apply in_or_app. left. exact (HS items s Hi Hg).
Qed.

(** ** Exporting a protocol that comes from the cache *)

Section CachedExportFacts.
Variable clock : nat -> datetime.
Variable fromisoformat : pystr -> option parsed_time.
Variable json_loads : pystr -> option json.
Variable chat_completion : pystr -> pystr -> pystr -> option (option pystr).
Variable _get_system_prompt : pystr.
Variable _build_prompt : pystr -> pystr -> pystr.
Variable py_str : json -> pystr.
Variable repr_article : Article -> pystr.
Variable str_title : pystr -> pystr.

Notation generate_protocol :=
  (generate_protocol clock fromisoformat json_loads chat_completion
     _get_system_prompt _build_prompt).
Notation to_markdown := (to_markdown py_str repr_article str_title).

(** X30. A protocol served from the cache cannot be exported. When a
    synthesis built and cached a protocol and the same text and style are
    synthesised again before the entry expires, the first protocol holds
    the [Article] object, the second one holds a dictionary in its place,
    and both [to_markdown] and [to_latex] raise [AttributeError] on the
    second. *)
Theorem cached_protocol_cannot_be_exported (model text : pystr)
    (article_info : Article) (style key content : pystr)
    (items : list (pystr * json)) (w : World) :
  text <> [] ->
  protocol_cache_key text style = Returned key ->
  fs w !! cache_file key = None ->
  chat_completion model _get_system_prompt (_build_prompt text style)
  = Some (Some content) ->
  json_loads content = Some (JDict items) ->
  fromisoformat (isoformat (clock (S (ticks w))))
  = Some (Naive (clock (S (ticks w)))) ->
  timestamp_us (clock (S (S (ticks w)))) - timestamp_us (clock (S (ticks w)))
    < CACHE_EXPIRY_DAYS * us_per_day ->
  let first := generate_protocol model (Some text) article_info style w in
  let second :=
    generate_protocol model (Some text) article_info style (snd first) in
  exists p1 p2,
    fst first = Returned p1
    /\ original_article p1 = ArticleObj article_info
    /\ fst second = Returned p2
    /\ to_markdown p2 = Raised AttributeError
    /\ to_latex p2 = Raised AttributeError.
Proof.
  intros Hne Hk Hf Hc Hl Hiso Hage.
  destruct (generate_twice_run clock fromisoformat json_loads chat_completion
              _get_system_prompt _build_prompt model text text
              article_info article_info style key content items w Hne Hne
              Hk Hk Hf Hc Hl Hiso Hage)
    as (p1 & p2 & H1 & H2 & _ & Ha & _).
  cbv zeta. exists p1, p2. split; [exact H1|].
  split.
  { rewrite (generate_miss_run clock fromisoformat json_loads chat_completion
               _get_system_prompt _build_prompt model text article_info
               style key content items w Hne Hk Hf Hc Hl) in H1.
    cbn [fst] in H1. injection H1 as <-. reflexivity. }
  split; [exact H2|].
  exact (export_of_dict_article py_str repr_article str_title p2 _ Ha).
Qed.

End CachedExportFacts.

(** An instance: the synthesis of the fixture, repeated a day later. *)
Lemma cached_protocol_cannot_be_exported_witness :
  let first :=
    generate_protocol Fixtures.daily_clock read_isoformat
      Fixtures.fixed_loads Fixtures.fixed_completion (py "system")
      Fixtures.plain_prompt (py "gpt-4-turbo-preview")
      (Some Fixtures.methods_one) Fixtures.some_article (py "detailed")
      Fixtures.empty_world in
  let second :=
    generate_protocol Fixtures.daily_clock read_isoformat
      Fixtures.fixed_loads Fixtures.fixed_completion (py "system")
      Fixtures.plain_prompt (py "gpt-4-turbo-preview")
      (Some Fixtures.methods_one) Fixtures.some_article (py "detailed")
      (snd first) in
  exists p1 p2,
    fst first = Returned p1
    /\ original_article p1 = ArticleObj Fixtures.some_article
    /\ fst second = Returned p2
    /\ to_markdown Exports.plain_str Exports.plain_repr Exports.plain_title p2
       = Raised AttributeError
    /\ to_latex p2 = Raised AttributeError.
Proof.
  refine (cached_protocol_cannot_be_exported Fixtures.daily_clock
            read_isoformat Fixtures.fixed_loads Fixtures.fixed_completion
            (py "system") Fixtures.plain_prompt Exports.plain_str
            Exports.plain_repr Exports.plain_title (py "gpt-4-turbo-preview")
            Fixtures.methods_one Fixtures.some_article
            (py "detailed") Fixtures.protocol_key (py "{}")
            [ (py "title", JStr (py "Heating")) ] Fixtures.empty_world
            methods_one_not_empty protocol_key_digest (lookup_empty _)
            eq_refl eq_refl _ _).
  - vm_compute. reflexivity.
  - vm_compute. reflexivity.
Defined.

(** An instance: the action of the one step of the fixture. *)
Lemma markdown_export_is_complete_witness :
  exists out,
    to_markdown Exports.plain_str Exports.plain_repr Exports.plain_title
      Exports.heating
    = Returned out
    /\ contains (py "heat the sample") out = true
    /\ contains (py "- 5% NaCl") out = true.
Proof.
  destruct (markdown_export_is_complete Exports.plain_str Exports.plain_repr
              Exports.plain_title Exports.heating Fixtures.some_article
              [JStr (py "water"); JStr (py "5% NaCl")]
              [JStr (py "beaker")]
              [JStr (py "fill the beaker")]
              [JDict [ (py "step", JInt 1);
                       (py "action", JStr (py "heat the sample"));
                       (py "time", JStr (py "5 min")) ]]
              [JStr (py "do not boil")]
              [JStr (py "hot surface")]
              [ (py "ph_level", JStr (py "7")) ]
              eq_refl eq_refl eq_refl eq_refl eq_refl
              (@List.Forall_cons _ _ _ _ (ex_intro _ _ eq_refl)
                 (@List.Forall_nil _ _))
              eq_refl eq_refl eq_refl)
    as (out & Ho & _ & Hr & _ & Hact & _).
  exists out. split; [exact Ho|]. split.
  - apply (Hact [ (py "step", JInt 1);
                  (py "action", JStr (py "heat the sample"));
                  (py "time", JStr (py "5 min")) ]
                (JStr (py "heat the sample")));
      [left; reflexivity | reflexivity].
  - apply (Hr (JStr (py "5% NaCl"))). left. right. left. reflexivity.
Defined.

(** An instance: the reagent with a percent sign. *)
Lemma latex_export_items_witness :
  exists out,
    to_latex Exports.heating = Returned out
    /\ contains (py "\item 5\% NaCl") out = true.
Proof.
  assert (Hsteps :
            Forall (fun items =>
                      dict_get (py "action") items = None
                      \/ exists s,
                           dict_get (py "action") items = Some (JStr s))
                   [[ (py "step", JInt 1);
                      (py "action", JStr (py "heat the sample"));
                      (py "time", JStr (py "5 min")) ]]).
  { constructor; [|constructor].
    right. exists (py "heat the sample"). reflexivity. }
  destruct (latex_export_items Exports.heating Fixtures.some_article
              (py "Heating") (py "2024-01-02T00:00:00")
              [py "water"; py "5% NaCl"]
              [[ (py "step", JInt 1);
                 (py "action", JStr (py "heat the sample"));
                 (py "time", JStr (py "5 min")) ]]
              eq_refl eq_refl eq_refl eq_refl eq_refl Hsteps)
    as (out & Ho & _ & Hr & _).
  exists out. split; [exact Ho|].
  apply (Hr (py "5% NaCl")). right. left. reflexivity.
Defined.

(** An instance: the percent sign of a concentration. *)
Lemma latex_escape_spec_witness :
  exists pre', [53%N; 92%N] = pre' ++ [92%N].
Proof.
  destruct (latex_escape_spec (py "5% NaCl")) as [Hback _].
  exact (Hback [53%N; 92%N] 37%N (py " NaCl") eq_refl (or_introl eq_refl)).
Defined.

(** An instance: the collaborator finds two articles and the cache write
    fails after the file was opened. *)
Lemma search_writes_only_its_result_witness :
  let run :=
    search_articles_under Fixtures.daily_clock read_isoformat
      Replies.two_ids_reply WriteFailed (py "PCR") 5 Fixtures.empty_world in
  fst run = Raised OSError
  /\ fs (snd run) = <[cache_file Fixtures.search_key := NotJson]> ∅
  /\ fst (get Fixtures.daily_clock read_isoformat Fixtures.search_key
            (mkWorld (fs (snd run)) 0 []))
     = Raised JSONDecodeError.
Proof.
  cbv zeta.
  assert (Hr : fst (search_articles_under Fixtures.daily_clock read_isoformat
                      Replies.two_ids_reply WriteFailed (py "PCR") 5
                      Fixtures.empty_world)
               = Raised OSError) by (vm_compute; reflexivity).
  assert (Hfile : fs (snd (search_articles_under Fixtures.daily_clock
                             read_isoformat Replies.two_ids_reply WriteFailed
                             (py "PCR") 5 Fixtures.empty_world))
                    !! cache_file Fixtures.search_key
                  = Some NotJson) by (vm_compute; reflexivity).
  destruct (search_writes_only_its_result Fixtures.daily_clock read_isoformat
              Replies.two_ids_reply WriteFailed (py "PCR") 5
              Fixtures.empty_world) as [_ Hraise].
  destruct (Hraise OSError Hr) as [Hsame|(key & _ & _ & Hkey & Hfs & Hget)].
  - rewrite Hsame in Hfile. cbn [fs Fixtures.empty_world] in Hfile.
    rewrite lookup_empty in Hfile. discriminate Hfile.
  - rewrite search_key_digest in Hkey. injection Hkey as <-.
    split; [exact Hr|]. split; [exact Hfs|]. apply Hget.
Defined.

(** An instance: the protocol is built and the cache write fails after
    the file was opened. *)
Lemma generate_writes_only_its_result_witness :
  let run :=
    generate_protocol_under Fixtures.daily_clock read_isoformat
      Fixtures.fixed_loads Fixtures.fixed_completion (py "system")
      Fixtures.plain_prompt WriteFailed (py "gpt-4-turbo-preview")
      (Some Fixtures.methods_one) Fixtures.some_article (py "detailed")
      Fixtures.empty_world in
  fst run = Raised OSError
  /\ fs (snd run) = <[cache_file Fixtures.protocol_key := NotJson]> ∅
  /\ fst (get Fixtures.daily_clock read_isoformat Fixtures.protocol_key
            (mkWorld (fs (snd run)) 0 []))
     = Raised JSONDecodeError.
Proof.
  cbv zeta.
  assert (Hr : fst (generate_protocol_under Fixtures.daily_clock
                      read_isoformat Fixtures.fixed_loads
                      Fixtures.fixed_completion (py "system")
                      Fixtures.plain_prompt WriteFailed
                      (py "gpt-4-turbo-preview") (Some Fixtures.methods_one)
                      Fixtures.some_article (py "detailed")
                      Fixtures.empty_world)
               = Raised OSError) by (vm_compute; reflexivity).
  assert (Hfile : fs (snd (generate_protocol_under Fixtures.daily_clock
                             read_isoformat Fixtures.fixed_loads
                             Fixtures.fixed_completion (py "system")
                             Fixtures.plain_prompt WriteFailed
                             (py "gpt-4-turbo-preview")
                             (Some Fixtures.methods_one)
                             Fixtures.some_article (py "detailed")
                             Fixtures.empty_world))
                    !! cache_file Fixtures.protocol_key
                  = Some NotJson) by (vm_compute; reflexivity).
  destruct (generate_writes_only_its_result Fixtures.daily_clock
              read_isoformat Fixtures.fixed_loads Fixtures.fixed_completion
              (py "system") Fixtures.plain_prompt WriteFailed
              (py "gpt-4-turbo-preview") (Some Fixtures.methods_one)
              Fixtures.some_article (py "detailed") Fixtures.empty_world)
    as [_ Hraise].
  destruct (Hraise OSError Hr) as [Hsame|(key & _ & _ & Hkey & Hfs & Hget)].
  - rewrite Hsame in Hfile. cbn [fs Fixtures.empty_world] in Hfile.
    rewrite lookup_empty in Hfile. discriminate Hfile.
  - change (default [] (Some Fixtures.methods_one))
      with Fixtures.methods_one in Hkey.
    rewrite protocol_key_digest in Hkey. injection Hkey as <-.
    split; [exact Hr|]. split; [exact Hfs|]. apply Hget.
Defined.
